(** * purplship: the measurement subsystem, packages and response parsers

    A shallow embedding of [purplship/core/units.py],
    [purplship/core/utils/number.py] and of the response parsers of the
    DHL, UPS, USPS and Canada Post extensions, followed by the options
    and the phone numbers of [units.py], the envelopes of
    [purplship/core/utils/soap.py] and the request builders of the DHL
    and UPS extensions.  The embedding comes first, then the vocabulary
    and the sample inputs of the statements, then the properties, claim
    by claim, and the further properties of the code. *)

From Stdlib Require Import ZArith Bool List Lia Ascii Reals Lra.
From Stdlib Require Import Floats.SpecFloat.
From stdpp Require Import base option list strings pretty gmap.

Local Open Scope Z_scope.

(** ** Python floats

    A Python [float] is an IEEE 754 binary64 number.  It is modelled by
    [spec_float] at precision 53 and maximal exponent 1024, with the
    operations of [SpecFloat], which compute on [Z].  The numbers of the
    payload are floats; an [int] behaves as the float of that value in
    every operation below. *)

Module PyFloat.

Definition prec : Z := 53.
Definition emax : Z := 1024.

Definition float : Type := spec_float.

Definition mul : float -> float -> float := SFmul prec emax.
Definition add : float -> float -> float := SFadd prec emax.
Definition div : float -> float -> float := SFdiv prec emax.

(** [float(n)] for an integer [n]. *)
Definition of_Z (n : Z) : float := binary_normalize prec emax n 0 false.

(** The float nearest to the decimal [n / d] ([d > 0]): what the
    interpreter reads for a literal such as [0.393701] or [2.54]. *)
Definition of_ratio (n : Z) (d : positive) : float :=
  match n with
  | Z0 => S754_zero false
  | Zpos m => SFdiv prec emax (S754_finite false m 0) (S754_finite false d 0)
  | Zneg m => SFdiv prec emax (S754_finite true m 0) (S754_finite false d 0)
  end.

(** [x == y] and [x < y] on floats (false on NaN). *)
Definition eqb : float -> float -> bool := SFeqb.
Definition ltb : float -> float -> bool := SFltb.

(** [bool(x)]: every float but [0.0] and [-0.0] is truthy. *)
Definition truthy (x : float) : bool :=
  match x with
  | S754_zero _ => false
  | _ => true
  end.

(** Division of [n >= 0] by [d > 0] rounded to the nearest integer,
    ties to the even one. *)
Definition div_half_even (n d : Z) : Z :=
  let q := n / d in
  let r := n mod d in
  match 2 * r ?= d with
  | Lt => q
  | Gt => q + 1
  | Eq => if Z.even q then q else q + 1
  end.

(** The number of hundredths nearest to [m * 2^e] (ties to even). *)
Definition hundredths (m : positive) (e : Z) : Z :=
  match e with
  | Zneg k => div_half_even (100 * Zpos m) (2 ^ Zpos k)
  | _ => 100 * Zpos m * 2 ^ e
  end.

(** [round(x, 2)]: the interpreter writes [x] correctly rounded with two
    digits after the point and reads the digits back.  Zeros,
    infinities and NaN round to themselves; the sign survives a result
    of zero. *)
Definition round2 (x : float) : float :=
  match x with
  | S754_finite s m e =>
      match hundredths m e with
      | Zpos q => SFdiv prec emax (S754_finite s q 0) (S754_finite false 100 0)
      | _ => S754_zero s
      end
  | _ => x
  end.

End PyFloat.

Abbreviation float := PyFloat.float.

(** [decimal] of [purplship/core/utils/number.py]: [None] stays [None],
    a number is rounded to two decimal places. *)
Definition decimal (value : option float) : option float :=
  match value with
  | None => None
  | Some v => Some (PyFloat.round2 v)
  end.

(** ** Exceptions and results *)

Module FieldErrorCode.
Inductive t : Set := required.
End FieldErrorCode.

Inductive exn : Type :=
  | TypeError
  | AttributeError
  | KeyError
  | IndexError
  | StopIteration
  | MultiParcelNotSupportedError
  | FieldError (errors : gmap string FieldErrorCode.t).

Inductive result (A : Type) : Type :=
  | Ok (a : A)
  | Raise (e : exn).

Arguments Ok {A} a.
Arguments Raise {A} e.

Definition bind {A B : Type} (r : result A) (k : A -> result B) : result B :=
  match r with
  | Ok a => k a
  | Raise e => Raise e
  end.

Notation "'let*' x ':=' r 'in' k" := (bind r (fun x => k))
  (at level 10, x name, r at level 100, k at level 200).

(** ** Truthiness and operators on optional numbers *)

(** [bool(v)] for [v] a float or [None]. *)
Definition truthy (v : option float) : bool :=
  match v with
  | None => false
  | Some x => PyFloat.truthy x
  end.

(** [a or b]. *)
Definition py_or (a b : option float) : option float :=
  if truthy a then a else b.

(** [bool(s)] and [a or b] for a string or [None]. *)
Definition truthy_str (s : option string) : bool :=
  match s with
  | None | Some EmptyString => false
  | Some _ => true
  end.

Definition py_or_str (a b : option string) : option string :=
  if truthy_str a then a else b.

(** [a * b], [a + b] and [a < b]: [None] is not a number. *)
Definition py_mul (a b : option float) : result (option float) :=
  match a, b with
  | Some x, Some y => Ok (Some (PyFloat.mul x y))
  | _, _ => Raise TypeError
  end.

Definition py_add (a b : option float) : result (option float) :=
  match a, b with
  | Some x, Some y => Ok (Some (PyFloat.add x y))
  | _, _ => Raise TypeError
  end.

Definition py_lt (a b : option float) : result bool :=
  match a, b with
  | Some x, Some y => Ok (PyFloat.ltb x y)
  | _, _ => Raise TypeError
  end.

(** [list.sort()] on a short list is an insertion sort: each element is
    compared (with [<]) against the sorted prefix, and the first
    comparison that raises ends the sort.  On numbers without NaN the
    result is the sorted list, whatever the order of the comparisons. *)
Fixpoint insert_sorted (x : option float) (l : list (option float))
  : result (list (option float)) :=
  match l with
  | [] => Ok [x]
  | y :: l' =>
      let* b := py_lt x y in
      if b then Ok (x :: y :: l')
      else (let* r := insert_sorted x l' in Ok (y :: r))
  end.

Fixpoint sort_from (sorted rest : list (option float))
  : result (list (option float)) :=
  match rest with
  | [] => Ok sorted
  | x :: rest' => let* s := insert_sorted x sorted in sort_from s rest'
  end.

Definition list_sort (l : list (option float)) : result (list (option float)) :=
  match l with
  | [] => Ok []
  | [x] => Ok [x]
  | x :: rest => sort_from [x] rest
  end.

(** ** Units of measure *)

Module WeightUnit.
Inductive t : Set := KG | LB.
End WeightUnit.

Module DimensionUnit.
Inductive t : Set := CM | IN.
End DimensionUnit.

(** The literals of the conversions. *)
Definition c_0_393701 : float := PyFloat.of_ratio 393701 1000000.
Definition c_2_54 : float := PyFloat.of_ratio 254 100.
Definition c_0_453592 : float := PyFloat.of_ratio 453592 1000000.
Definition c_2_204620823516057 : float :=
  PyFloat.of_ratio 2204620823516057 1000000000000000.
Definition c_35_274 : float := PyFloat.of_ratio 35274 1000.
Definition c_16 : float := PyFloat.of_Z 16.
Definition c_100 : float := PyFloat.of_Z 100.
Definition c_250 : float := PyFloat.of_Z 250.

Module Dimension.

Record t : Type := Build { _value : option float; _unit : option DimensionUnit.t }.

Definition CM (self : t) : option float :=
  match _unit self, _value self with
  | None, _ | _, None => None
  | Some DimensionUnit.CM, Some v => decimal (Some v)
  | Some DimensionUnit.IN, Some v => decimal (Some (PyFloat.mul v c_0_393701))
  end.

Definition IN (self : t) : option float :=
  match _unit self, _value self with
  | None, _ | _, None => None
  | Some DimensionUnit.IN, Some v => decimal (Some v)
  | Some DimensionUnit.CM, Some v => decimal (Some (PyFloat.mul v c_2_54))
  end.

Definition M (self : t) : option float :=
  match _unit self, _value self with
  | None, _ | _, None => None
  | Some _, Some _ =>
      match CM self with
      | Some cm => decimal (Some (PyFloat.div cm c_100))
      | None => None
      end
  end.

(** [self.__getattribute__(str(self._unit.name))]: a missing unit has
    no [name]. *)
Definition value (self : t) : result (option float) :=
  match _unit self with
  | None => Raise AttributeError
  | Some DimensionUnit.CM => Ok (CM self)
  | Some DimensionUnit.IN => Ok (IN self)
  end.

End Dimension.

Module Volume.

(** The sides are [Dimension] objects (the default [None] of the
    constructor is not a side). *)
Record t : Type :=
  Build { _side1 : Dimension.t; _side2 : Dimension.t; _side3 : Dimension.t }.

Definition value (self : t) : result (option float) :=
  let* v1 := Dimension.value (_side1 self) in
  let* v2 := Dimension.value (_side2 self) in
  let* v3 := Dimension.value (_side3 self) in
  if negb (truthy v1 || truthy v2 || truthy v3) then Ok None
  else
    let* p12 := py_mul (Dimension.M (_side1 self)) (Dimension.M (_side2 self)) in
    let* p := py_mul p12 (Dimension.M (_side3 self)) in
    Ok (decimal p).

Definition cubic_meter (self : t) : result (option float) :=
  let* v := value self in
  match v with
  | None => Ok None
  | Some x => Ok (decimal (Some (PyFloat.mul x c_250)))
  end.

End Volume.

Module Girth.

Record t : Type :=
  Build { _side1 : Dimension.t; _side2 : Dimension.t; _side3 : Dimension.t }.

Definition sides (self : t) : list (option float) :=
  [Dimension.CM (_side1 self); Dimension.CM (_side2 self);
   Dimension.CM (_side3 self)].

Definition value (self : t) : result (option float) :=
  if negb (existsb truthy (sides self)) then Ok None
  else
    let* sorted := list_sort (sides self) in
    match sorted with
    | [small_side1; small_side2; _] =>
        let* s := py_add small_side1 small_side2 in
        let* d := py_mul s (Some (PyFloat.of_Z 2)) in
        Ok (decimal d)
    | _ => Raise TypeError (* not reached: there are three sides *)
    end.

End Girth.

Module Weight.

Record t : Type := Build { _value : option float; _unit : option WeightUnit.t }.

Definition KG (self : t) : option float :=
  match _unit self, _value self with
  | None, _ | _, None => None
  | Some WeightUnit.KG, Some v => decimal (Some v)
  | Some WeightUnit.LB, Some v => decimal (Some (PyFloat.mul v c_0_453592))
  end.

Definition LB (self : t) : option float :=
  match _unit self, _value self with
  | None, _ | _, None => None
  | Some WeightUnit.LB, Some v => decimal (Some v)
  | Some WeightUnit.KG, Some v =>
      decimal (Some (PyFloat.mul v c_2_204620823516057))
  end.

Definition OZ (self : t) : option float :=
  match _unit self, _value self with
  | None, _ | _, None => None
  | Some WeightUnit.LB, Some v => decimal (Some (PyFloat.mul v c_16))
  | Some WeightUnit.KG, Some v => decimal (Some (PyFloat.mul v c_35_274))
  end.

Definition value (self : t) : result (option float) :=
  match _unit self with
  | None => Raise AttributeError
  | Some WeightUnit.KG => Ok (KG self)
  | Some WeightUnit.LB => Ok (LB self)
  end.

End Weight.

(** ** Parcels, presets and packages *)

Module PackagePreset.

Record t : Type := Build {
  width : option float;
  height : option float;
  length : option float;
  weight : option float;
  volume : option float;
  weight_unit : option string;
  dimension_unit : option string;
  packaging_type : option string
}.

(** [PackagePreset()]: the defaults of the dataclass. *)
Definition default : t :=
  {| width := None; height := None; length := None; weight := None;
     volume := None; weight_unit := Some "LB"%string;
     dimension_unit := Some "IN"%string; packaging_type := None |}.

End PackagePreset.

Module Parcel.

(** Modelled from the spec: the [Parcel] payload of
    [purplship.core.models], "raw physical attributes, optional preset
    name, optional explicit units"; the fields are those that
    [units.py] reads. *)
Record t : Type := Build {
  height : option float;
  width : option float;
  length : option float;
  weight : option float;
  weight_unit : option string;
  dimension_unit : option string;
  packaging_type : option string;
  package_preset : option string
}.

End Parcel.

(** [DimensionUnit[unit]] and [WeightUnit[unit]]: the member of that
    name, or [KeyError]. *)
Definition DimensionUnit_getitem (unit : option string) : result DimensionUnit.t :=
  match unit with
  | Some "CM"%string => Ok DimensionUnit.CM
  | Some "IN"%string => Ok DimensionUnit.IN
  | _ => Raise KeyError
  end.

Definition WeightUnit_getitem (unit : option string) : result WeightUnit.t :=
  match unit with
  | Some "KG"%string => Ok WeightUnit.KG
  | Some "LB"%string => Ok WeightUnit.LB
  | _ => Raise KeyError
  end.

Module Package.

Record t : Type := Build { parcel : Parcel.t; preset : PackagePreset.t }.

(** [Package(parcel, template)]: [template or PackagePreset()]. *)
Definition __init__ (parcel : Parcel.t) (template : option PackagePreset.t) : t :=
  {| parcel := parcel;
     preset := match template with
               | Some p => p
               | None => PackagePreset.default
               end |}.

Definition dimension_unit (self : t) : result DimensionUnit.t :=
  let dimensions :=
    [Parcel.height (parcel self); Parcel.width (parcel self);
     Parcel.length (parcel self)] in
  let unit :=
    if existsb truthy dimensions
    then py_or_str (Parcel.dimension_unit (parcel self))
                   (PackagePreset.dimension_unit (preset self))
    else PackagePreset.dimension_unit (preset self) in
  DimensionUnit_getitem unit.

Definition weight_unit (self : t) : result WeightUnit.t :=
  let unit :=
    match Parcel.weight (parcel self) with
    | None => PackagePreset.weight_unit (preset self)
    | Some _ => py_or_str (Parcel.weight_unit (parcel self))
                          (PackagePreset.weight_unit (preset self))
    end in
  WeightUnit_getitem unit.

Definition packaging_type (self : t) : option string :=
  py_or_str (Parcel.packaging_type (parcel self))
            (PackagePreset.packaging_type (preset self)).

Definition weight (self : t) : result Weight.t :=
  let* u := weight_unit self in
  Ok (Weight.Build
        (py_or (Parcel.weight (parcel self)) (PackagePreset.weight (preset self)))
        (Some u)).

Definition width (self : t) : result Dimension.t :=
  let* u := dimension_unit self in
  Ok (Dimension.Build
        (py_or (PackagePreset.width (preset self)) (Parcel.width (parcel self)))
        (Some u)).

Definition height (self : t) : result Dimension.t :=
  let* u := dimension_unit self in
  Ok (Dimension.Build
        (py_or (PackagePreset.height (preset self)) (Parcel.height (parcel self)))
        (Some u)).

Definition length (self : t) : result Dimension.t :=
  let* u := dimension_unit self in
  Ok (Dimension.Build
        (py_or (PackagePreset.length (preset self)) (Parcel.length (parcel self)))
        (Some u)).

Definition girth (self : t) : result Girth.t :=
  let* w := width self in
  let* l := length self in
  let* h := height self in
  Ok (Girth.Build w l h).

Definition volume (self : t) : result Volume.t :=
  let* w := width self in
  let* l := length self in
  let* h := height self in
  Ok (Volume.Build w l h).

(** [self.preset.thickness]: a preset has no such attribute. *)
Definition thickness (self : t) : result Dimension.t := Raise AttributeError.

End Package.

(** What [getattr(package, field)] may return, for the attributes that
    [Package] declares (the attributes that every object inherits are
    left out: their names raise [AttributeError] here). *)
Inductive attr : Type :=
  | AParcel (p : Parcel.t)
  | APreset (p : PackagePreset.t)
  | ADimensionUnit (u : DimensionUnit.t)
  | AWeightUnit (u : WeightUnit.t)
  | AStr (s : option string)
  | AWeight (w : Weight.t)
  | ADimension (d : Dimension.t)
  | AGirth (g : Girth.t)
  | AVolume (v : Volume.t).

Definition getattr (package : Package.t) (field : string) : result attr :=
  if String.eqb field "parcel" then Ok (AParcel (Package.parcel package))
  else if String.eqb field "preset" then Ok (APreset (Package.preset package))
  else if String.eqb field "dimension_unit" then
    (let* u := Package.dimension_unit package in Ok (ADimensionUnit u))
  else if String.eqb field "weight_unit" then
    (let* u := Package.weight_unit package in Ok (AWeightUnit u))
  else if String.eqb field "packaging_type" then
    Ok (AStr (Package.packaging_type package))
  else if String.eqb field "weight" then
    (let* w := Package.weight package in Ok (AWeight w))
  else if String.eqb field "width" then
    (let* d := Package.width package in Ok (ADimension d))
  else if String.eqb field "height" then
    (let* d := Package.height package in Ok (ADimension d))
  else if String.eqb field "length" then
    (let* d := Package.length package in Ok (ADimension d))
  else if String.eqb field "girth" then
    (let* g := Package.girth package in Ok (AGirth g))
  else if String.eqb field "volume" then
    (let* v := Package.volume package in Ok (AVolume v))
  else if String.eqb field "thickness" then
    (let* d := Package.thickness package in Ok (ADimension d))
  else Raise AttributeError.

(** [hasattr(prop, 'value') and prop.value is None], for [prop] that has
    a [value] property: [hasattr] turns an [AttributeError] into [False]
    and lets any other exception through. *)
Definition value_is_None (v : result (option float)) : result bool :=
  match v with
  | Raise AttributeError => Ok false
  | Raise e => Raise e
  | Ok None => Ok true
  | Ok (Some _) => Ok false
  end.

(** [prop is None or (hasattr(prop, 'value') and prop.value is None)]. *)
Definition is_missing (prop : attr) : result bool :=
  match prop with
  | AStr None => Ok true
  | AStr (Some _) => Ok false
  | AParcel _ | APreset _ => Ok false
  | ADimensionUnit _ | AWeightUnit _ => Ok false
  | AWeight w => value_is_None (Weight.value w)
  | ADimension d => value_is_None (Dimension.value d)
  | AGirth g => value_is_None (Girth.value g)
  | AVolume v => value_is_None (Volume.value v)
  end.

Module Packages.

Record t : Type := Build { _items : list Package.t }.

Definition compute_preset (presets : option (gmap string PackagePreset.t))
    (parcel : Parcel.t) : option PackagePreset.t :=
  match presets with
  | None => None
  | Some members =>
      match Parcel.package_preset parcel with
      | None => None
      | Some name => members !! name
      end
  end.

(** The key [f"parcel[{index}].{field}"]. *)
Definition error_key (index : nat) (field : string) : string :=
  ("parcel[" +:+ pretty index +:+ "]." +:+ field)%string.

(** The inner loop, [for field in required], on one package. *)
Fixpoint check_fields (index : nat) (package : Package.t)
    (required : list string) (errors : gmap string FieldErrorCode.t)
  : result (gmap string FieldErrorCode.t) :=
  match required with
  | [] => Ok errors
  | field :: fields =>
      let* prop := getattr package field in
      let* missing := is_missing prop in
      check_fields index package fields
        (if missing then <[error_key index field := FieldErrorCode.required]> errors
         else errors)
  end.

(** The outer loop, [for index, package in enumerate(self._items)]. *)
Fixpoint check_items (index : nat) (items : list Package.t)
    (required : list string) (errors : gmap string FieldErrorCode.t)
  : result (gmap string FieldErrorCode.t) :=
  match items with
  | [] => Ok errors
  | package :: rest =>
      let* errors' := check_fields index package required errors in
      check_items (S index) rest required errors'
  end.

(** [Packages(parcels, presets, required)]. *)
Definition __init__ (parcels : list Parcel.t)
    (presets : option (gmap string PackagePreset.t))
    (required : option (list string)) : result t :=
  let items :=
    map (fun parcel => Package.__init__ parcel (compute_preset presets parcel))
        parcels in
  match required with
  | None => Ok (Build items)
  | Some fields =>
      let* errors := check_items 0 items fields ∅ in
      if bool_decide (errors = ∅) then Ok (Build items)
      else Raise (FieldError errors)
  end.

Definition __len__ (self : t) : nat := List.length (_items self).

Definition single (self : t) : result Package.t :=
  if (1 <? List.length (_items self))%nat
  then Raise MultiParcelNotSupportedError
  else match _items self with
       | [] => Raise IndexError
       | package :: _ => Ok package
       end.

(** [sum(pkg.weight.LB for pkg in self._items
         if pkg.weight.value is not None)], from the start value [0]. *)
Fixpoint sum_LB (items : list Package.t) (acc : float) : result float :=
  match items with
  | [] => Ok acc
  | pkg :: rest =>
      let* w := Package.weight pkg in
      let* v := Weight.value w in
      match v with
      | None => sum_LB rest acc
      | Some _ =>
          let* w' := Package.weight pkg in
          match Weight.LB w' with
          | Some lb => sum_LB rest (PyFloat.add acc lb)
          | None => Raise TypeError
          end
      end
  end.

Definition weight (self : t) : result Weight.t :=
  let* total := sum_LB (_items self) (PyFloat.of_Z 0) in
  Ok (Weight.Build (py_or (Some total) None) (Some WeightUnit.LB)).

End Packages.

(** ** Response trees

    A carrier response is an already parsed tree; a node has a tag (its
    local name), an optional text and children. *)

#[warnings="-register-all"] Inductive Element : Type :=
  Node (tag : string) (text : option string) (children : list Element).

Definition tag (e : Element) : string := let 'Node t _ _ := e in t.
Definition text (e : Element) : option string := let 'Node _ x _ := e in x.
Definition children (e : Element) : list Element := let 'Node _ _ c := e in c.

(** The descendants of a node, in document order (the node itself is not
    one of them). *)
Fixpoint descendants (e : Element) : list Element :=
  match e with
  | Node _ _ cs => flat_map (fun c => c :: descendants c) cs
  end.

(** [node.xpath(".//*[local-name() = $name]", name=name)]. *)
Definition xpath (e : Element) (name : string) : list Element :=
  List.filter (fun n => String.eqb (tag n) name) (descendants e).

(** [needle in hay] on strings. *)
Fixpoint contains (needle hay : string) : bool :=
  if String.prefix needle hay then true
  else match hay with
       | EmptyString => false
       | String _ hay' => contains needle hay'
       end.

(** [needle in hay] when [hay] may be [None], which is not iterable. *)
Definition py_in (needle : string) (hay : option string) : result bool :=
  match hay with
  | Some h => Ok (contains needle h)
  | None => Raise TypeError
  end.

(** [[f(x) for x in l]] when [f] may raise. *)
Fixpoint mapM {A B : Type} (f : A -> result B) (l : list A) : result (list B) :=
  match l with
  | [] => Ok []
  | x :: l' => let* y := f x in let* ys := mapM f l' in Ok (y :: ys)
  end.

(** [reduce(f, l, acc)] when [f] may raise. *)
Fixpoint reduceM {A B : Type} (f : B -> A -> result B) (l : list A) (acc : B)
  : result B :=
  match l with
  | [] => Ok acc
  | x :: l' => let* acc' := f acc x in reduceM f l' acc'
  end.

(** ** Unified models *)

Record Settings : Type := {
  carrier : string;
  carrier_name : string;
  carrier_id : string
}.

Module Message.
Record t : Type := Build {
  carrier_name : string;
  carrier_id : string;
  code : string;
  message : option string
}.
End Message.

Module ChargeDetails.
Record t : Type := Build {
  name : option string;
  amount : option float;
  currency : option string
}.
End ChargeDetails.

Module RateDetails.
Record t : Type := Build {
  carrier_name : string;
  carrier_id : string;
  currency : option string;
  transit_days : option Z;
  service : option string;
  base_charge : option float;
  total_charge : option float;
  duties_and_taxes : option float;
  discount : option float;
  extra_charges : list ChargeDetails.t
}.
End RateDetails.

Module ConfirmationDetails.
Record t : Type := Build {
  carrier : string;
  carrier_name : string;
  success : bool
}.
End ConfirmationDetails.

(** ** USPS: [providers/usps/error.py] *)

Module USPS.

(** The generated binding [pyusps.error.Error], after [build]. *)
Record Error : Type := { Number : option Z; Description : option string }.

(** [str(error.Number)]. *)
Definition str_Number (n : option Z) : string :=
  match n with
  | Some z => pretty z
  | None => "None"
  end.

Section Parser.

(** [Error().build(node)], of the generated bindings. *)
Variable Error_build : Element -> Error.

Definition parse_error_response (response : Element) (settings : Settings)
  : list Message.t :=
  let error_nodes :=
    map Error_build
        (if String.eqb (tag response) "Error" then [response]
         else xpath response "Error") in
  map (fun error =>
         Message.Build (carrier_name settings) (carrier_id settings)
                       (str_Number (Number error)) (Description error))
      error_nodes.

End Parser.

End USPS.

(** ** DHL: [providers/dhl/dct_quote.py] *)

Module DHL.

(** The generated bindings of [pydhl.dct_response_global_2_0], after
    [build]: the fields that the parser reads. *)
Record QtdShpExChrgType : Type := {
  LocalServiceTypeName : option string;
  ChargeValue : option float
}.

Record DeliveryDateType : Type := { DlvyDateTime : option string }.

Record ResponseQtdShpType : Type := {
  ShippingCharge : option float;
  WeightCharge : option float;
  CurrencyCode : option string;
  LocalProductName : option string;
  QtdShpExChrg : list QtdShpExChrgType;
  DeliveryDate : list DeliveryDateType;
  PricingDate : option string
}.

(** [qtdshp.ShippingCharge is None or qtdshp.ShippingCharge == 0]. *)
Definition no_charge (charge : option float) : bool :=
  match charge with
  | None => true
  | Some c => PyFloat.eqb c (PyFloat.of_Z 0)
  end.

Section Parser.

(** [ResponseQtdShpType().build(node)], of the generated bindings. *)
Variable QtdShp_build : Element -> ResponseQtdShpType.

(** [to_date] of [purplship.core.utils], with its format, and the
    [days] of the difference of two dates. *)
Variable date : Type.
Variable to_date : option string -> option string -> result (option date).
Variable days_between : date -> date -> Z.

(** The members [(name, value)] of the enumeration [Product] of
    [purplship.providers.dhl.units]. *)
Variable Product : list (string * string).

(** [purplship.providers.dhl.error.parse_error_response]. *)
Variable parse_error_response : Element -> Settings -> list Message.t.

(** [reduce(lambda d, ec: d + ec.amount if label in ec.name else d,
            ExtraCharges, 0.0)]. *)
Definition sum_matching (label : string) (charges : list ChargeDetails.t)
  : result (option float) :=
  reduceM
    (fun d ec =>
       let* matches := py_in label (ChargeDetails.name ec) in
       if matches then py_add d (ChargeDetails.amount ec) else Ok d)
    charges (Some (PyFloat.of_Z 0)).

(** [next((p.name for p in Product if p.value in name), name)]. *)
Fixpoint service_name (products : list (string * string))
    (name : option string) : result (option string) :=
  match products with
  | [] => Ok name
  | (p_name, p_value) :: rest =>
      let* found := py_in p_value name in
      if found then Ok (Some p_name) else service_name rest name
  end.

Definition _extract_quote (qtdshp_node : Element) (settings : Settings)
  : result (option RateDetails.t) :=
  let qtdshp := QtdShp_build qtdshp_node in
  if no_charge (ShippingCharge qtdshp) then Ok None
  else
    let ExtraCharges :=
      map (fun s =>
             ChargeDetails.Build
               (LocalServiceTypeName s)
               (decimal (py_or (ChargeValue s) (Some (PyFloat.of_Z 0))))
               None)
          (QtdShpExChrg qtdshp) in
    let* Discount_ := sum_matching "Discount" ExtraCharges in
    let* DutiesAndTaxes_ := sum_matching "TAXES PAID" ExtraCharges in
    let* first_date :=
      match DeliveryDate qtdshp with
      | [] => Raise IndexError
      | d :: _ => Ok d
      end in
    let* delivery_date :=
      to_date (DlvyDateTime first_date) (Some "%Y-%m-%d %H:%M:%S"%string) in
    let* pricing_date := to_date (PricingDate qtdshp) None in
    let transit :=
      match delivery_date, pricing_date with
      | Some d, Some p => Some (days_between d p)
      | _, _ => None
      end in
    let* service := service_name Product (LocalProductName qtdshp) in
    Ok (Some
          (RateDetails.Build
             (carrier_name settings)
             (carrier_id settings)
             (CurrencyCode qtdshp)
             transit
             service
             (decimal (WeightCharge qtdshp))
             (decimal (ShippingCharge qtdshp))
             (decimal DutiesAndTaxes_)
             (decimal Discount_)
             (map (fun s =>
                     ChargeDetails.Build
                       (LocalServiceTypeName s)
                       (decimal (ChargeValue s))
                       (CurrencyCode qtdshp))
                  (QtdShpExChrg qtdshp)))).

Definition parse_dct_response (response : Element) (settings : Settings)
  : result (list RateDetails.t * list Message.t) :=
  let qtdshp_list := xpath response "QtdShp" in
  let* quotes :=
    mapM (fun qtdshp_node => _extract_quote qtdshp_node settings)
         qtdshp_list in
  Ok (omap (fun quote => quote) quotes, parse_error_response response settings).

End Parser.

End DHL.

(** ** UPS: [providers/ups/freight/freight_rate.py] *)

Module UPS.

(** The generated bindings of [pyups.freight_rate_web_service_schema],
    after [build]; [Type.Code], [Factor.Value],
    [Factor.UnitOfMeasurement.Code], [Service.Description] and
    [TotalShipmentCharge.MonetaryValue] are read through sub-records
    that are present. *)
Record RateType : Type := {
  Type_Code : option string;
  Factor_Value : option float;
  Factor_UnitOfMeasurement_Code : option string
}.

Record FreightRateResponse : Type := {
  Rate : list RateType;
  Service_Description : option string;
  TotalShipmentCharge_MonetaryValue : option float
}.

Definition code_is (code : string) (r : RateType) : bool :=
  match Type_Code r with
  | Some c => String.eqb c code
  | None => false
  end.

(** [r.Type.Code not in ["DSCNT", "AFTR_DSCNT", "DSCNT_RATE", "LND_GROSS"]]. *)
Definition is_surcharge (r : RateType) : bool :=
  negb (code_is "DSCNT" r || code_is "AFTR_DSCNT" r
        || code_is "DSCNT_RATE" r || code_is "LND_GROSS" r).

Definition charge_of (r : RateType) : ChargeDetails.t :=
  ChargeDetails.Build (Type_Code r) (decimal (Factor_Value r))
                      (Factor_UnitOfMeasurement_Code r).

(** [reduce(lambda r, c: r + c.amount, charges, 0.0)]. *)
Definition sum_amounts (charges : list ChargeDetails.t) : result (option float) :=
  reduceM (fun r c => py_add r (ChargeDetails.amount c))
          charges (Some (PyFloat.of_Z 0)).

Section Parser.

(** [FreightRateResponse().build(node)], of the generated bindings. *)
Variable FreightRateResponse_build : Element -> FreightRateResponse.

(** [purplship.providers.ups.error.parse_error_response]. *)
Variable parse_error_response : Element -> Settings -> list Message.t.

Definition _extract_freight_rate (detail_node : Element) (settings : Settings)
  : result RateDetails.t :=
  let detail := FreightRateResponse_build detail_node in
  let* total_charge :=
    match List.filter (code_is "AFTR_DSCNT") (Rate detail) with
    | [] => Raise IndexError
    | r :: _ => Ok r
    end in
  let Discounts_ := map charge_of (List.filter (code_is "DSCNT") (Rate detail)) in
  let Surcharges_ := map charge_of (List.filter is_surcharge (Rate detail)) in
  let extra_charges := Discounts_ ++ Surcharges_ in
  let* currency_ :=
    match xpath detail_node "CurrencyCode" with
    | [] => Raise StopIteration
    | c :: _ => Ok (text c)
    end in
  let* surcharges_total := sum_amounts Surcharges_ in
  let* discounts_total := sum_amounts Discounts_ in
  Ok (RateDetails.Build
        (carrier_name settings)
        (carrier_id settings)
        currency_
        None
        (Service_Description detail)
        (decimal (TotalShipmentCharge_MonetaryValue detail))
        (decimal (py_or (Factor_Value total_charge) (Some (PyFloat.of_Z 0))))
        (decimal surcharges_total)
        (decimal discounts_total)
        extra_charges).

Definition parse_freight_rate_response (response : Element) (settings : Settings)
  : result (list RateDetails.t * list Message.t) :=
  let rate_reply := xpath response "FreightRateResponse" in
  let* rates :=
    mapM (fun detail_node => _extract_freight_rate detail_node settings)
         rate_reply in
  Ok (rates, parse_error_response response settings).

End Parser.

End UPS.

(** ** Canada Post: [carriers/canadapost/pickup/cancel_pickup.py] *)

Module CanadaPost.

Section Parser.

(** [purplship.carriers.canadapost.error.parse_error_response]. *)
Variable parse_error_response : Element -> Settings -> list Message.t.

Definition parse_cancel_pickup_response (response : Element) (settings : Settings)
  : option ConfirmationDetails.t * list Message.t :=
  let errors := parse_error_response response settings in
  let cancellation :=
    if Nat.eqb (List.length errors) 0
    then Some (ConfirmationDetails.Build (carrier settings)
                                         (carrier_name settings) true)
    else None in
  (cancellation, errors).

End Parser.

End CanadaPost.

(** ** Enumerations

    An enumeration of the code is given by its members [(name, value)],
    in the order of their definition. *)

(** [name in Enum.__members__]. *)
Definition Enum_is_member {A : Type} (members : list (string * A)) (name : string)
  : bool :=
  existsb (fun m => String.eqb (fst m) name) members.

(** [Enum[name]] on an enumeration given by its members
    [(name, value)]: the value of the member of that name, or
    [KeyError]; [None] is no name. *)
Fixpoint Enum_getitem {A : Type} (members : list (string * A))
    (name : option string) : result A :=
  match members, name with
  | (n, v) :: members', Some s =>
      if String.eqb n s then Ok v else Enum_getitem members' name
  | _, _ => Raise KeyError
  end.

(** ** Options and phone numbers: [purplship/core/units.py] *)

(** The values of a payload dictionary: [None], a boolean, a number, a
    text or a nested dictionary. *)
#[warnings="-register-all"] Inductive pyvalue : Type :=
  | VNone
  | VBool (b : bool)
  | VNum (x : float)
  | VStr (s : string)
  | VDict (items : list (string * pyvalue)).

(** A dictionary with text keys, in the order of insertion;
    [dict_get d k] is [d.get(k)], which is [None] exactly when
    [k in d] does not hold. *)
Abbreviation pydict := (list (string * pyvalue)).

Fixpoint dict_get (d : pydict) (k : string) : option pyvalue :=
  match d with
  | [] => None
  | (k', v) :: d' => if String.eqb k' k then Some v else dict_get d' k
  end.

Definition dict_keys (d : pydict) : list string := map fst d.

Module Options.

Record t : Type := Build { _payload : pydict }.

(** The members [(name, value)] of [Options.Code]. *)
Definition Code : list (string * string) :=
  [("cash_on_delivery", "COD"); ("currency", "currency");
   ("insurance", "insurance"); ("notification", "notification");
   ("printing", "printing")]%string.

(** [any(o for o in self._payload if o in Options.Code.__members__)]:
    the keys that are members are tested for truth. *)
Definition has_content (self : t) : bool :=
  existsb (fun o => truthy_str (Some o))
          (List.filter (Enum_is_member Code) (dict_keys (_payload self))).

Section Models.

(** [COD], [Insurance] and [Notification] of [purplship.core.models],
    constructed from the keyword arguments of a dictionary. *)
Variables COD Insurance Notification : Type.
Variable COD_init : pydict -> result COD.
Variable Insurance_init : pydict -> result Insurance.
Variable Notification_init : pydict -> result Notification.

(** The model constructed from the keyword arguments
    [self._payload[name]] when [name in self._payload], else [None]; a
    value that is not a dictionary cannot be unpacked into keyword
    arguments. *)
Definition model_of {A : Type} (init : pydict -> result A) (self : t)
    (name : string) : result (option A) :=
  match dict_get (_payload self) name with
  | None => Ok None
  | Some (VDict kwargs) => let* model := init kwargs in Ok (Some model)
  | Some _ => Raise TypeError
  end.

Definition cash_on_delivery (self : t) : result (option COD) :=
  model_of COD_init self "cash_on_delivery".

Definition currency (self : t) : option pyvalue :=
  dict_get (_payload self) "currency".

Definition insurance (self : t) : result (option Insurance) :=
  model_of Insurance_init self "insurance".

Definition notification (self : t) : result (option Notification) :=
  model_of Notification_init self "notification".

Definition printing (self : t) : option pyvalue :=
  dict_get (_payload self) "printing".

End Models.

End Options.

(** [s.split(" ")]: the pieces of [s] between its spaces, empty pieces
    included; there is always one piece. *)
Fixpoint str_split_space (s : string) : list string :=
  match s with
  | EmptyString => [EmptyString]
  | String c s' =>
      if Ascii.eqb c " " then EmptyString :: str_split_space s'
      else match str_split_space s' with
           | piece :: pieces => String c piece :: pieces
           | [] => [String c EmptyString]
           end
  end.

Module Phone.

Record t : Type := Build { number : option string; parts : list string }.

Definition __init__ (phone_number : option string) : t :=
  {| number := phone_number;
     parts := match phone_number with
              | Some s => str_split_space s
              | None => []
              end |}.

(** [next((part for part in self.parts), None)]. *)
Definition country_code (self : t) : option string := head (parts self).

(** [next((part[1] for part in [self.parts] if len(part) > 1), None)]. *)
Definition area_code (self : t) : option string :=
  if (1 <? List.length (parts self))%nat then parts self !! 1%nat else None.

(** [next((part[2] for part in [self.parts] if len(part) > 2), None)]. *)
Definition phone (self : t) : option string :=
  if (2 <? List.length (parts self))%nat then parts self !! 2%nat else None.

End Phone.

(** ** Payloads of the requests *)

(** [str(s)] for a text or [None], as an f-string writes it. *)
Definition str_of (s : option string) : string :=
  match s with
  | Some x => x
  | None => "None"
  end.

(** [bool(b)] for a boolean or [None]. *)
Definition truthy_bool (b : option bool) : bool :=
  match b with
  | Some true => true
  | _ => false
  end.

(** [sum(values)]: the values are added to [0] from the left; adding
    [None] raises. *)
Fixpoint sum_from (acc : float) (values : list (option float)) : result float :=
  match values with
  | [] => Ok acc
  | Some x :: rest => sum_from (PyFloat.add acc x) rest
  | None :: _ => Raise TypeError
  end.

Definition py_sum (values : list (option float)) : result float :=
  sum_from (PyFloat.of_Z 0) values.

Module Address.

(** Modelled from the spec: the [Address] payload of
    [purplship.core.models]; the fields are those that the request
    builders read. *)
Record t : Type := Build {
  country_code : option string;
  postal_code : option string;
  city : option string;
  state_code : option string;
  person_name : option string;
  company_name : option string;
  phone_number : option string;
  address_line1 : option string;
  address_line2 : option string;
  residential : option bool
}.

End Address.

Module PickupUpdateRequest.

(** Modelled from the spec: the [PickupUpdateRequest] payload of
    [purplship.core.models]. *)
Record t : Type := Build {
  confirmation_number : option string;
  date : option string;
  address : Address.t;
  parcels : list Parcel.t;
  ready_time : option string;
  closing_time : option string;
  instruction : option string;
  package_location : option string
}.

End PickupUpdateRequest.

Module PickupDetails.

(** Modelled from the spec: the [PickupDetails] result of
    [purplship.core.models]. *)
Record t : Type := Build {
  carrier_name : string;
  carrier_id : string;
  confirmation_number : string;
  pickup_date : option string;
  pickup_charge : option ChargeDetails.t;
  ready_time : option string;
  closing_time : option string
}.

End PickupDetails.

(** ** DHL: [providers/dhl/modify_pickup.py] *)

Module DHLPickup.

(** The generated binding [ModifyPUResponse], after [build]: the fields
    that the parser reads. *)
Record ModifyPUResponse : Type := {
  PickupCharge : option float;
  CurrencyCode : option string;
  ConfirmationNumber : list Z;
  NextPickupDate : option string;
  ReadyByTime : option string;
  CallInTime : option string
}.

(** The request that is sent: the generated bindings
    [ModifyPURequest], [Requestor], [RequestorContact], [Place],
    [Pickup] and [WeightSeg]. *)
Record RequestorContact : Type := {
  contact_PersonName : option string;
  contact_Phone : option string;
  contact_PhoneExtension : option string
}.

Record Requestor : Type := {
  AccountNumber : option string;
  AccountType : string;
  requestor_RequestorContact : RequestorContact;
  requestor_CompanyName : option string
}.

Record Place : Type := {
  City : option string;
  StateCode : option string;
  PostalCode : option string;
  place_CompanyName : option string;
  CountryCode : option string;
  PackageLocation : option string;
  LocationType : string;
  Address1 : option string;
  Address2 : option string
}.

Record WeightSeg : Type := { Weight_ : float; WeightUnit_ : string }.

Record Pickup : Type := {
  Pieces : nat;
  PickupDate : option string;
  ReadyByTime_ : string;
  CloseTime : string;
  SpecialInstructions : list (option string);
  RemotePickupFlag : string;
  weight : WeightSeg
}.

Section Provider.

(** The [Request] of the settings of the carrier, with its metadata,
    and the account number of the settings. *)
Variable Request_ : Type.
Variable settings_Request : Request_.
Variable account_number : option string.

Record ModifyPURequest : Type := {
  Request : Request_;
  schemaVersion : float;
  RegionCode : string;
  request_ConfirmationNumber : option string;
  request_Requestor : Requestor;
  request_Place : Place;
  PickupContact : RequestorContact;
  request_Pickup : Pickup;
  OriginSvcArea : option string
}.

(** [ModifyPUResponse().build(response)], of the generated bindings. *)
Variable ModifyPUResponse_build : Element -> ModifyPUResponse.

(** [format_date] and [format_time] of [purplship.core.utils]. *)
Variable format_date : string -> result string.
Variable format_time : option string -> result (option string).

(** [purplship.providers.dhl.error.parse_error_response]. *)
Variable parse_error_response : Element -> Settings -> list Message.t.

(** The members [(name, value)] of the enumeration [CountryRegion] of
    [purplship.providers.dhl.units], and the value of the member [LB]
    of its [WeightUnit]. *)
Variable CountryRegion : list (string * string).
Variable DHLWeightUnit_LB : string.

Definition _extract_pickup (response : Element) (settings : Settings)
  : result PickupDetails.t :=
  let pickup := ModifyPUResponse_build response in
  let pickup_charge :=
    match PickupCharge pickup with
    | Some _ =>
        Some (ChargeDetails.Build (Some "Pickup Charge"%string)
                                  (decimal (PickupCharge pickup))
                                  (CurrencyCode pickup))
    | None => None
    end in
  let* confirmation :=
    match ConfirmationNumber pickup with
    | [] => Raise IndexError
    | n :: _ => Ok (pretty n)
    end in
  let* pickup_date :=
    match NextPickupDate pickup with
    | Some d => let* formatted := format_date d in Ok (Some formatted)
    | None => Ok None
    end in
  let* ready_time := format_time (ReadyByTime pickup) in
  let* closing_time := format_time (CallInTime pickup) in
  Ok (PickupDetails.Build (carrier_name settings) (carrier_id settings)
                          confirmation pickup_date pickup_charge
                          ready_time closing_time).

Definition parse_modify_pickup_response (response : Element) (settings : Settings)
  : result (option PickupDetails.t * list Message.t) :=
  let successful :=
    (0 <? List.length (xpath response "ConfirmationNumber"))%nat in
  let* pickup :=
    if successful
    then (let* details := _extract_pickup response settings in Ok (Some details))
    else Ok None in
  Ok (pickup, parse_error_response response settings).

Definition modify_pickup_request (payload : PickupUpdateRequest.t)
  : result ModifyPURequest :=
  let weight_unit := ("LB"%string, DHLWeightUnit_LB) in
  let* unit := WeightUnit_getitem (Some (fst weight_unit)) in
  let* weight :=
    py_sum (map (fun parcel =>
                   Weight.LB (Weight.Build (Parcel.weight parcel) (Some unit)))
                (PickupUpdateRequest.parcels payload)) in
  let address := PickupUpdateRequest.address payload in
  let* region :=
    if truthy_str (Address.country_code address)
    then Enum_getitem CountryRegion (Address.country_code address)
    else Ok "AM"%string in
  Ok {| Request := settings_Request;
        schemaVersion := PyFloat.of_Z 3;
        RegionCode := region;
        request_ConfirmationNumber := PickupUpdateRequest.confirmation_number payload;
        request_Requestor :=
          {| AccountNumber := account_number;
             AccountType := "D";
             requestor_RequestorContact :=
               {| contact_PersonName := Address.person_name address;
                  contact_Phone := Address.phone_number address;
                  contact_PhoneExtension := None |};
             requestor_CompanyName := Address.company_name address |};
        request_Place :=
          {| City := Address.city address;
             StateCode := Address.state_code address;
             PostalCode := Address.postal_code address;
             place_CompanyName := Address.company_name address;
             CountryCode := Address.country_code address;
             PackageLocation := PickupUpdateRequest.package_location payload;
             LocationType :=
               if truthy_bool (Address.residential address) then "R" else "B";
             Address1 := Address.address_line1 address;
             Address2 := Address.address_line2 address |};
        PickupContact :=
          {| contact_PersonName := Address.person_name address;
             contact_Phone := Address.phone_number address;
             contact_PhoneExtension := None |};
        request_Pickup :=
          {| Pieces := List.length (PickupUpdateRequest.parcels payload);
             PickupDate := PickupUpdateRequest.date payload;
             ReadyByTime_ :=
               (str_of (PickupUpdateRequest.ready_time payload) +:+ ":00")%string;
             CloseTime :=
               (str_of (PickupUpdateRequest.closing_time payload) +:+ ":00")%string;
             SpecialInstructions := [PickupUpdateRequest.instruction payload];
             RemotePickupFlag := "Y";
             weight := {| Weight_ := weight; WeightUnit_ := snd weight_unit |} |};
        OriginSvcArea := None |}.

End Provider.

End DHLPickup.

(** ** Envelopes: [purplship/core/utils/soap.py] *)

(** [s.replace(old, new)]: every occurrence of [old] in [s], found from
    the left and not overlapping the one before, is replaced by [new];
    an empty [old] occurs before each character and at the end.
    [replace_from] skips the characters of the occurrence that it has
    just replaced. *)
Fixpoint replace_from (old new : string) (skip : nat) (s : string) : string :=
  match s with
  | EmptyString => EmptyString
  | String c s' =>
      match skip with
      | S k => replace_from old new k s'
      | O =>
          if String.prefix old s
          then (new +:+ replace_from old new (String.length old - 1) s')%string
          else String c (replace_from old new 0 s')
      end
  end.

Fixpoint replace_empty (new : string) (s : string) : string :=
  match s with
  | EmptyString => new
  | String c s' => (new +:+ String c (replace_empty new s'))%string
  end.

Definition str_replace (old new s : string) : string :=
  match old with
  | EmptyString => replace_empty new s
  | _ => replace_from old new 0 s
  end.

Module Soap.

(** An object of the generated bindings, as far as the envelope is
    concerned: its namespace prefix, the name of its tag and what it
    holds. *)
Record Content (A : Type) : Type := {
  ns_prefix_ : option string;
  original_tagname_ : option string;
  content : A
}.

Arguments ns_prefix_ {A} _.
Arguments original_tagname_ {A} _.
Arguments content {A} _.

(** The header and the body of an envelope: a prefix and the objects
    that were added. *)
Record Part (A : Type) : Type := {
  part_ns_prefix_ : option string;
  anytypeobjs_ : list (Content A)
}.

Arguments part_ns_prefix_ {A} _.
Arguments anytypeobjs_ {A} _.

Record Envelope (H B : Type) : Type := {
  envelope_ns_prefix_ : option string;
  Header : option (Part H);
  Body : Part B
}.

Arguments envelope_ns_prefix_ {H B} _.
Arguments Header {H B} _.
Arguments Body {H B} _.

(** [create_envelope]; the prefix of the envelope defaults to ["tns"],
    the other optional arguments to [None]. *)
Definition create_envelope {H B : Type} (body_content : Content B)
    (header_content : option (Content H))
    (header_prefix body_prefix header_tag_name body_tag_name : option string)
    (envelope_prefix : string) : Envelope H B :=
  let header :=
    match header_content with
    | Some hc =>
        Some [{| ns_prefix_ := py_or_str header_prefix (ns_prefix_ hc);
                 original_tagname_ :=
                   py_or_str header_tag_name (original_tagname_ hc);
                 content := content hc |}]
    | None => None
    end in
  let body :=
    [{| ns_prefix_ := py_or_str body_prefix (ns_prefix_ body_content);
        original_tagname_ :=
          py_or_str body_tag_name (original_tagname_ body_content);
        content := content body_content |}] in
  {| envelope_ns_prefix_ := Some envelope_prefix;
     Header :=
       match header with
       | Some objs =>
           Some {| part_ns_prefix_ := Some envelope_prefix; anytypeobjs_ := objs |}
       | None => None
       end;
     Body := {| part_ns_prefix_ := Some envelope_prefix; anytypeobjs_ := body |} |}.

(** [clean_namespaces]; [header_child_name] defaults to
    ["UnspecifiedTag"] and the two child prefixes to the empty text. *)
Definition clean_namespaces (envelope_str envelope_prefix body_child_name
    header_child_name header_child_prefix body_child_prefix : string) : string :=
  str_replace
    ("</" +:+ envelope_prefix +:+ body_child_name)
    ("</" +:+ body_child_prefix +:+ body_child_name)
    (str_replace
       ("<" +:+ envelope_prefix +:+ body_child_name)
       ("<" +:+ body_child_prefix +:+ body_child_name)
       (str_replace
          ("</" +:+ envelope_prefix +:+ header_child_name)
          ("</" +:+ header_child_prefix +:+ header_child_name)
          (str_replace
             ("<" +:+ envelope_prefix +:+ header_child_name)
             ("<" +:+ header_child_prefix +:+ header_child_name)
             envelope_str)))%string.

End Soap.

(** ** Rate requests *)

Module RateParcel.

(** Modelled from the spec: what a request builder reads of a [Parcel]
    of [purplship.core.models] beside the attributes that [units.py]
    reads: its identifier, whether it is a document and its
    description. *)
Record t : Type := Build {
  parcel : Parcel.t;
  id : option string;
  is_document : option bool;
  description : option string
}.

End RateParcel.

Module RateRequest.

(** Modelled from the spec: the [RateRequest] payload of
    [purplship.core.models]. *)
Record t : Type := Build {
  shipper : Address.t;
  recipient : Address.t;
  parcels : list RateParcel.t;
  services : list string;
  options : pydict
}.

End RateRequest.

(** [[Enum[name].value for name in names if name in Enum.__members__]]. *)
Definition member_values (members : list (string * string)) (names : list string)
  : list string :=
  flat_map (fun name =>
              if Enum_is_member members name
              then match Enum_getitem members (Some name) with
                   | Ok value => [value]
                   | Raise _ => []
                   end
              else [])
           names.

(** [enumerate(items, start)]. *)
Fixpoint enumerate {A : Type} (start : nat) (items : list A) : list (nat * A) :=
  match items with
  | [] => []
  | item :: rest => (start, item) :: enumerate (S start) rest
  end.

(** ** DHL: the request of [providers/dhl/dct_quote.py] *)

Module DHLRequest.

(** The request that is sent: the generated bindings [DCTRequest],
    [GetQuoteType], [DCTFrom], [DCTTo], [BkgDetailsType], [PieceType],
    [QtdShpType] and [DCTDutiable]. *)
Record DCTPlace : Type := {
  CountryCode : option string;
  Postalcode : option string;
  City : option string;
  Suburb : option string
}.

Record PieceType : Type := {
  PieceID : option string;
  PackageTypeCode : string;
  Depth : option float;
  Width : option float;
  Height : option float;
  Weight_ : option float
}.

Record QtdShpType : Type := {
  GlobalProductCode : string;
  LocalProductCode : string;
  QtdShpExChrg : list string
}.

Record DCTDutiable : Type := {
  DeclaredValue : pyvalue;
  DeclaredCurrency : option pyvalue
}.

Record BkgDetailsType : Type := {
  PaymentCountryCode : option string;
  NetworkTypeCode : string;
  WeightUnit_ : string;
  DimensionUnit_ : string;
  ReadyTime : string;
  Date : string;
  IsDutiable : string;
  Pieces : list PieceType;
  NumberOfPieces : nat;
  ShipmentWeight : option float;
  Volume_ : option float;
  PaymentAccountNumber : option string;
  InsuredCurrency : option pyvalue;
  InsuredValue : option float;
  QtdShp : list QtdShpType
}.

Section Provider.

(** The [Request] of the settings of the carrier, with its metadata,
    and the account number of the settings. *)
Variable Request_ : Type.
Variable settings_Request : Request_.
Variable account_number : option string.

Record GetQuoteType : Type := {
  Request : Request_;
  From : DCTPlace;
  To : DCTPlace;
  BkgDetails : BkgDetailsType;
  Dutiable : option DCTDutiable
}.

Record DCTRequest : Type := { GetQuote : GetQuoteType }.

(** The enumerations of [purplship.providers.dhl.units] by their
    members [(name, value)], the values of the members that the request
    names, and the presets of the carrier. *)
Variable ProductCode : list (string * string).
Variable dhl_express_worldwide_doc : string.
Variable dhl_express_worldwide_nondoc : string.
Variable dhl_express_easy_doc : string.
Variable dhl_express_easy_nondoc : string.
Variable SpecialServiceCode : list (string * string).
Variable dhl_paperless_trade : string.
Variable DCTPackageType : list (string * string).
Variable both_time_and_day_definite : string.
Variable PackagePresets : gmap string PackagePreset.t.

(** [time.strftime(format)], which reads the clock. *)
Variable strftime : string -> string.

(** [Insurance] of [purplship.core.models], constructed from keyword
    arguments, and its [amount]. *)
Variable Insurance : Type.
Variable Insurance_init : pydict -> result Insurance.
Variable Insurance_amount : Insurance -> option float.

(** One piece of the request, for the package at [index]; the parcel of
    a package is the parcel that it was constructed from. *)
Definition piece (index : nat) (package : Package.t) (parcel : RateParcel.t)
  : result PieceType :=
  let* code :=
    Enum_getitem DCTPackageType
      (py_or_str (Package.packaging_type package) (Some "your_packaging"%string)) in
  let* length := Package.length package in
  let* width := Package.width package in
  let* height := Package.height package in
  let* weight := Package.weight package in
  Ok {| PieceID := py_or_str (RateParcel.id parcel) (Some (pretty index));
        PackageTypeCode := code;
        Depth := Dimension.IN length;
        Width := Dimension.IN width;
        Height := Dimension.IN height;
        Weight_ := Weight.LB weight |}.

Definition dct_request (payload : RateRequest.t) : result DCTRequest :=
  let* packages :=
    Packages.__init__ (map RateParcel.parcel (RateRequest.parcels payload))
                      (Some PackagePresets) (Some ["weight"%string]) in
  let options := Options.Build (RateRequest.options payload) in
  let shipper := RateRequest.shipper payload in
  let recipient := RateRequest.recipient payload in
  let is_international :=
    negb (bool_decide (Address.country_code shipper = Address.country_code recipient)) in
  let is_document :=
    forallb (fun parcel => truthy_bool (RateParcel.is_document parcel))
            (RateRequest.parcels payload) in
  let is_dutiable := negb is_document in
  let products := member_values ProductCode (RateRequest.services payload) in
  let special_services :=
    member_values SpecialServiceCode (dict_keys (RateRequest.options payload)) in
  let special_services :=
    if is_international && is_dutiable
    then special_services ++ [dhl_paperless_trade]
    else special_services in
  let products :=
    if Nat.eqb (List.length products) 0
    then if is_international
         then [if is_document then dhl_express_worldwide_doc
               else dhl_express_worldwide_nondoc]
         else [if is_document then dhl_express_easy_doc
               else dhl_express_easy_nondoc]
    else products in
  let ready_time := strftime "PT%HH%MM" in
  let date := strftime "%Y-%m-%d" in
  let* pieces :=
    mapM (fun '(index, (package, parcel)) => piece index package parcel)
         (enumerate 1 (zip (Packages._items packages) (RateRequest.parcels payload))) in
  let* shipment := Packages.weight packages in
  let* insurance := Options.insurance Insurance Insurance_init options in
  let insured_currency :=
    match insurance with
    | Some _ => Options.currency options
    | None => None
    end in
  let* insurance' := Options.insurance Insurance Insurance_init options in
  let* insured_value :=
    match insurance' with
    | Some _ =>
        let* insurance'' := Options.insurance Insurance Insurance_init options in
        match insurance'' with
        | Some i => Ok (Insurance_amount i)
        | None => Raise AttributeError
        end
    | None => Ok None
    end in
  Ok {| GetQuote :=
          {| Request := settings_Request;
             From := {| CountryCode := Address.country_code shipper;
                        Postalcode := Address.postal_code shipper;
                        City := Address.city shipper;
                        Suburb := Address.state_code shipper |};
             To := {| CountryCode := Address.country_code recipient;
                      Postalcode := Address.postal_code recipient;
                      City := Address.city recipient;
                      Suburb := Address.state_code recipient |};
             BkgDetails :=
               {| PaymentCountryCode := Address.country_code shipper;
                  NetworkTypeCode := both_time_and_day_definite;
                  WeightUnit_ := "LB";
                  DimensionUnit_ := "IN";
                  ReadyTime := ready_time;
                  Date := date;
                  IsDutiable := if is_dutiable then "Y" else "N";
                  Pieces := pieces;
                  NumberOfPieces := Packages.__len__ packages;
                  ShipmentWeight := Weight.LB shipment;
                  Volume_ := None;
                  PaymentAccountNumber := account_number;
                  InsuredCurrency := insured_currency;
                  InsuredValue := insured_value;
                  QtdShp :=
                    map (fun product =>
                           {| GlobalProductCode := product;
                              LocalProductCode := product;
                              QtdShpExChrg := special_services |})
                        products |};
             Dutiable :=
               if is_international && is_dutiable
               then Some {| DeclaredValue :=
                              match dict_get (RateRequest.options payload) "value" with
                              | Some v => v
                              | None => VNum (PyFloat.of_Z 1)
                              end;
                            DeclaredCurrency := Options.currency options |}
               else None |} |}.

End Provider.

End DHLRequest.

(** ** UPS: the request of [providers/ups/freight/freight_rate.py] *)

(** The keys with which the request indexes an enumeration: a name, or
    a member of [WeightUnit] of [purplship.core.units].  A member of an
    enumeration is equal to itself only, and to no text. *)
Inductive enum_key : Type :=
  | NameKey (name : string)
  | MemberKey (member : WeightUnit.t).

Definition enum_key_eqb (a b : enum_key) : bool :=
  match a, b with
  | NameKey x, NameKey y => String.eqb x y
  | MemberKey WeightUnit.KG, MemberKey WeightUnit.KG => true
  | MemberKey WeightUnit.LB, MemberKey WeightUnit.LB => true
  | _, _ => false
  end.

(** [Enum[key]] for any key: the members of an enumeration are kept
    under their names, and the value of the member whose name is equal
    to the key is returned, or [KeyError] raised. *)
Fixpoint Enum_getitem_key {A : Type} (members : list (string * A))
    (key : enum_key) : result A :=
  match members with
  | [] => Raise KeyError
  | (name, value) :: members' =>
      if enum_key_eqb (NameKey name) key then Ok value
      else Enum_getitem_key members' key
  end.

Module UPSRequest.

(** The request that is sent: the generated bindings
    [FreightRateRequest], [ShipFromType], [ShipToType], [AddressType],
    [RateCodeDescriptionType], [HandlingUnitType], [CommodityType],
    [WeightType] and [DimensionsType], with the constants of the
    request. *)
Record AddressType : Type := {
  AddressLine : option string;
  City : option string;
  PostalCode : option string;
  CountryCode : option string;
  StateProvinceCode : option string
}.

Record ShipType : Type := {
  Name : option string;
  Address_ : AddressType;
  AttentionName : option string
}.

Record RateCodeDescriptionType : Type := {
  Code : string;
  Description : option string
}.

Record WeightType : Type := {
  weight_UnitOfMeasurement_Code : string;
  weight_Value : option float
}.

Record DimensionsType : Type := {
  dimensions_UnitOfMeasurement_Code : DimensionUnit.t;
  Width : option float;
  Height : option float;
  Length : option float
}.

Record CommodityType : Type := {
  commodity_Description : option string;
  Weight_ : WeightType;
  Dimensions : DimensionsType;
  NumberOfPieces : option Z;
  PackagingType : RateCodeDescriptionType;
  FreightClass : Z
}.

Record FreightRateRequest : Type := {
  TransactionIdentifier : string;
  RequestOption : list Z;
  ShipFrom : ShipType;
  ShipTo : ShipType;
  Service : RateCodeDescriptionType;
  HandlingUnitOne_Quantity : Z;
  HandlingUnitOne_Type : RateCodeDescriptionType;
  WeekendPickupIndicator : string;
  DensityEligibleIndicator : string;
  AdjustedWeightIndicator : string;
  TimeInTransitIndicator : string;
  Commodity : list CommodityType
}.

Section Provider.

(** The [Security] header of the settings of the carrier. *)
Variable Security : Type.
Variable settings_Security : Soap.Content Security.

(** The enumerations of [purplship.providers.ups.units] by their
    members [(name, value)], the value of the member that the request
    names, and the presets of the carrier. *)
Variable RatingServiceCode : list (string * string).
Variable ups_freight_ltl_guaranteed : string.
Variable UPSWeightUnit : list (string * string).
Variable FreightPackagingType : list (string * string).
Variable PackagePresets : gmap string PackagePreset.t.

(** [concat_str] of [purplship.core.utils], which joins the lines of an
    address. *)
Variable concat_str : option string -> option string -> option string.

Definition ship (address : Address.t) : ShipType :=
  {| Name := Address.company_name address;
     Address_ :=
       {| AddressLine :=
            concat_str (Address.address_line1 address) (Address.address_line2 address);
          City := Address.city address;
          PostalCode := Address.postal_code address;
          CountryCode := Address.country_code address;
          StateProvinceCode := Address.state_code address |};
     AttentionName := Address.person_name address |}.

(** One commodity of the request; the parcel of a package is the parcel
    that it was constructed from. *)
Definition commodity (package : Package.t) (parcel : RateParcel.t)
  : result CommodityType :=
  let description := py_or_str (RateParcel.description parcel) (Some "..."%string) in
  let* weight_unit := Package.weight_unit package in
  let* weight_code := Enum_getitem_key UPSWeightUnit (MemberKey weight_unit) in
  let* weight := Package.weight package in
  let* weight_value := Weight.value weight in
  let* dimension_unit := Package.dimension_unit package in
  let* width := Package.width package in
  let* width_value := Dimension.value width in
  let* height := Package.height package in
  let* height_value := Dimension.value height in
  let* length := Package.length package in
  let* length_value := Dimension.value length in
  let* packaging :=
    Enum_getitem FreightPackagingType
      (py_or_str (Package.packaging_type package) (Some "small_box"%string)) in
  Ok {| commodity_Description := description;
        Weight_ := {| weight_UnitOfMeasurement_Code := weight_code;
                      weight_Value := weight_value |};
        Dimensions := {| dimensions_UnitOfMeasurement_Code := dimension_unit;
                         Width := width_value;
                         Height := height_value;
                         Length := length_value |};
        NumberOfPieces := None;
        PackagingType := {| Code := packaging; Description := None |};
        FreightClass := 50 |}.

Definition freight_rate_request (payload : RateRequest.t)
  : result (Soap.Envelope Security FreightRateRequest) :=
  let* packages :=
    Packages.__init__ (map RateParcel.parcel (RateRequest.parcels payload))
                      (Some PackagePresets) None in
  let service :=
    match member_values RatingServiceCode (RateRequest.services payload)
          ++ [ups_freight_ltl_guaranteed] with
    | first :: _ => first
    | [] => ups_freight_ltl_guaranteed
    end in
  let ship_from := ship (RateRequest.shipper payload) in
  let ship_to := ship (RateRequest.recipient payload) in
  let* commodities :=
    mapM (fun '(package, parcel) => commodity package parcel)
         (zip (Packages._items packages) (RateRequest.parcels payload)) in
  let request :=
    {| TransactionIdentifier := "TransactionIdentifier";
       RequestOption := [1];
       ShipFrom := ship_from;
       ShipTo := ship_to;
       Service := {| Code := service; Description := None |};
       HandlingUnitOne_Quantity := 1;
       HandlingUnitOne_Type := {| Code := "SKD"; Description := None |};
       WeekendPickupIndicator := EmptyString;
       DensityEligibleIndicator := EmptyString;
       AdjustedWeightIndicator := EmptyString;
       TimeInTransitIndicator := EmptyString;
       Commodity := commodities |} in
  Ok (Soap.create_envelope
        {| Soap.ns_prefix_ := None; Soap.original_tagname_ := None;
           Soap.content := request |}
        (Some settings_Security) None None None None "tns").

End Provider.

End UPSRequest.


(** ** UPS: the freight record with its sub-objects *)

Module UPSRecord.

(** The generated bindings of [pyups.freight_rate_web_service_schema]
    as the objects that [build] leaves: an element that the response
    lacks is [None], and the element [Type] of a rate line, its
    [Factor], the [UnitOfMeasurement] of the factor, the [Service] and
    the [TotalShipmentCharge] of the record are objects of their own. *)
Record CodeDescriptionType : Type := {
  Code : option string;
  Description : option string
}.

Record RateValueType : Type := {
  Value : option float;
  UnitOfMeasurement : option CodeDescriptionType
}.

Record RateType : Type := {
  Type_ : option CodeDescriptionType;
  Factor : option RateValueType
}.

Record ChargeType : Type := {
  MonetaryValue : option float
}.

Record FreightRateResponse : Type := {
  Rate : list RateType;
  Service : option CodeDescriptionType;
  TotalShipmentCharge : option ChargeType
}.

(** [object.field]: reading an attribute of [None] raises
    [AttributeError]. *)
Definition attribute {A B : Type} (object : option A) (field : A -> B) : result B :=
  match object with
  | Some o => Ok (field o)
  | None => Raise AttributeError
  end.

(** [[element(x) for x in items if condition(x)]], where the condition
    and the element may raise. *)
Fixpoint comprehension {A B : Type} (condition : A -> result bool)
    (element : A -> result B) (items : list A) : result (list B) :=
  match items with
  | [] => Ok []
  | x :: rest =>
      let* selected := condition x in
      if selected
      then let* y := element x in
           let* ys := comprehension condition element rest in
           Ok (y :: ys)
      else comprehension condition element rest
  end.

Definition code_matches (code : string) (c : option string) : bool :=
  match c with
  | Some c => String.eqb c code
  | None => false
  end.

(** [r.Type.Code == code]. *)
Definition code_is (code : string) (r : RateType) : result bool :=
  let* c := attribute (Type_ r) Code in
  Ok (code_matches code c).

(** [r.Type.Code not in ["DSCNT", "AFTR_DSCNT", "DSCNT_RATE", "LND_GROSS"]]. *)
Definition is_surcharge (r : RateType) : result bool :=
  let* c := attribute (Type_ r) Code in
  Ok (negb (code_matches "DSCNT" c || code_matches "AFTR_DSCNT" c
            || code_matches "DSCNT_RATE" c || code_matches "LND_GROSS" c)).

(** [ChargeDetails(name=r.Type.Code,
    currency=r.Factor.UnitOfMeasurement.Code,
    amount=decimal(r.Factor.Value))]. *)
Definition charge_of (r : RateType) : result ChargeDetails.t :=
  let* name := attribute (Type_ r) Code in
  let* unit_of_measurement := attribute (Factor r) UnitOfMeasurement in
  let* currency := attribute unit_of_measurement Code in
  let* value := attribute (Factor r) Value in
  Ok (ChargeDetails.Build name (decimal value) currency).

Section Parser.

(** [FreightRateResponse().build(node)], of the generated bindings. *)
Variable FreightRateResponse_build : Element -> FreightRateResponse.

(** [purplship.providers.ups.error.parse_error_response]. *)
Variable parse_error_response : Element -> Settings -> list Message.t.

Definition _extract_freight_rate (detail_node : Element) (settings : Settings)
  : result RateDetails.t :=
  let detail := FreightRateResponse_build detail_node in
  let* after_discount :=
    comprehension (code_is "AFTR_DSCNT") Ok (Rate detail) in
  let* total_charge :=
    match after_discount with
    | [] => Raise IndexError
    | r :: _ => Ok r
    end in
  let* Discounts_ := comprehension (code_is "DSCNT") charge_of (Rate detail) in
  let* Surcharges_ := comprehension is_surcharge charge_of (Rate detail) in
  let extra_charges := Discounts_ ++ Surcharges_ in
  let* currency_ :=
    match xpath detail_node "CurrencyCode" with
    | [] => Raise StopIteration
    | c :: _ => Ok (text c)
    end in
  let* service := attribute (Service detail) Description in
  let* base_charge := attribute (TotalShipmentCharge detail) MonetaryValue in
  let* total := attribute (Factor total_charge) Value in
  let* surcharges_total := UPS.sum_amounts Surcharges_ in
  let* discounts_total := UPS.sum_amounts Discounts_ in
  Ok (RateDetails.Build
        (carrier_name settings)
        (carrier_id settings)
        currency_
        None
        service
        (decimal base_charge)
        (decimal (py_or total (Some (PyFloat.of_Z 0))))
        (decimal surcharges_total)
        (decimal discounts_total)
        extra_charges).

Definition parse_freight_rate_response (response : Element) (settings : Settings)
  : result (list RateDetails.t * list Message.t) :=
  let rate_reply := xpath response "FreightRateResponse" in
  let* rates :=
    mapM (fun detail_node => _extract_freight_rate detail_node settings)
         rate_reply in
  Ok (rates, parse_error_response response settings).

End Parser.

End UPSRecord.
(** * Vocabulary of the statements *)

(** ** Measurements and packages *)

(** [Dimension(v, u)] and [Weight(v, u)] with a unit. *)
Definition dim (v : option float) (u : DimensionUnit.t) : Dimension.t :=
  Dimension.Build v (Some u).

Definition wgt (v : option float) (u : WeightUnit.t) : Weight.t :=
  Weight.Build v (Some u).

(** The first value when it is present and not zero, else the second. *)
Definition preferred (first second : option float) : option float :=
  match first with
  | None | Some (S754_zero _) => second
  | Some x => Some x
  end.

(** The pound conversion that a resolved weight contributes to the sum;
    a weight whose value is null contributes none. *)
Definition contribution (w : Weight.t) : list float :=
  match Weight.value w, Weight.LB w with
  | Ok (Some _), Some lb => [lb]
  | _, _ => []
  end.

Definition contributions (ws : list Weight.t) : list float :=
  flat_map contribution ws.

(** Whether a required attribute of a package is missing: the test of
    the inner loop of the constructor. *)
Definition missing_at (package : Package.t) (field : string) : result bool :=
  let* prop := getattr package field in
  is_missing prop.

(** A text without the character that closes the index of a key. *)
Fixpoint no_bracket (s : string) : bool :=
  match s with
  | EmptyString => true
  | String c s' => negb (Ascii.eqb c "]") && no_bracket s'
  end.

(** Converting a weight into the other unit and back, through the
    accessors. *)
Definition round_trip (u : WeightUnit.t) (v : float) : option float :=
  match u with
  | WeightUnit.KG =>
      Weight.KG (wgt (Weight.LB (wgt (Some v) WeightUnit.KG)) WeightUnit.LB)
  | WeightUnit.LB =>
      Weight.LB (wgt (Weight.KG (wgt (Some v) WeightUnit.LB)) WeightUnit.KG)
  end.

(** ** Collaborators that are not among the sources

    The parsers take the error parser of their carrier, the [build] of
    the generated bindings and [to_date] as parameters.  The definitions
    below give these parameters a value in the sample evaluations. *)

(** The first child of that name, and the text and the number that it
    holds. *)
Definition child (node : Element) (name : string) : option Element :=
  head (List.filter (fun c => String.eqb (tag c) name) (children node)).

Definition child_text (node : Element) (name : string) : option string :=
  match child node name with
  | Some c => text c
  | None => None
  end.

(** Modelled from the spec: the error parsers of the DHL, UPS and Canada
    Post extensions (the [error.py] of each), which are not among the
    sources: they "walk the full response tree for error/warning nodes
    and return them as a flat Message list".  [error_tag] is the tag of
    the carrier's error node; the code and the text of a message are the
    texts of its children [code_tag] and [message_tag]. *)
Definition spec_parse_error_response (error_tag code_tag message_tag : string)
    (response : Element) (settings : Settings) : list Message.t :=
  map (fun node =>
         Message.Build (carrier_name settings) (carrier_id settings)
                       (default "None"%string (child_text node code_tag))
                       (child_text node message_tag))
      (xpath response error_tag).

(** The number that a decimal text such as ["12.50"] denotes. *)
Fixpoint digits_value (s : string) (acc : Z) : option Z :=
  match s with
  | EmptyString => Some acc
  | String c s' =>
      let n := Z.of_N (Ascii.N_of_ascii c) - 48 in
      if (0 <=? n) && (n <=? 9) then digits_value s' (10 * acc + n) else None
  end.

Fixpoint split_at_point (s : string) : string * option string :=
  match s with
  | EmptyString => (EmptyString, None)
  | String "."%char s' => (EmptyString, Some s')
  | String c s' => let '(a, b) := split_at_point s' in (String c a, b)
  end.

Definition float_of_text (s : string) : option float :=
  let '(whole, fraction) := split_at_point s in
  match digits_value whole 0, fraction with
  | Some n, None => Some (PyFloat.of_Z n)
  | Some n, Some frac =>
      match digits_value frac 0 with
      | Some m =>
          let scale := 10 ^ Z.of_nat (String.length frac) in
          Some (PyFloat.of_ratio (n * scale + m) (Z.to_pos scale))
      | None => None
      end
  | None, _ => None
  end.

Definition child_float (node : Element) (name : string) : option float :=
  match child_text node name with
  | Some s => float_of_text s
  | None => None
  end.

(** Modelled from the spec: the [build] of the generated bindings, which
    are "treated as pre-parsed, navigable trees": each field is read from
    the child of that name, a number from its decimal text. *)
Definition spec_QtdShp_build (node : Element) : DHL.ResponseQtdShpType :=
  {| DHL.ShippingCharge := child_float node "ShippingCharge";
     DHL.WeightCharge := child_float node "WeightCharge";
     DHL.CurrencyCode := child_text node "CurrencyCode";
     DHL.LocalProductName := child_text node "LocalProductName";
     DHL.QtdShpExChrg :=
       map (fun c =>
              {| DHL.LocalServiceTypeName := child_text c "LocalServiceTypeName";
                 DHL.ChargeValue := child_float c "ChargeValue" |})
           (List.filter (fun c => String.eqb (tag c) "QtdShpExChrg") (children node));
     DHL.DeliveryDate :=
       map (fun c => {| DHL.DlvyDateTime := child_text c "DlvyDateTime" |})
           (List.filter (fun c => String.eqb (tag c) "DeliveryDate") (children node));
     DHL.PricingDate := child_text node "PricingDate" |}.

Definition spec_Rate_build (node : Element) : UPS.RateType :=
  {| UPS.Type_Code := child node "Type" ≫= (fun t => child_text t "Code");
     UPS.Factor_Value := child node "Factor" ≫= (fun f => child_float f "Value");
     UPS.Factor_UnitOfMeasurement_Code :=
       child node "Factor" ≫= (fun f =>
       child f "UnitOfMeasurement" ≫= (fun u => child_text u "Code")) |}.

Definition spec_FreightRateResponse_build (node : Element) : UPS.FreightRateResponse :=
  {| UPS.Rate :=
       map spec_Rate_build
           (List.filter (fun c => String.eqb (tag c) "Rate") (children node));
     UPS.Service_Description :=
       child node "Service" ≫= (fun v => child_text v "Description");
     UPS.TotalShipmentCharge_MonetaryValue :=
       child node "TotalShipmentCharge" ≫= (fun t => child_float t "MonetaryValue") |}.

(** Modelled from the spec: [to_date] of [purplship.core.utils] and the
    difference of two dates in days; here no text is read as a date, so
    that no transit time is derived. *)
Definition spec_to_date (s : option string) (format : option string)
  : result (option unit) := Ok None.

Definition spec_days_between (d p : unit) : Z := 0.

(** ** The real value of a float *)

(** The number of digits that [shr_fexp] drops from a mantissa [m] at
    the exponent [e]. *)
Definition excess (m e : Z) : Z :=
  Z.max 0 (fexp PyFloat.prec PyFloat.emax (Zdigits2 m + e) - e).

(** The float of sign [s], mantissa [m >= 0] and exponent [e]. *)
Definition SFmake (s : bool) (m e : Z) : float :=
  match m with
  | Z0 => S754_zero s
  | Zpos p => S754_finite s p e
  | Zneg _ => S754_nan
  end.

Definition is_finite (x : float) : bool :=
  match x with
  | S754_zero _ | S754_finite _ _ _ => true
  | _ => false
  end.

(** A float that is zero, or finite with at most [K - e] digits and an
    exponent [e <= Ex]: its magnitude is below [2^K]. *)
Definition small (K Ex : Z) (x : float) : Prop :=
  match x with
  | S754_zero _ => True
  | S754_finite _ m e => Zdigits2 (Zpos m) + e <= K /\ e <= Ex
  | _ => False
  end.

Local Open Scope R_scope.

(** [2^e] as a real number. *)
Definition bpow (e : Z) : R :=
  match e with
  | Z0 => 1
  | Zpos p => IZR (2 ^ Zpos p)
  | Zneg p => / IZR (2 ^ Zpos p)
  end.

Definition sign_of (s : bool) : R := if s then -1 else 1.

(** The real number that a float stands for (0 for the infinities and
    NaN, which the statements exclude). *)
Definition B2R (x : float) : R :=
  match x with
  | S754_finite s m e => (if s then -1 else 1) * IZR (Zpos m) * bpow e
  | _ => 0
  end.

Local Close Scope R_scope.

(** ** Tactics *)

(** Case analysis on the steps of a computation that returned. *)
Ltac step_bind H :=
  repeat match type of H with
         | context [bind ?r _] =>
             let E := fresh "E" in
             destruct r eqn:E; cbn [bind] in H; [| discriminate H]
         end.

(** Rewrites the value of a float constant as a quotient of integers. *)
Ltac eval_B2R c :=
  let x := eval vm_compute in c in
  change c with x; cbn [B2R bpow];
  repeat match goal with
         | |- context [(2 ^ Zpos ?p)%Z] =>
             let y := eval vm_compute in (2 ^ Zpos p)%Z in
             change (2 ^ Zpos p)%Z with y
         end.

(** * Sample inputs *)

(** A parcel of weight 2 LB and width 10 CM with a preset of weight 5 LB
    and width 30 CM. *)
Definition C2_parcel : Parcel.t :=
  {| Parcel.height := None; Parcel.width := Some (PyFloat.of_Z 10);
     Parcel.length := None; Parcel.weight := Some (PyFloat.of_Z 2);
     Parcel.weight_unit := Some "LB"%string;
     Parcel.dimension_unit := Some "CM"%string;
     Parcel.packaging_type := None; Parcel.package_preset := None |}.

Definition C2_preset : PackagePreset.t :=
  {| PackagePreset.width := Some (PyFloat.of_Z 30);
     PackagePreset.height := None; PackagePreset.length := None;
     PackagePreset.weight := Some (PyFloat.of_Z 5);
     PackagePreset.volume := None;
     PackagePreset.weight_unit := Some "LB"%string;
     PackagePreset.dimension_unit := Some "CM"%string;
     PackagePreset.packaging_type := None |}.

(** A volume with one null side: (null, 10 CM, 10 CM). *)
Definition C8_volume : Volume.t :=
  Volume.Build (dim None DimensionUnit.CM)
               (dim (Some (PyFloat.of_Z 10)) DimensionUnit.CM)
               (dim (Some (PyFloat.of_Z 10)) DimensionUnit.CM).

(** A parcel of 0.001 LB. *)
Definition C7_light_parcel : Parcel.t :=
  {| Parcel.height := None; Parcel.width := None; Parcel.length := None;
     Parcel.weight := Some (PyFloat.of_ratio 1 1000);
     Parcel.weight_unit := Some "LB"%string; Parcel.dimension_unit := None;
     Parcel.packaging_type := None; Parcel.package_preset := None |}.

(** Two parcels of 2.5 LB and 1 KG. *)
Definition C7_parcel (weight : float) (unit : string) : Parcel.t :=
  {| Parcel.height := None; Parcel.width := None; Parcel.length := None;
     Parcel.weight := Some weight;
     Parcel.weight_unit := Some unit; Parcel.dimension_unit := None;
     Parcel.packaging_type := None; Parcel.package_preset := None |}.

Definition C7_packages : Packages.t :=
  Packages.Build
    [Package.__init__ (C7_parcel (PyFloat.of_ratio 25 10) "LB") None;
     Package.__init__ (C7_parcel (PyFloat.of_Z 1) "KG") None].

(** A parcel without any attribute. *)
Definition C3_parcel : Parcel.t :=
  {| Parcel.height := None; Parcel.width := None; Parcel.length := None;
     Parcel.weight := None; Parcel.weight_unit := None;
     Parcel.dimension_unit := None; Parcel.packaging_type := None;
     Parcel.package_preset := None |}.

(** A parcel of weight 1 whose unit name is not a weight unit. *)
Definition C3_unknown_unit_parcel : Parcel.t :=
  {| Parcel.height := None; Parcel.width := None; Parcel.length := None;
     Parcel.weight := Some (PyFloat.of_Z 1); Parcel.weight_unit := Some "G"%string;
     Parcel.dimension_unit := None; Parcel.packaging_type := None;
     Parcel.package_preset := None |}.

Definition a_settings : Settings :=
  {| carrier := "carrier"; carrier_name := "carrier"; carrier_id := "carrier_id" |}.

Definition leaf (name value : string) : Element := Node name (Some value) [].

(** A DHL quote response with one quote record of the given shipping
    charge and one condition (error) node. *)
Definition an_error_node : Element :=
  Node "Condition" None [leaf "ConditionCode" "1001"; leaf "ConditionData" "advisory"].

Definition a_QtdShp_node (charge : string) : Element :=
  Node "QtdShp" None
       [leaf "LocalProductName" "EXPRESS WORLDWIDE"; leaf "CurrencyCode" "USD";
        leaf "WeightCharge" "10.00"; leaf "ShippingCharge" charge;
        leaf "PricingDate" "2018-06-26";
        Node "DeliveryDate" None [leaf "DlvyDateTime" "2018-06-27 11:59:00"]].

Definition a_dct_response (charge : string) : Element :=
  Node "DCTResponse" None
       [Node "GetQuoteResponse" None
             [Node "BkgDetails" None [a_QtdShp_node charge];
              Node "Note" None [an_error_node]]].

Definition dhl_parse (response : Element)
  : result (list RateDetails.t * list Message.t) :=
  DHL.parse_dct_response spec_QtdShp_build unit spec_to_date spec_days_between
    [("dhl_express_worldwide", "EXPRESS WORLDWIDE")]%string
    (spec_parse_error_response "Condition" "ConditionCode" "ConditionData")
    response a_settings.

(** A UPS freight-rate response with one record, whose charge after
    discount holds the given value nodes (none, or a [Value]). *)
Definition a_freight_node (value : list Element) : Element :=
  Node "FreightRateResponse" None
       [Node "Rate" None
             [Node "Type" None [leaf "Code" "AFTR_DSCNT"];
              Node "Factor" None
                   (value ++ [Node "UnitOfMeasurement" None [leaf "Code" "USD"]])];
        Node "TotalShipmentCharge" None
             [leaf "CurrencyCode" "USD"; leaf "MonetaryValue" "0.00"];
        Node "Service" None [leaf "Code" "308"; leaf "Description" "UPS Freight LTL"]].

Definition a_freight_response (value : list Element) : Element :=
  Node "Envelope" None [Node "Body" None [a_freight_node value]].

Definition ups_parse (response : Element)
  : result (list RateDetails.t * list Message.t) :=
  UPS.parse_freight_rate_response spec_FreightRateResponse_build
    (spec_parse_error_response "PrimaryErrorCode" "Code" "Description")
    response a_settings.

(** A Canada Post response that holds one message. *)
Definition a_messages_response : Element :=
  Node "messages" None
       [Node "message" None [leaf "code" "E002"; leaf "description" "no such pickup"]].

Definition canadapost_parse (response : Element)
  : option ConfirmationDetails.t * list Message.t :=
  CanadaPost.parse_cancel_pickup_response
    (spec_parse_error_response "message" "code" "description")
    response a_settings.

(** * Further vocabulary and sample inputs *)

(** ** Measurements *)

(** Converting a dimension into the other unit and back, through the
    accessors. *)
Definition dimension_round_trip (u : DimensionUnit.t) (v : float) : option float :=
  match u with
  | DimensionUnit.CM =>
      Dimension.CM (dim (Dimension.IN (dim (Some v) DimensionUnit.CM)) DimensionUnit.IN)
  | DimensionUnit.IN =>
      Dimension.IN (dim (Dimension.CM (dim (Some v) DimensionUnit.IN)) DimensionUnit.CM)
  end.

(** Whether a float is NaN, and the same for a side that may be null. *)
Definition is_nan (x : float) : bool :=
  match x with
  | S754_nan => true
  | _ => false
  end.

Definition side_is_nan (v : option float) : bool :=
  match v with
  | Some x => is_nan x
  | None => false
  end.

(** The rank of a float in the order of [<]: the sign class, then the
    exponent, then the mantissa (both negated below zero). *)
Definition rank1 (x : float) : Z :=
  match x with
  | S754_zero _ | S754_nan => 0
  | S754_infinity s => if s then -2 else 2
  | S754_finite s _ _ => if s then -1 else 1
  end.

Definition rank2 (x : float) : Z :=
  match x with
  | S754_finite s _ e => if s then - e else e
  | _ => 0
  end.

Definition rank3 (x : float) : Z :=
  match x with
  | S754_finite s m _ => if s then Zneg m else Zpos m
  | _ => 0
  end.

Definition rank_lt (x y : float) : Prop :=
  rank1 x < rank1 y
  \/ (rank1 x = rank1 y
      /\ (rank2 x < rank2 y \/ (rank2 x = rank2 y /\ rank3 x < rank3 y))).

(** The three sides in the order in which the insertion sort leaves
    them. *)
Definition sorted3 (x y z : float) : float * float * float :=
  let '(p, q) := if PyFloat.ltb y x then (y, x) else (x, y) in
  if PyFloat.ltb z p then (z, p, q)
  else if PyFloat.ltb z q then (p, z, q)
  else (p, q, z).

(** The sum of the two smallest sides. *)
Definition smallest_sum (x y z : float) : float :=
  let '(p, q, _) := sorted3 x y z in PyFloat.add p q.

(** ** Response trees *)

(** [below e n]: the node [n] lies under [e], at any depth. *)
Inductive below : Element -> Element -> Prop :=
  | below_child (e c : Element) : c ∈ children e -> below e c
  | below_deeper (e c n : Element) : c ∈ children e -> below c n -> below e n.

(** The number of nodes of a tree. *)
Fixpoint node_count (e : Element) : nat :=
  match e with
  | Node _ _ cs => S (list_sum (map node_count cs))
  end.

(** ** Quotes and rates *)

(** Whether the name of an extra charge of a DHL quote holds a label,
    and the amount with which the charge enters the sums: its value, or
    zero when it has none, rounded to two places. *)
Definition named_with (label : string) (c : DHL.QtdShpExChrgType) : bool :=
  match DHL.LocalServiceTypeName c with
  | Some name => contains label name
  | None => false
  end.

Definition summed_amount (c : DHL.QtdShpExChrgType) : float :=
  PyFloat.round2
    (match preferred (DHL.ChargeValue c) (Some (PyFloat.of_Z 0)) with
     | Some v => v
     | None => PyFloat.of_Z 0
     end).

(** The sum of a list of floats from [0.0], in the order of the list. *)
Definition float_sum (l : list float) : float :=
  fold_left PyFloat.add l (PyFloat.of_Z 0).

(** The rate lines of a UPS freight record that are reported as extra
    charges: all but the charge after discount, the discount rate and
    the gross charge. *)
Definition reported (r : UPS.RateType) : bool :=
  negb (UPS.code_is "AFTR_DSCNT" r || UPS.code_is "DSCNT_RATE" r
        || UPS.code_is "LND_GROSS" r).

(** The amount of a rate line of a UPS freight record: its value rounded
    to two places. *)
Definition line_amount (r : UPS.RateType) : float :=
  match decimal (UPS.Factor_Value r) with
  | Some a => a
  | None => PyFloat.of_Z 0
  end.

(** ** Sample records *)

(** A DHL quote record of 25.00 with a fuel surcharge of 2.50 and a
    discount of 1.25. *)
Definition a_QtdShp_node_with_charges : Element :=
  Node "QtdShp" None
       [leaf "LocalProductName" "EXPRESS WORLDWIDE"; leaf "CurrencyCode" "USD";
        leaf "WeightCharge" "10.00"; leaf "ShippingCharge" "25.00";
        leaf "PricingDate" "2018-06-26";
        Node "DeliveryDate" None [leaf "DlvyDateTime" "2018-06-27 11:59:00"];
        Node "QtdShpExChrg" None
             [leaf "LocalServiceTypeName" "FUEL SURCHARGE"; leaf "ChargeValue" "2.50"];
        Node "QtdShpExChrg" None
             [leaf "LocalServiceTypeName" "Promo Discount"; leaf "ChargeValue" "1.25"]].

Definition dhl_extract (node : Element) : result (option RateDetails.t) :=
  DHL._extract_quote spec_QtdShp_build unit spec_to_date spec_days_between
    [("dhl_express_worldwide", "EXPRESS WORLDWIDE")]%string node a_settings.

(** A DHL quote record that holds a shipping charge and no delivery
    date, and a quote response with one valid record of 12.50, that
    record and one condition (error) node. *)
Definition a_QtdShp_node_without_delivery_date : Element :=
  Node "QtdShp" None
       [leaf "LocalProductName" "EXPRESS WORLDWIDE"; leaf "CurrencyCode" "USD";
        leaf "WeightCharge" "10.00"; leaf "ShippingCharge" "25.00";
        leaf "PricingDate" "2018-06-26"].

Definition a_dct_response_with_undated_record : Element :=
  Node "DCTResponse" None
       [Node "GetQuoteResponse" None
             [Node "BkgDetails" None
                   [a_QtdShp_node "12.50"; a_QtdShp_node_without_delivery_date];
              Node "Note" None [an_error_node]]].

(** A UPS freight record with a discount of 5.00, a charge after
    discount of 20.00, a gross charge and a fuel surcharge of 3.00. *)
Definition a_rate_line (code value : string) : Element :=
  Node "Rate" None
       [Node "Type" None [leaf "Code" code];
        Node "Factor" None
             [leaf "Value" value; Node "UnitOfMeasurement" None [leaf "Code" "USD"]]].

Definition a_freight_node_with_lines : Element :=
  Node "FreightRateResponse" None
       [a_rate_line "DSCNT" "5.00"; a_rate_line "AFTR_DSCNT" "20.00";
        a_rate_line "LND_GROSS" "25.00"; a_rate_line "2" "3.00";
        Node "TotalShipmentCharge" None
             [leaf "CurrencyCode" "USD"; leaf "MonetaryValue" "23.00"];
        Node "Service" None [leaf "Code" "308"; leaf "Description" "UPS Freight LTL"]].

Definition ups_extract (node : Element) : result RateDetails.t :=
  UPS._extract_freight_rate spec_FreightRateResponse_build node a_settings.

(** Modelled from the spec: the [build] of the generated binding
    [pyusps.error.Error], which reads each field from the child of that
    name. *)
Definition spec_Error_build (node : Element) : USPS.Error :=
  {| USPS.Number :=
       match child_text node "Number" with
       | Some s => digits_value s 0
       | None => None
       end;
     USPS.Description := child_text node "Description" |}.

(** A USPS error response whose root is the error node, with another
    error node below it. *)
Definition a_usps_error : Element :=
  Node "Error" None
       [leaf "Number" "80040"; leaf "Description" "Authorization failure";
        Node "Error" None [leaf "Number" "1"; leaf "Description" "nested"]].

(** ** Texts and their pieces *)

(** [" ".join(pieces)]. *)
Fixpoint str_join_space (pieces : list string) : string :=
  match pieces with
  | [] => EmptyString
  | [piece] => piece
  | piece :: rest => (piece +:+ String " " (str_join_space rest))%string
  end.

Fixpoint count_spaces (s : string) : nat :=
  match s with
  | EmptyString => 0
  | String c s' => (if Ascii.eqb c " " then 1 else 0) + count_spaces s'
  end.

Definition no_space (s : string) : Prop := count_spaces s = 0%nat.

(** A payload of options with an insurance and an unknown key. *)
Definition an_options_payload : pydict :=
  [("signature_required", VBool true);
   ("insurance", VDict [("amount", VNum (PyFloat.of_Z 75))]);
   ("currency", VStr "USD")]%string.

(** Modelled from the spec: the models [COD], [Insurance] and
    [Notification] of [purplship.core.models], which are not among the
    sources; here a model keeps its keyword arguments. *)
Definition spec_model_init (kwargs : pydict) : result pydict := Ok kwargs.

(** [s[n:]]: the text without its first [n] characters. *)
Fixpoint str_drop (n : nat) (s : string) : string :=
  match n, s with
  | S k, String _ s' => str_drop k s'
  | _, _ => s
  end.

(** ** Pickups *)

(** Modelled from the spec: the [build] of the generated binding
    [ModifyPUResponse], which reads each field from the child of that
    name. *)
Definition spec_ModifyPUResponse_build (node : Element) : DHLPickup.ModifyPUResponse :=
  {| DHLPickup.PickupCharge := child_float node "PickupCharge";
     DHLPickup.CurrencyCode := child_text node "CurrencyCode";
     DHLPickup.ConfirmationNumber :=
       omap (fun c => match text c with
                      | Some s => digits_value s 0
                      | None => None
                      end)
            (List.filter (fun c => String.eqb (tag c) "ConfirmationNumber")
                         (children node));
     DHLPickup.NextPickupDate := child_text node "NextPickupDate";
     DHLPickup.ReadyByTime := child_text node "ReadyByTime";
     DHLPickup.CallInTime := child_text node "CallInTime" |}.

(** Modelled from the spec: [format_date] and [format_time] of
    [purplship.core.utils]; here they return the text as it is. *)
Definition spec_format_date (s : string) : result string := Ok s.
Definition spec_format_time (s : option string) : result (option string) := Ok s.

(** A response of DHL to the change of a pickup, with the confirmation
    number as a child of the root, and one with the confirmation number
    one level further down, where the binding does not read it. *)
Definition a_pickup_response : Element :=
  Node "ModifyPUResponse" None
       [leaf "ConfirmationNumber" "3674"; leaf "ReadyByTime" "10:30";
        leaf "CallInTime" "08:30"].

Definition a_nested_pickup_response : Element :=
  Node "ModifyPUResponse" None
       [Node "Note" None [leaf "ConfirmationNumber" "3674"]].

Definition dhl_parse_pickup (response : Element)
  : result (option PickupDetails.t * list Message.t) :=
  DHLPickup.parse_modify_pickup_response spec_ModifyPUResponse_build
    spec_format_date spec_format_time
    (spec_parse_error_response "Condition" "ConditionCode" "ConditionData")
    response a_settings.

(** A request to change a pickup of two parcels of 2.5 and 1, the first
    in pounds and the second in kilograms, from Canada. *)
Definition an_address (country : option string) : Address.t :=
  {| Address.country_code := country; Address.postal_code := None;
     Address.city := None; Address.state_code := None;
     Address.person_name := None; Address.company_name := None;
     Address.phone_number := None; Address.address_line1 := None;
     Address.address_line2 := None; Address.residential := None |}.

Definition a_pickup_update (country : option string) : PickupUpdateRequest.t :=
  {| PickupUpdateRequest.confirmation_number := Some "3674"%string;
     PickupUpdateRequest.date := Some "2013-10-19"%string;
     PickupUpdateRequest.address := an_address country;
     PickupUpdateRequest.parcels :=
       [C7_parcel (PyFloat.of_ratio 25 10) "LB"; C7_parcel (PyFloat.of_Z 1) "KG"];
     PickupUpdateRequest.ready_time := Some "10:20"%string;
     PickupUpdateRequest.closing_time := None;
     PickupUpdateRequest.instruction := None;
     PickupUpdateRequest.package_location := None |}.

Definition dhl_modify_pickup_request (payload : PickupUpdateRequest.t)
  : result (DHLPickup.ModifyPURequest unit) :=
  DHLPickup.modify_pickup_request unit tt None
    [("CA", "AM"); ("FR", "EU")]%string "L" payload.

(** ** Rate requests *)

(** A rate request between two countries for the parcels of 2.5 LB and
    1 KG, the second a document, with one known and one unknown
    service. *)
Definition a_rate_parcel (parcel : Parcel.t) (document : bool) : RateParcel.t :=
  {| RateParcel.parcel := parcel; RateParcel.id := None;
     RateParcel.is_document := Some document; RateParcel.description := None |}.

Definition a_rate_request (parcels : list RateParcel.t) (services : list string)
  : RateRequest.t :=
  {| RateRequest.shipper := an_address (Some "CA"%string);
     RateRequest.recipient := an_address (Some "FR"%string);
     RateRequest.parcels := parcels;
     RateRequest.services := services;
     RateRequest.options := an_options_payload |}.

Definition some_rate_parcels : list RateParcel.t :=
  [a_rate_parcel (C7_parcel (PyFloat.of_ratio 25 10) "LB") false;
   a_rate_parcel (C7_parcel (PyFloat.of_Z 1) "KG") true].

Definition dhl_dct_request (payload : RateRequest.t)
  : result (DHLRequest.DCTRequest unit) :=
  DHLRequest.dct_request unit tt None
    [("dhl_express_worldwide", "P"); ("dhl_express_easy", "8")]%string
    "D" "P" "7" "8"
    [("dhl_insurance", "II")]%string "WY"
    [("your_packaging", "BOX")]%string "AL" ∅
    (fun format => format)
    pydict spec_model_init (fun _ => Some (PyFloat.of_Z 75))
    payload.

Definition ups_freight_rate_request (payload : RateRequest.t)
  : result (Soap.Envelope unit UPSRequest.FreightRateRequest) :=
  UPSRequest.freight_rate_request unit
    {| Soap.ns_prefix_ := Some "upss"%string;
       Soap.original_tagname_ := Some "UPSSecurity"%string;
       Soap.content := tt |}
    [("ups_freight_ltl", "308"); ("ups_freight_ltl_guaranteed", "309")]%string
    "309"
    [("KG", "KGS"); ("LB", "LBS")]%string
    [("small_box", "BOX")]%string ∅
    (fun line1 line2 => line1)
    payload.

(** ** Freight records of UPS with their sub-objects *)

(** The code of a rate line, whether it is a given code, and whether the
    line is reported as an extra charge: all lines but the charge after
    discount, the discount rate and the gross charge. *)
Definition line_code (r : UPSRecord.RateType) : option string :=
  match UPSRecord.Type_ r with
  | Some t => UPSRecord.Code t
  | None => None
  end.

Definition line_coded (code : string) (r : UPSRecord.RateType) : bool :=
  UPSRecord.code_matches code (line_code r).

Definition line_reported (r : UPSRecord.RateType) : bool :=
  negb (line_coded "AFTR_DSCNT" r || line_coded "DSCNT_RATE" r
        || line_coded "LND_GROSS" r).

(** A rate line and a freight record read through their sub-objects,
    an attribute of a sub-object that is absent being null. *)
Definition flat_line (r : UPSRecord.RateType) : UPS.RateType :=
  {| UPS.Type_Code := line_code r;
     UPS.Factor_Value :=
       match UPSRecord.Factor r with
       | Some f => UPSRecord.Value f
       | None => None
       end;
     UPS.Factor_UnitOfMeasurement_Code :=
       match UPSRecord.Factor r with
       | Some f =>
           match UPSRecord.UnitOfMeasurement f with
           | Some u => UPSRecord.Code u
           | None => None
           end
       | None => None
       end |}.

Definition flat_record (detail : UPSRecord.FreightRateResponse)
  : UPS.FreightRateResponse :=
  {| UPS.Rate := map flat_line (UPSRecord.Rate detail);
     UPS.Service_Description :=
       match UPSRecord.Service detail with
       | Some s => UPSRecord.Description s
       | None => None
       end;
     UPS.TotalShipmentCharge_MonetaryValue :=
       match UPSRecord.TotalShipmentCharge detail with
       | Some t => UPSRecord.MonetaryValue t
       | None => None
       end |}.

(** Modelled from the spec: the [build] of the generated bindings, which
    are "treated as pre-parsed, navigable trees": each sub-object is
    built from the child of that name when there is one, each field is
    read from the child of that name, a number from its decimal text. *)
Definition spec_CodeDescription_build (node : Element)
  : UPSRecord.CodeDescriptionType :=
  {| UPSRecord.Code := child_text node "Code";
     UPSRecord.Description := child_text node "Description" |}.

Definition spec_RateValue_build (node : Element) : UPSRecord.RateValueType :=
  {| UPSRecord.Value := child_float node "Value";
     UPSRecord.UnitOfMeasurement :=
       option_map spec_CodeDescription_build (child node "UnitOfMeasurement") |}.

Definition spec_RateType_build (node : Element) : UPSRecord.RateType :=
  {| UPSRecord.Type_ := option_map spec_CodeDescription_build (child node "Type");
     UPSRecord.Factor := option_map spec_RateValue_build (child node "Factor") |}.

Definition spec_freight_record_build (node : Element)
  : UPSRecord.FreightRateResponse :=
  {| UPSRecord.Rate :=
       map spec_RateType_build
           (List.filter (fun c => String.eqb (tag c) "Rate") (children node));
     UPSRecord.Service :=
       option_map spec_CodeDescription_build (child node "Service");
     UPSRecord.TotalShipmentCharge :=
       option_map (fun t => {| UPSRecord.MonetaryValue := child_float t "MonetaryValue" |})
                  (child node "TotalShipmentCharge") |}.

Definition ups_extract_record (node : Element) : result RateDetails.t :=
  UPSRecord._extract_freight_rate spec_freight_record_build node a_settings.

(** A UPS freight record without the element [Service]. *)
Definition a_freight_node_without_service : Element :=
  Node "FreightRateResponse" None
       [a_rate_line "DSCNT" "5.00"; a_rate_line "AFTR_DSCNT" "20.00";
        a_rate_line "LND_GROSS" "25.00"; a_rate_line "2" "3.00";
        Node "TotalShipmentCharge" None
             [leaf "CurrencyCode" "USD"; leaf "MonetaryValue" "23.00"]].

(** The sub-objects that the extraction of a freight record reads: the
    type of every rate line, the factor and its unit of measurement of
    every reported line, the factor of the first line coded
    [AFTR_DSCNT], the service and the total shipment charge. *)
Definition sub_objects_present (detail : UPSRecord.FreightRateResponse) : Prop :=
  Forall (fun r => UPSRecord.Type_ r <> None) (UPSRecord.Rate detail)
  /\ Forall (fun r => line_reported r = true ->
                      exists factor, UPSRecord.Factor r = Some factor
                                     /\ UPSRecord.UnitOfMeasurement factor <> None)
            (UPSRecord.Rate detail)
  /\ (forall r, head (List.filter (line_coded "AFTR_DSCNT") (UPSRecord.Rate detail))
                = Some r ->
                UPSRecord.Factor r <> None)
  /\ UPSRecord.Service detail <> None
  /\ UPSRecord.TotalShipmentCharge detail <> None.

(** * Properties *)

(** ** Basic facts about the accessors *)

Lemma Dimension_value_dim v u : Dimension.value (dim v u) = Ok (decimal v).
Proof. destruct u, v; reflexivity. Qed.

Lemma Weight_value_wgt v u : Weight.value (wgt v u) = Ok (decimal v).
Proof. destruct u, v; reflexivity. Qed.

Lemma Dimension_CM_None v u : Dimension.CM (dim v u) = None <-> v = None.
Proof. destruct u, v; cbn; split; congruence. Qed.

Lemma Dimension_M_None v u : Dimension.M (dim v u) = None <-> v = None.
Proof. destruct u, v; cbn; split; congruence. Qed.

Lemma decimal_None v : decimal v = None <-> v = None.
Proof. destruct v; cbn; split; congruence. Qed.

(** ** C1: conversions of a dimension *)

(** C1 (the code departs from the claim).  For every value [v] the
    same-unit accessors return [v] rounded to two decimal places, but the
    two factors are exchanged: [Dimension(v, IN).CM] is [v * 0.393701]
    rounded and [Dimension(v, CM).IN] is [v * 2.54] rounded.  One inch is
    therefore reported as 0.39 centimetres, where 1 IN = 2.54 CM asks
    for 2.54, and one centimetre as 2.54 inches. *)
Theorem C1_dimension_factors_exchanged :
  (forall v : float,
      Dimension.CM (dim (Some v) DimensionUnit.CM) = decimal (Some v)
      /\ Dimension.IN (dim (Some v) DimensionUnit.IN) = decimal (Some v)
      /\ Dimension.CM (dim (Some v) DimensionUnit.IN)
         = decimal (Some (PyFloat.mul v c_0_393701))
      /\ Dimension.IN (dim (Some v) DimensionUnit.CM)
         = decimal (Some (PyFloat.mul v c_2_54)))
  /\ Dimension.CM (dim (Some (PyFloat.of_Z 1)) DimensionUnit.IN)
     = Some (PyFloat.of_ratio 39 100)
  /\ decimal (Some (PyFloat.mul (PyFloat.of_Z 1) c_2_54))
     = Some (PyFloat.of_ratio 254 100)
  /\ Dimension.IN (dim (Some (PyFloat.of_Z 1)) DimensionUnit.CM)
     = Some (PyFloat.of_ratio 254 100)
  /\ PyFloat.of_ratio 39 100 <> PyFloat.of_ratio 254 100.
Proof.
  split; [intros v; repeat split; reflexivity |].
  repeat split; try (vm_compute; reflexivity).
  vm_compute. discriminate.
Qed.

(** ** C2: the effective attributes of a package *)

(** [a or b] prefers [a] unless it is null or zero. *)
Lemma py_or_preferred a b : py_or a b = preferred a b.
Proof. destruct a as [[]|]; reflexivity. Qed.

(** C2, as stated, fails on the weight: for a parcel of weight 2 with a
    preset whose fixed weight is 5, the effective weight is the parcel's
    2, not the preset's 5. *)
Lemma C2_weight_prefers_parcel :
  let package := Package.__init__ C2_parcel (Some C2_preset) in
  PackagePreset.weight (Package.preset package) = Some (PyFloat.of_Z 5)
  /\ Package.weight package = Ok (wgt (Some (PyFloat.of_Z 2)) WeightUnit.LB)
  /\ ~ (exists w, Package.weight package = Ok w
                  /\ Weight._value w = PackagePreset.weight (Package.preset package)).
Proof.
  cbn zeta. repeat split.
  intros [w [Hw Hv]]. vm_compute in Hw. injection Hw as <-.
  vm_compute in Hv. discriminate.
Qed.

(** C2 (amended).  For every package whose unit names resolve, width,
    height and length take the preset's value when the preset supplies a
    non-zero one and the parcel's raw value otherwise, whereas the weight
    takes the parcel's raw value when it is present and non-zero and the
    preset's value otherwise. *)
Theorem C2_effective_attributes (package : Package.t)
    (du : DimensionUnit.t) (wu : WeightUnit.t)
    (Hdu : Package.dimension_unit package = Ok du)
    (Hwu : Package.weight_unit package = Ok wu) :
  let parcel := Package.parcel package in
  let preset := Package.preset package in
  Package.width package
  = Ok (dim (preferred (PackagePreset.width preset) (Parcel.width parcel)) du)
  /\ Package.height package
     = Ok (dim (preferred (PackagePreset.height preset) (Parcel.height parcel)) du)
  /\ Package.length package
     = Ok (dim (preferred (PackagePreset.length preset) (Parcel.length parcel)) du)
  /\ Package.weight package
     = Ok (wgt (preferred (Parcel.weight parcel) (PackagePreset.weight preset)) wu).
Proof.
  cbn zeta.
  unfold Package.width, Package.height, Package.length, Package.weight.
  rewrite Hdu, Hwu. cbn. rewrite !py_or_preferred. repeat split.
Qed.

Lemma C2_effective_attributes_witness :
  let package := Package.__init__ C2_parcel (Some C2_preset) in
  Package.width package = Ok (dim (Some (PyFloat.of_Z 30)) DimensionUnit.CM)
  /\ Package.weight package = Ok (wgt (Some (PyFloat.of_Z 2)) WeightUnit.LB).
Proof.
  cbn zeta.
  destruct (C2_effective_attributes (Package.__init__ C2_parcel (Some C2_preset))
              DimensionUnit.CM WeightUnit.LB) as (Hw & _ & _ & Hwt);
    [reflexivity | reflexivity |].
  split; [exact Hw | exact Hwt].
Defined.

(** ** C3: required attributes of a collection *)

(** Every violation carries the code [required]. *)
Lemma code_is_required (errors : gmap string FieldErrorCode.t) k c :
  errors !! k = Some c -> errors !! k = Some FieldErrorCode.required.
Proof. destruct c. trivial. Qed.

(** The inner loop adds to the violations exactly the keys of the
    required attributes that are missing on the package. *)
Lemma check_fields_spec (index : nat) (package : Package.t) (fields : list string) :
  forall errors : gmap string FieldErrorCode.t,
    (forall f, f ∈ fields -> exists b, missing_at package f = Ok b) ->
    exists errors',
      Packages.check_fields index package fields errors = Ok errors'
      /\ forall k,
          errors' !! k = Some FieldErrorCode.required
          <-> errors !! k = Some FieldErrorCode.required
              \/ exists f, f ∈ fields /\ missing_at package f = Ok true
                           /\ k = Packages.error_key index f.
Proof.
  induction fields as [|f fields IH]; intros errors Hread.
  - exists errors. split; [reflexivity |]. intros k. split; [auto |].
    intros [H | (f & Hf & _)]; [exact H |]. apply elem_of_nil in Hf. destruct Hf.
  - destruct (Hread f) as [b Hb]; [left |].
    destruct (IH (if b then <[Packages.error_key index f := FieldErrorCode.required]> errors
                  else errors)) as (errors' & Hrun & Hspec).
    { intros f' Hf'. apply Hread. right. exact Hf'. }
    exists errors'. split.
    + cbn [Packages.check_fields]. unfold missing_at in Hb.
      destruct (getattr package f) as [prop|e]; cbn [bind] in Hb |- *;
        [| discriminate].
      rewrite Hb. cbn [bind]. exact Hrun.
    + intros k. rewrite Hspec. split.
      * intros [H | (f' & Hf' & Hm & ->)].
        -- destruct b; [| left; exact H].
           destruct (decide (Packages.error_key index f = k)) as [<- | Hne].
           ++ right. exists f. split; [left | split; [exact Hb | reflexivity]].
           ++ left. rewrite lookup_insert_ne in H by exact Hne. exact H.
        -- right. exists f'. split; [right; exact Hf' | split; [exact Hm | reflexivity]].
      * intros [H | (f' & Hf' & Hm & ->)].
        -- left. destruct b; [| exact H].
           destruct (decide (Packages.error_key index f = k)) as [<- | Hne].
           ++ apply lookup_insert_eq.
           ++ rewrite lookup_insert_ne by exact Hne. exact H.
        -- apply elem_of_cons in Hf' as [-> | Hf'].
           ++ left. rewrite Hb in Hm. injection Hm as ->. apply lookup_insert_eq.
           ++ right. exists f'. split; [exact Hf' | split; [exact Hm | reflexivity]].
Qed.

(** The outer loop adds exactly the keys of the missing pairs, each
    package under its own index. *)
Lemma check_items_spec (fields : list string) (items : list Package.t) :
  forall (index : nat) (errors : gmap string FieldErrorCode.t),
    (forall i package f,
        items !! i = Some package -> f ∈ fields ->
        exists b, missing_at package f = Ok b) ->
    exists errors',
      Packages.check_items index items fields errors = Ok errors'
      /\ forall k,
          errors' !! k = Some FieldErrorCode.required
          <-> errors !! k = Some FieldErrorCode.required
              \/ exists i package f,
                  items !! i = Some package /\ f ∈ fields
                  /\ missing_at package f = Ok true
                  /\ k = Packages.error_key (index + i) f.
Proof.
  induction items as [|package items IH]; intros index errors Hread.
  - exists errors. split; [reflexivity |]. intros k. split; [auto |].
    intros [H | (i & p & f & Hi & _)]; [exact H | discriminate].
  - destruct (check_fields_spec index package fields errors)
      as (errors1 & Hrun1 & Hspec1).
    { intros f Hf. apply (Hread 0%nat package f); [reflexivity | exact Hf]. }
    destruct (IH (S index) errors1) as (errors' & Hrun & Hspec).
    { intros i p f Hi Hf. apply (Hread (S i) p f); [exact Hi | exact Hf]. }
    exists errors'. split.
    + cbn [Packages.check_items]. rewrite Hrun1. cbn [bind]. exact Hrun.
    + intros k. rewrite Hspec, Hspec1. split.
      * intros [[H | (f & Hf & Hm & ->)] | (i & p & f & Hi & Hf & Hm & ->)].
        -- left. exact H.
        -- right. exists 0%nat, package, f.
           rewrite Nat.add_0_r. repeat split; assumption.
        -- right. exists (S i), p, f.
           replace (index + S i)%nat with (S index + i)%nat by lia.
           repeat split; assumption.
      * intros [H | (i & p & f & Hi & Hf & Hm & ->)].
        -- left. left. exact H.
        -- destruct i as [|i].
           ++ injection Hi as <-. left. right. exists f.
              rewrite Nat.add_0_r. repeat split; assumption.
           ++ right. exists i, p, f.
              replace (S index + i)%nat with (index + S i)%nat by lia.
              repeat split; assumption.
Qed.

(** The index of a key is written in digits, so that the key determines
    the index and the field. *)
Lemma no_bracket_split (d1 d2 r1 r2 : string) :
  no_bracket d1 = true -> no_bracket d2 = true ->
  (d1 +:+ String "]" r1 = d2 +:+ String "]" r2)%string -> d1 = d2 /\ r1 = r2.
Proof.
  revert d2. induction d1 as [|c d1 IH]; intros [|c' d2] H1 H2 Heq; cbn in *.
  - injection Heq as ->. split; reflexivity.
  - injection Heq as <- _. cbn in H2. discriminate.
  - injection Heq as -> _. cbn in H1. discriminate.
  - injection Heq as -> Heq.
    apply andb_prop in H1 as [_ H1]. apply andb_prop in H2 as [_ H2].
    destruct (IH d2 H1 H2 Heq) as [-> ->]. split; reflexivity.
Qed.

Lemma pretty_N_char_no_bracket (x : N) : Ascii.eqb (pretty_N_char x) "]" = false.
Proof.
  unfold pretty_N_char.
  repeat match goal with |- context [match ?n with _ => _ end] => destruct n end;
    reflexivity.
Qed.

Lemma pretty_N_go_no_bracket (x : N) :
  forall s, no_bracket s = true -> no_bracket (pretty_N_go x s) = true.
Proof.
  induction (N.lt_wf_0 x) as [x _ IH]. intros s Hs.
  destruct (decide (x = 0)%N) as [-> | Hx].
  - rewrite pretty_N_go_0. exact Hs.
  - rewrite pretty_N_go_step by lia. apply IH.
    + apply N.div_lt; lia.
    + cbn. rewrite pretty_N_char_no_bracket. exact Hs.
Qed.

Lemma pretty_nat_no_bracket (n : nat) : no_bracket (pretty n) = true.
Proof.
  unfold pretty, pretty_nat, pretty, pretty_N.
  destruct (decide (N.of_nat n = 0)%N); [reflexivity |].
  apply pretty_N_go_no_bracket. reflexivity.
Qed.

(** Two pairs of an index and a field have the same key only if they are
    the same pair. *)
Lemma error_key_inj (i j : nat) (f g : string) :
  Packages.error_key i f = Packages.error_key j g -> i = j /\ f = g.
Proof.
  unfold Packages.error_key. intros H.
  assert (H' : (pretty i +:+ String "]" ("." +:+ f)
                = pretty j +:+ String "]" ("." +:+ g))%string).
  { cbn in H. repeat (injection H as H). exact H. }
  destruct (no_bracket_split _ _ _ _ (pretty_nat_no_bracket i)
              (pretty_nat_no_bracket j) H') as [Hij Hfg].
  split; [exact (pretty_nat_inj _ _ Hij) |].
  vm_compute in Hfg. injection Hfg as Hfg. exact Hfg.
Qed.

(** On a package whose unit names resolve, the weight, the three
    dimensions and the packaging type can be read, and each is missing
    exactly when its resolved value is null. *)
Lemma missing_at_measurements (package : Package.t)
    (du : DimensionUnit.t) (wu : WeightUnit.t) :
  Package.dimension_unit package = Ok du ->
  Package.weight_unit package = Ok wu ->
  let parcel := Package.parcel package in
  let preset := Package.preset package in
  let null (v : option float) := if v is Some _ then false else true in
  missing_at package "weight"
  = Ok (null (preferred (Parcel.weight parcel) (PackagePreset.weight preset)))
  /\ missing_at package "width"
     = Ok (null (preferred (PackagePreset.width preset) (Parcel.width parcel)))
  /\ missing_at package "height"
     = Ok (null (preferred (PackagePreset.height preset) (Parcel.height parcel)))
  /\ missing_at package "length"
     = Ok (null (preferred (PackagePreset.length preset) (Parcel.length parcel)))
  /\ missing_at package "packaging_type"
     = Ok (if Package.packaging_type package is Some _ then false else true).
Proof.
  intros Hdu Hwu. cbn zeta. unfold missing_at, getattr. cbn [String.eqb Ascii.eqb Bool.eqb].
  unfold Package.weight, Package.width, Package.height, Package.length.
  rewrite Hdu, Hwu. cbn [bind is_missing]. rewrite !py_or_preferred.
  fold (wgt (preferred (Parcel.weight (Package.parcel package))
                       (PackagePreset.weight (Package.preset package))) wu).
  repeat match goal with
         | |- context [Dimension.Build ?v (Some du)] => fold (dim v du)
         end.
  rewrite Weight_value_wgt, !Dimension_value_dim.
  repeat split;
    try (match goal with |- context [decimal ?v] => destruct v end; reflexivity).
  destruct (Package.packaging_type package); reflexivity.
Qed.

(** C3, as stated, fails when a required attribute cannot be read: with a
    parcel that lacks its weight and a parcel whose weight unit is named
    ["G"], the construction raises [KeyError]; it neither succeeds nor
    fails with a field error, and the violation of the first parcel is
    not reported. *)
Lemma C3_unknown_unit_raises_key_error :
  Packages.__init__ [C3_parcel; C3_unknown_unit_parcel] None (Some ["weight"%string])
  = Raise KeyError
  /\ missing_at (Package.__init__ C3_parcel None) "weight" = Ok true.
Proof. split; vm_compute; reflexivity. Qed.

(** C3 (amended).  For every parcel list and every list of required
    attributes that can be read on each package (the attribute exists,
    the unit names resolve and its value accessor does not raise), the
    construction succeeds when no required attribute of any package is
    missing, and otherwise fails with a field error whose violations are
    exactly the keys ["parcel[index].field"] of all the pairs of a
    package index and a required attribute whose value is missing, one
    key for each pair. *)
Theorem C3_required_violations_accumulate
    (parcels : list Parcel.t) (presets : option (gmap string PackagePreset.t))
    (fields : list string) :
  let items :=
    map (fun parcel => Package.__init__ parcel (Packages.compute_preset presets parcel))
        parcels in
  let violation (k : string) :=
    exists i package f,
      items !! i = Some package /\ f ∈ fields
      /\ missing_at package f = Ok true /\ k = Packages.error_key i f in
  (forall i package f,
      items !! i = Some package -> f ∈ fields ->
      exists b, missing_at package f = Ok b) ->
  (forall i j f g,
      Packages.error_key i f = Packages.error_key j g -> i = j /\ f = g)
  /\ (((forall k, ~ violation k)
       /\ Packages.__init__ parcels presets (Some fields) = Ok (Packages.Build items))
      \/ ((exists k, violation k)
          /\ exists errors,
              Packages.__init__ parcels presets (Some fields)
              = Raise (FieldError errors)
              /\ forall k,
                  errors !! k = Some FieldErrorCode.required <-> violation k)).
Proof.
  intros items violation Hread. split; [exact error_key_inj |].
  destruct (check_items_spec fields items 0%nat ∅ Hread) as (errors & Hrun & Hspec).
  assert (Hviol : forall k, errors !! k = Some FieldErrorCode.required <-> violation k).
  { intros k. rewrite Hspec. unfold violation. split.
    - intros [H | H]; [rewrite lookup_empty in H; discriminate | exact H].
    - intros H. right. exact H. }
  unfold Packages.__init__. fold items. rewrite Hrun. cbn [bind].
  destruct (bool_decide (errors = ∅)) eqn:Hempty.
  - left. apply bool_decide_eq_true in Hempty. split; [| reflexivity].
    intros k Hk. apply Hviol in Hk. rewrite Hempty, lookup_empty in Hk. discriminate.
  - right. apply bool_decide_eq_false in Hempty. split.
    + destruct (map_choose errors Hempty) as (k & c & Hk).
      exists k. apply Hviol. exact (code_is_required _ _ _ Hk).
    + exists errors. split; [reflexivity | exact Hviol].
Qed.

(** Two parcels that lack both a weight and a preset weight: the field
    error names both parcel indices. *)
Lemma C3_required_violations_accumulate_witness :
  exists errors,
    Packages.__init__ [C3_parcel; C3_parcel] None (Some ["weight"%string])
    = Raise (FieldError errors)
    /\ errors !! "parcel[0].weight"%string = Some FieldErrorCode.required
    /\ errors !! "parcel[1].weight"%string = Some FieldErrorCode.required.
Proof.
  destruct (C3_required_violations_accumulate
              [C3_parcel; C3_parcel] None ["weight"%string])
    as [_ [[Hnone _] | [_ (errors & Hinit & Hspec)]]].
  - intros i package f Hi Hf. apply list_elem_of_singleton in Hf as ->.
    destruct i as [|[|i]]; [| | discriminate];
      injection Hi as <-; exists true; reflexivity.
  - exfalso. apply (Hnone "parcel[0].weight"%string).
    exists 0%nat, (Package.__init__ C3_parcel None), "weight"%string.
    repeat split. left.
  - exists errors. split; [exact Hinit |]. split; apply Hspec.
    + exists 0%nat, (Package.__init__ C3_parcel None), "weight"%string.
      repeat split. left.
    + exists 1%nat, (Package.__init__ C3_parcel None), "weight"%string.
      repeat split. left.
Defined.

(** ** C4 and C5: the response parsers *)

(** A list comprehension returns the list of the results when every
    element returns, and raises otherwise. *)
Lemma mapM_Forall2 {A B : Type} (f : A -> result B) (l : list A) (ys : list B) :
  mapM f l = Ok ys <-> Forall2 (fun x y => f x = Ok y) l ys.
Proof.
  revert ys. induction l as [|x l IH]; intros ys; cbn.
  - split.
    + intros [= <-]. constructor.
    + intros H. inversion H. reflexivity.
  - split.
    + destruct (f x) as [y|e] eqn:Hy; cbn; [| discriminate].
      destruct (mapM f l) as [ys'|e] eqn:Hl; cbn; [| discriminate].
      intros [= <-]. constructor; [exact Hy | apply IH; reflexivity].
    + intros H. inversion H as [|x' y l' ys' Hy Hrest]; subst.
      rewrite Hy. cbn. apply IH in Hrest. rewrite Hrest. reflexivity.
Qed.

Lemma mapM_total {A B : Type} (f : A -> result B) (l : list A) :
  (forall x, x ∈ l -> exists y, f x = Ok y) -> exists ys, mapM f l = Ok ys.
Proof.
  induction l as [|x l IH]; intros H; cbn.
  - eauto.
  - destruct (H x) as [y ->]; [left |].
    destruct IH as [ys ->]; [intros x' Hx'; apply H; right; exact Hx' |].
    cbn. eauto.
Qed.

Lemma Forall2_elem_of_l {A B : Type} (P : A -> B -> Prop) l ys x :
  Forall2 P l ys -> x ∈ l -> exists y, y ∈ ys /\ P x y.
Proof.
  induction 1 as [|x' y l' ys' HP _ IH]; intros Hx.
  - apply elem_of_nil in Hx. destruct Hx.
  - apply elem_of_cons in Hx as [-> | Hx].
    + exists y. split; [left | exact HP].
    + destruct (IH Hx) as (y' & Hy' & HP'). exists y'. split; [right |]; assumption.
Qed.

Lemma Forall2_elem_of_r {A B : Type} (P : A -> B -> Prop) l ys y :
  Forall2 P l ys -> y ∈ ys -> exists x, x ∈ l /\ P x y.
Proof.
  induction 1 as [|x y' l' ys' HP _ IH]; intros Hy.
  - apply elem_of_nil in Hy. destruct Hy.
  - apply elem_of_cons in Hy as [-> | Hy].
    + exists x. split; [left | exact HP].
    + destruct (IH Hy) as (x' & Hx' & HP'). exists x'. split; [right |]; assumption.
Qed.

(** C4, as stated, fails for the DHL quote parser.  The response holds
    one valid quote record, which extracts to a rate on its own, and one
    error node, which the error parser reports; a further record with a
    shipping charge and no delivery date makes [qtdshp.DeliveryDate[0]]
    raise [IndexError], which aborts the parse: neither the rate of the
    valid record nor the message is returned. *)
Lemma C4_undated_record_aborts_parse :
  a_QtdShp_node "12.50" ∈ xpath a_dct_response_with_undated_record "QtdShp"
  /\ (exists rate, dhl_extract (a_QtdShp_node "12.50") = Ok (Some rate))
  /\ an_error_node ∈ xpath a_dct_response_with_undated_record "Condition"
  /\ (exists message,
        spec_parse_error_response "Condition" "ConditionCode" "ConditionData"
          a_dct_response_with_undated_record a_settings = [message])
  /\ dhl_extract a_QtdShp_node_without_delivery_date = Raise IndexError
  /\ dhl_parse a_dct_response_with_undated_record = Raise IndexError.
Proof.
  split; [| split; [| split; [| split; [| split]]]].
  - vm_compute. left.
  - eexists. vm_compute. reflexivity.
  - vm_compute. left.
  - eexists. vm_compute. reflexivity.
  - vm_compute. reflexivity.
  - vm_compute. reflexivity.
Qed.

(** The Canada Post cancel-pickup parser returns a null result as soon
    as the response holds an error node, and a non-null one only beside
    an empty message list. *)
Lemma cancel_pickup_result_is_null_beside_messages :
  fst (canadapost_parse a_messages_response) = None
  /\ snd (canadapost_parse a_messages_response) <> []
  /\ fst (canadapost_parse (Node "messages" None [])) <> None
  /\ snd (canadapost_parse (Node "messages" None [])) = [].
Proof. vm_compute. repeat split; discriminate. Qed.

(** C4 (amended).  The DHL quote parser and the UPS freight-rate parser
    return, whenever each result record of the response can be
    extracted, every extracted rate together with exactly the messages
    of the error parser, whatever these are; a response with one valid
    record and one error node thus yields a non-empty rate list beside a
    non-empty message list.  The Canada Post cancel-pickup parser always
    returns the messages of the error parser, and its confirmation is
    non-null if and only if there is no message. *)
Theorem C4_messages_beside_results :
  (forall QtdShp_build date to_date days_between Product parse_error_response
          response settings,
      let extract :=
        fun node => DHL._extract_quote QtdShp_build date to_date days_between
                                       Product node settings in
      (forall node, node ∈ xpath response "QtdShp" -> exists q, extract node = Ok q) ->
      exists rates,
        DHL.parse_dct_response QtdShp_build date to_date days_between Product
                               parse_error_response response settings
        = Ok (rates, parse_error_response response settings)
        /\ forall node rate,
            node ∈ xpath response "QtdShp" -> extract node = Ok (Some rate) ->
            rate ∈ rates)
  /\ (forall FreightRateResponse_build parse_error_response response settings,
         let extract :=
           fun node => UPS._extract_freight_rate FreightRateResponse_build
                                                 node settings in
         (forall node, node ∈ xpath response "FreightRateResponse" ->
                       exists r, extract node = Ok r) ->
         exists rates,
           UPS.parse_freight_rate_response FreightRateResponse_build
                                           parse_error_response response settings
           = Ok (rates, parse_error_response response settings)
           /\ forall node rate,
               node ∈ xpath response "FreightRateResponse" ->
               extract node = Ok rate -> rate ∈ rates)
  /\ (forall parse_error_response response settings,
         let result :=
           CanadaPost.parse_cancel_pickup_response parse_error_response
                                                   response settings in
         snd result = parse_error_response response settings
         /\ (fst result <> None <-> snd result = [])).
Proof.
  split; [| split].
  - intros QtdShp_build date to_date days_between Product perr response settings
           extract Hvalid.
    destruct (mapM_total extract (xpath response "QtdShp") Hvalid) as [quotes Hq].
    exists (omap (fun quote => quote) quotes). unfold DHL.parse_dct_response. fold extract.
    rewrite Hq. split; [reflexivity |].
    intros node rate Hnode Hrate. apply mapM_Forall2 in Hq.
    destruct (Forall2_elem_of_l _ _ _ _ Hq Hnode) as (q & Hin & Hex).
    rewrite Hrate in Hex. injection Hex as <-.
    apply list_elem_of_omap. exists (Some rate). split; [exact Hin | reflexivity].
  - intros build perr response settings extract Hvalid.
    destruct (mapM_total extract (xpath response "FreightRateResponse") Hvalid)
      as [rates Hr].
    exists rates. unfold UPS.parse_freight_rate_response. fold extract.
    rewrite Hr. split; [reflexivity |].
    intros node rate Hnode Hrate. apply mapM_Forall2 in Hr.
    destruct (Forall2_elem_of_l _ _ _ _ Hr Hnode) as (r & Hin & Hex).
    rewrite Hrate in Hex. injection Hex as <-. exact Hin.
  - intros perr response settings. cbn zeta.
    unfold CanadaPost.parse_cancel_pickup_response. cbn [fst snd].
    split; [reflexivity |].
    destruct (perr response settings) as [|m ms]; cbn; split; congruence.
Qed.

(** One valid quote record and one error node: a rate and a message. *)
Lemma C4_messages_beside_results_witness :
  exists rate message,
    dhl_parse (a_dct_response "12.50") = Ok ([rate], [message]).
Proof.
  destruct C4_messages_beside_results as [Hdhl _].
  destruct (Hdhl spec_QtdShp_build unit spec_to_date spec_days_between
              [("dhl_express_worldwide", "EXPRESS WORLDWIDE")]%string
              (spec_parse_error_response "Condition" "ConditionCode" "ConditionData")
              (a_dct_response "12.50") a_settings) as (rates & Hparse & _).
  - intros node Hnode. vm_compute in Hnode.
    apply list_elem_of_singleton in Hnode as ->.
    eexists. vm_compute. reflexivity.
  - unfold dhl_parse. rewrite Hparse. vm_compute in Hparse.
    injection Hparse as <-. vm_compute. eauto.
Defined.

(** A quote that extracts is nothing when the record has no charge, and
    otherwise a rate whose total charge is the rounded shipping charge. *)
Lemma extract_quote_inv QtdShp_build date to_date days_between Product node settings q :
  DHL._extract_quote QtdShp_build date to_date days_between Product node settings
  = Ok q ->
  (DHL.no_charge (DHL.ShippingCharge (QtdShp_build node)) = true /\ q = None)
  \/ (DHL.no_charge (DHL.ShippingCharge (QtdShp_build node)) = false
      /\ exists rate,
          q = Some rate
          /\ RateDetails.total_charge rate
             = decimal (DHL.ShippingCharge (QtdShp_build node))).
Proof.
  unfold DHL._extract_quote.
  destruct (DHL.no_charge (DHL.ShippingCharge (QtdShp_build node))) eqn:Hcharge.
  - intros [= <-]. left. split; reflexivity.
  - intros H. right. split; [reflexivity |]. cbn zeta in H. step_bind H.
    injection H as <-. eexists. split; reflexivity.
Qed.

(** Dropping the records that extract to nothing leaves as many rates as
    there are records that the test [p] keeps. *)
Lemma omap_id_length_filter {A B : Type} (f : A -> result (option B)) (p : A -> bool)
    (l : list A) (qs : list (option B)) :
  Forall2 (fun x q => f x = Ok q) l qs ->
  (forall x q, f x = Ok q -> p x = match q with Some _ => true | None => false end) ->
  List.length (omap (fun q => q) qs) = List.length (List.filter p l).
Proof.
  intros H Hp. induction H as [|x q l qs Hx _ IH]; [reflexivity |].
  cbn [List.filter]. rewrite (Hp x q Hx).
  destruct q; cbn; rewrite IH; reflexivity.
Qed.

Lemma mapM_length {A B : Type} (f : A -> result B) (l : list A) (ys : list B) :
  mapM f l = Ok ys -> List.length ys = List.length l.
Proof.
  intros H. apply mapM_Forall2 in H. symmetry. exact (Forall2_length _ _ _ H).
Qed.

(** C5, as stated, fails for the UPS freight-rate parser: a record whose
    charge after discount has no value, or the value zero, is emitted as
    a rate whose total charge is 0.0. *)
Lemma C5_freight_rate_emits_zero_priced_rate :
  (exists rate,
      ups_parse (a_freight_response []) = Ok ([rate], [])
      /\ RateDetails.total_charge rate = Some (PyFloat.of_Z 0))
  /\ (exists rate,
         ups_parse (a_freight_response [leaf "Value" "0.00"]) = Ok ([rate], [])
         /\ RateDetails.total_charge rate = Some (PyFloat.of_Z 0)).
Proof. split; eexists; vm_compute; split; reflexivity. Qed.

(** C5 (amended).  The DHL quote parser leaves out, silently, every quote
    record whose shipping charge is absent or zero: such a record
    extracts to nothing, the returned rates are as many as the records
    with a charge, each of them carries the non-zero charge of a record,
    and the messages are those of the error parser alone.  The UPS
    freight-rate parser leaves out no record: it returns one rate per
    record, and a record whose charge after discount is absent or zero is
    emitted with the total charge 0.0. *)
Theorem C5_records_without_charge :
  (forall QtdShp_build date to_date days_between Product parse_error_response
          response settings,
      let extract :=
        fun node => DHL._extract_quote QtdShp_build date to_date days_between
                                       Product node settings in
      let charged :=
        fun node => negb (DHL.no_charge (DHL.ShippingCharge (QtdShp_build node))) in
      (forall node, charged node = false -> extract node = Ok None)
      /\ forall rates messages,
          DHL.parse_dct_response QtdShp_build date to_date days_between Product
                                 parse_error_response response settings
          = Ok (rates, messages) ->
          messages = parse_error_response response settings
          /\ List.length rates
             = List.length (List.filter charged (xpath response "QtdShp"))
          /\ forall rate,
              rate ∈ rates ->
              exists node c,
                node ∈ xpath response "QtdShp"
                /\ DHL.ShippingCharge (QtdShp_build node) = Some c
                /\ PyFloat.eqb c (PyFloat.of_Z 0) = false
                /\ RateDetails.total_charge rate = Some (PyFloat.round2 c))
  /\ (forall FreightRateResponse_build parse_error_response response settings,
         let extract :=
           fun node => UPS._extract_freight_rate FreightRateResponse_build
                                                 node settings in
         (forall rates messages,
             UPS.parse_freight_rate_response FreightRateResponse_build
                                             parse_error_response response settings
             = Ok (rates, messages) ->
             List.length rates
             = List.length (xpath response "FreightRateResponse"))
         /\ forall node rate r others,
             extract node = Ok rate ->
             List.filter (UPS.code_is "AFTR_DSCNT")
                         (UPS.Rate (FreightRateResponse_build node)) = r :: others ->
             truthy (UPS.Factor_Value r) = false ->
             RateDetails.total_charge rate = Some (PyFloat.of_Z 0)).
Proof.
  split.
  - intros QtdShp_build date to_date days_between Product perr response settings
           extract charged.
    split.
    + intros node Hnode. unfold charged in Hnode. apply negb_false_iff in Hnode.
      unfold extract, DHL._extract_quote. rewrite Hnode. reflexivity.
    + intros rates messages. unfold DHL.parse_dct_response. fold extract.
      destruct (mapM extract (xpath response "QtdShp")) as [quotes|e] eqn:Hq;
        cbn [bind]; [| discriminate].
      intros [= <- <-]. apply mapM_Forall2 in Hq.
      split; [reflexivity |]. split.
      * apply (omap_id_length_filter extract charged _ _ Hq).
        intros node q Hex. unfold charged.
        destruct (extract_quote_inv _ _ _ _ _ _ _ _ Hex)
          as [[-> ->] | [-> (rate & -> & _)]]; reflexivity.
      * intros rate Hrate. apply list_elem_of_omap in Hrate as (q & Hin & Hq').
        cbn in Hq'. subst q.
        destruct (Forall2_elem_of_r _ _ _ _ Hq Hin) as (node & Hnode & Hex).
        destruct (extract_quote_inv _ _ _ _ _ _ _ _ Hex)
          as [[_ [=]] | [Hcharge (rate' & [= <-] & Htotal)]].
        unfold DHL.no_charge in Hcharge.
        destruct (DHL.ShippingCharge (QtdShp_build node)) as [c|] eqn:Hc;
          [| discriminate].
        exists node, c. repeat split; assumption.
  - intros build perr response settings extract. split.
    + intros rates messages. unfold UPS.parse_freight_rate_response. fold extract.
      destruct (mapM extract (xpath response "FreightRateResponse")) as [rs|e] eqn:Hr;
        cbn [bind]; [| discriminate].
      intros [= <- <-]. exact (mapM_length _ _ _ Hr).
    + intros node rate r others Hex Hfilter Hfalsy.
      unfold extract, UPS._extract_freight_rate in Hex. rewrite Hfilter in Hex.
      cbn zeta in Hex. cbn [bind] in Hex. step_bind Hex. injection Hex as <-.
      cbn [RateDetails.total_charge]. unfold py_or. rewrite Hfalsy. reflexivity.
Qed.

(** A quote record with the shipping charge 0.00 beside an error node:
    no rate, one message. *)
Lemma C5_records_without_charge_witness :
  exists message, dhl_parse (a_dct_response "0.00") = Ok ([], [message]).
Proof.
  destruct C5_records_without_charge as [Hdhl _].
  destruct (Hdhl spec_QtdShp_build unit spec_to_date spec_days_between
              [("dhl_express_worldwide", "EXPRESS WORLDWIDE")]%string
              (spec_parse_error_response "Condition" "ConditionCode" "ConditionData")
              (a_dct_response "0.00") a_settings) as [Hnone _].
  specialize (Hnone (a_QtdShp_node "0.00") eq_refl).
  unfold dhl_parse, DHL.parse_dct_response.
  change (xpath (a_dct_response "0.00") "QtdShp") with [a_QtdShp_node "0.00"].
  cbn [mapM]. rewrite Hnone. cbn [bind omap]. eexists. vm_compute. reflexivity.
Defined.

(** ** C6: the round trip of a weight

    The rounding error of the operations on floats, measured on the real
    numbers that the floats stand for. *)

(** The number of binary digits of a mantissa. *)
Lemma digits2_pos_size (p : positive) : digits2_pos p = Pos.size p.
Proof. induction p; cbn; congruence. Qed.

Lemma Zdigits2_log2 (m : Z) : 0 < m -> Zdigits2 m = Z.log2 m + 1.
Proof.
  destruct m as [|p|p]; try lia. intros _. cbn [Zdigits2].
  rewrite digits2_pos_size. destruct p; cbn; lia.
Qed.

Lemma Zdigits2_nonneg (m : Z) : 0 <= m -> 0 <= Zdigits2 m.
Proof. destruct m; cbn; lia. Qed.

(** [m < 2^k] bounds the number of digits of [m] by [k]. *)
Lemma Zdigits2_le (m k : Z) : 0 <= m -> 0 <= k -> m < 2 ^ k -> Zdigits2 m <= k.
Proof.
  intros Hm Hk H. destruct (Z.eq_dec m 0) as [-> | Hne]; [cbn; lia |].
  rewrite Zdigits2_log2 by lia.
  assert (Z.log2 m < k) by (apply Z.log2_lt_pow2; lia). lia.
Qed.

Lemma Zdigits2_gt (m : Z) : 0 <= m -> m < 2 ^ Zdigits2 m.
Proof.
  intros Hm. destruct (Z.eq_dec m 0) as [-> | Hne]; [cbn; lia |].
  rewrite Zdigits2_log2 by lia.
  replace (Z.log2 m + 1) with (Z.succ (Z.log2 m)) by lia.
  apply Z.log2_spec. lia.
Qed.

(** Shifting a mantissa by [p] digits divides it by [2^p]. *)
Lemma shr_1_m (mrs : shr_record) :
  0 <= shr_m mrs -> shr_m (shr_1 mrs) = shr_m mrs / 2.
Proof.
  destruct mrs as [m r s]. cbn [shr_m]. intros Hm.
  destruct m as [|[p|p|]|p]; cbn [shr_1 shr_m]; try lia.
  all: try reflexivity.
  - rewrite Pos2Z.inj_xI. apply Z.div_unique with (r := 1); lia.
  - rewrite Pos2Z.inj_xO. apply Z.div_unique with (r := 0); lia.
Qed.

Lemma iter_pos_shr_1_m (p : positive) :
  forall mrs, 0 <= shr_m mrs ->
              shr_m (SpecFloat.iter_pos shr_1 p mrs) = shr_m mrs / 2 ^ Zpos p.
Proof.
  induction p as [p IH | p IH |]; intros mrs Hm; cbn [SpecFloat.iter_pos].
  - assert (H1 : 0 <= shr_m (shr_1 mrs))
      by (rewrite shr_1_m by lia; apply Z.div_pos; lia).
    assert (H2 : 0 <= shr_m (SpecFloat.iter_pos shr_1 p (shr_1 mrs)))
      by (rewrite IH by lia; apply Z.div_pos; lia).
    rewrite IH by lia. rewrite IH by lia. rewrite shr_1_m by lia.
    rewrite !Z.div_div by lia. f_equal.
    replace (Zpos p~1) with (Z.succ (Zpos p + Zpos p)) by lia.
    rewrite Z.pow_succ_r by lia. rewrite Z.pow_add_r by lia. lia.
  - assert (H2 : 0 <= shr_m (SpecFloat.iter_pos shr_1 p mrs))
      by (rewrite IH by lia; apply Z.div_pos; lia).
    rewrite IH by lia. rewrite IH by lia.
    rewrite !Z.div_div by lia. f_equal.
    replace (Zpos p~0) with (Zpos p + Zpos p) by lia.
    rewrite Z.pow_add_r by lia. lia.
  - rewrite shr_1_m by lia. reflexivity.
Qed.

Lemma shr_fexp_spec (m e : Z) (l : location) :
  0 <= m ->
  let '(mrs, e') := shr_fexp PyFloat.prec PyFloat.emax m e l in
  shr_m mrs = m / 2 ^ excess m e /\ e' = e + excess m e.
Proof.
  intros Hm. unfold shr_fexp, shr, excess.
  assert (Hrec : shr_m (shr_record_of_loc m l) = m)
    by (destruct l as [|[]]; reflexivity).
  destruct (fexp PyFloat.prec PyFloat.emax (Zdigits2 m + e) - e) as [|n|n] eqn:Hn.
  - cbn [Z.max]. rewrite Z.max_id. rewrite Z.pow_0_r, Z.div_1_r.
    split; [exact Hrec | lia].
  - rewrite Z.max_r by lia. split; [| reflexivity].
    rewrite iter_pos_shr_1_m by lia. rewrite Hrec. reflexivity.
  - rewrite Z.max_l by lia. rewrite Z.pow_0_r, Z.div_1_r.
    split; [exact Hrec | lia].
Qed.

Lemma round_nearest_even_cases (m : Z) (l : location) :
  round_nearest_even m l = m \/ round_nearest_even m l = m + 1.
Proof.
  destruct l as [|[]]; cbn; auto. destruct (Z.even m); auto.
Qed.

Lemma Zdigits2_div (m n : Z) :
  0 <= m -> 0 <= n -> Zdigits2 (m / 2 ^ n) <= Z.max 0 (Zdigits2 m - n).
Proof.
  intros Hm Hn.
  assert (Hd := Zdigits2_gt m Hm). assert (Hd0 := Zdigits2_nonneg m Hm).
  assert (Hq : 0 <= m / 2 ^ n) by (apply Z.div_pos; lia).
  destruct (Z.le_gt_cases n (Zdigits2 m)) as [Hle | Hgt].
  - rewrite Z.max_r by lia. apply Zdigits2_le; [lia | lia |].
    apply Z.div_lt_upper_bound; [lia |].
    rewrite <- Z.pow_add_r by lia. replace (n + (Zdigits2 m - n)) with (Zdigits2 m) by lia.
    exact Hd.
  - rewrite Z.max_l by lia.
    assert (m / 2 ^ n = 0) as ->; [| reflexivity].
    apply Z.div_small. split; [lia |].
    apply Z.lt_le_trans with (2 ^ Zdigits2 m); [exact Hd |].
    apply Z.pow_le_mono_r; lia.
Qed.

Lemma Zdigits2_succ (m : Z) : 0 <= m -> Zdigits2 (m + 1) <= Zdigits2 m + 1.
Proof.
  intros Hm. assert (Hd := Zdigits2_gt m Hm). assert (Hd0 := Zdigits2_nonneg m Hm).
  apply Zdigits2_le; [lia | lia |].
  rewrite Z.add_1_r at 1. rewrite Z.add_1_r, Z.pow_succ_r by lia. lia.
Qed.

Lemma Zdigits2_mul (a b : Z) :
  0 <= a -> 0 <= b -> Zdigits2 (a * b) <= Zdigits2 a + Zdigits2 b.
Proof.
  intros Ha Hb.
  assert (Hda := Zdigits2_gt a Ha). assert (Hdb := Zdigits2_gt b Hb).
  assert (H0a := Zdigits2_nonneg a Ha). assert (H0b := Zdigits2_nonneg b Hb).
  apply Zdigits2_le; [lia | lia |].
  rewrite Z.pow_add_r by lia. nia.
Qed.

Lemma fexp_eq (k : Z) : fexp PyFloat.prec PyFloat.emax k = Z.max (k - 53) (-1074).
Proof. reflexivity. Qed.

(** What [binary_round_aux] returns on a mantissa [mx] and an exponent
    [ex] of bounded size: the mantissa is shifted by [n1] digits, rounded
    to itself or to its successor, and shifted by [n2] digits more. *)
Lemma binary_round_aux_Z (s : bool) (mx ex : Z) (lx : location) (E : Z) :
  0 <= mx -> -1074 <= E -> E <= 970 -> ex <= E -> Zdigits2 mx + ex <= E + 53 ->
  exists n1 n2 m1,
    let m := m1 / 2 ^ n2 in
    let e := ex + n1 + n2 in
    binary_round_aux PyFloat.prec PyFloat.emax s mx ex lx = SFmake s m e
    /\ 0 <= n1 /\ 0 <= n2
    /\ (m1 = mx / 2 ^ n1 \/ m1 = mx / 2 ^ n1 + 1)
    /\ ex + n1 <= E /\ e <= E + 1 /\ Zdigits2 m + e <= E + 54.
Proof.
  intros Hmx HE HE' Hex Hd.
  unfold binary_round_aux.
  pose proof (shr_fexp_spec mx ex lx Hmx) as H1.
  destruct (shr_fexp PyFloat.prec PyFloat.emax mx ex lx) as [mrs' e'].
  destruct H1 as [Hm' He'].
  set (n1 := excess mx ex) in *.
  set (m1 := round_nearest_even (shr_m mrs') (loc_of_shr_record mrs')).
  assert (Hn1 : 0 <= n1) by (unfold n1, excess; lia).
  assert (Hq : 0 <= mx / 2 ^ n1) by (apply Z.div_pos; lia).
  assert (Hm1 : m1 = mx / 2 ^ n1 \/ m1 = mx / 2 ^ n1 + 1).
  { unfold m1. rewrite <- Hm'. apply round_nearest_even_cases. }
  assert (Hm1pos : 0 <= m1) by lia.
  pose proof (shr_fexp_spec m1 e' loc_Exact Hm1pos) as H2.
  destruct (shr_fexp PyFloat.prec PyFloat.emax m1 e' loc_Exact) as [mrs'' e''].
  destruct H2 as [Hm'' He''].
  set (n2 := excess m1 e') in *.
  assert (Hn2 : 0 <= n2) by (unfold n2, excess; lia).
  assert (Hd0 := Zdigits2_nonneg mx Hmx).
  assert (He'E : e' <= E).
  { rewrite He'. unfold n1, excess. rewrite fexp_eq. lia. }
  assert (Hd1 : Zdigits2 m1 <= Z.max 0 (Zdigits2 mx - n1) + 1).
  { pose proof (Zdigits2_div mx n1 Hmx Hn1) as Hdiv.
    destruct Hm1 as [-> | ->]; [lia |].
    pose proof (Zdigits2_succ (mx / 2 ^ n1) Hq). lia. }
  assert (Hd1e : Zdigits2 m1 + e' <= E + 54) by lia.
  assert (He''E : e'' <= E + 1).
  { rewrite He''. unfold n2, excess. rewrite fexp_eq. lia. }
  assert (Hm''pos : 0 <= m1 / 2 ^ n2) by (apply Z.div_pos; lia).
  exists n1, n2, m1. cbn zeta.
  replace (ex + n1 + n2) with e'' by lia.
  split.
  - rewrite Hm''. unfold SFmake.
    destruct (m1 / 2 ^ n2) as [|p|p] eqn:Hm; [reflexivity | | lia].
    replace (e'' <=? PyFloat.emax - PyFloat.prec) with true; [reflexivity |].
    symmetry. apply Z.leb_le. unfold PyFloat.emax, PyFloat.prec. lia.
  - repeat split; try assumption; try lia.
    pose proof (Zdigits2_div m1 n2 Hm1pos Hn2) as Hdiv.
    assert (Hd10 := Zdigits2_nonneg m1 Hm1pos). lia.
Qed.

Local Open Scope R_scope.

Lemma IZR_pow2 (p : positive) : IZR (2 ^ Zpos p) = 2 ^ Pos.to_nat p.
Proof.
  replace (Zpos p) with (Z.of_nat (Pos.to_nat p)) by apply positive_nat_Z.
  rewrite <- pow_IZR. reflexivity.
Qed.

Lemma bpow_powerRZ (e : Z) : bpow e = powerRZ 2 e.
Proof.
  destruct e as [|p|p]; cbn [bpow powerRZ]; [reflexivity | |].
  - apply IZR_pow2.
  - rewrite IZR_pow2. reflexivity.
Qed.

Lemma bpow_pos (e : Z) : 0 < bpow e.
Proof. rewrite bpow_powerRZ. apply powerRZ_lt. lra. Qed.

Lemma bpow_add (a b : Z) : bpow (a + b) = bpow a * bpow b.
Proof. rewrite !bpow_powerRZ. apply powerRZ_add. lra. Qed.

Lemma bpow_IZR (n : Z) : (0 <= n)%Z -> bpow n = IZR (2 ^ n).
Proof. destruct n as [|p|p]; [reflexivity | reflexivity | lia]. Qed.

Lemma bpow_le (a b : Z) : (a <= b)%Z -> bpow a <= bpow b.
Proof.
  intros H. replace b with (a + (b - a))%Z by lia. rewrite bpow_add.
  rewrite (bpow_IZR (b - a)) by lia.
  assert (1 <= IZR (2 ^ (b - a))).
  { apply IZR_le. assert (0 < 2 ^ (b - a))%Z by (apply Z.pow_pos_nonneg; lia). lia. }
  pose proof (bpow_pos a). nra.
Qed.

Lemma bpow_lt_inv (a b : Z) : bpow a < bpow b -> (a < b)%Z.
Proof.
  intros H. destruct (Z.lt_ge_cases a b) as [Hlt | Hge]; [exact Hlt |].
  pose proof (bpow_le b a Hge). lra.
Qed.

Lemma bpow_succ (e : Z) : bpow (e + 1) = 2 * bpow e.
Proof. rewrite bpow_add. cbn [bpow]. change (2 ^ 1)%Z with 2%Z. lra. Qed.

Lemma Rabs_le_inv (x a : R) : Rabs x <= a -> - a <= x <= a.
Proof. unfold Rabs. destruct (Rcase_abs x); lra. Qed.

Lemma B2R_SFmake (s : bool) (m e : Z) :
  (0 <= m)%Z -> B2R (SFmake s m e) = sign_of s * (IZR m * bpow e).
Proof.
  destruct m as [|p|p]; cbn [SFmake B2R]; intros H; [lra | | lia].
  unfold sign_of. lra.
Qed.

Lemma is_finite_SFmake (s : bool) (m e : Z) :
  (0 <= m)%Z -> is_finite (SFmake s m e) = true.
Proof. destruct m; cbn; intros; [reflexivity | reflexivity | lia]. Qed.

(** Dropping [n] digits of a mantissa: the value does not grow, and
    falls by less than one unit of the new exponent. *)
Lemma shift_bounds (m n e : Z) :
  (0 <= m)%Z -> (0 <= n)%Z ->
  IZR (m / 2 ^ n) * bpow (e + n) <= IZR m * bpow e
  /\ (IZR m + 1) * bpow e <= (IZR (m / 2 ^ n) + 1) * bpow (e + n).
Proof.
  intros Hm Hn. rewrite bpow_add, (bpow_IZR n) by lia.
  assert (Hp : (0 < 2 ^ n)%Z) by (apply Z.pow_pos_nonneg; lia).
  pose proof (Z.div_mod m (2 ^ n) ltac:(lia)) as Hdiv.
  pose proof (Z.mod_pos_bound m (2 ^ n) Hp) as Hmod.
  set (q := (m / 2 ^ n)%Z) in *. set (r := (m mod 2 ^ n)%Z) in *.
  set (P := (2 ^ n)%Z) in *.
  assert (H1 : IZR m = IZR P * IZR q + IZR r).
  { rewrite Hdiv at 1. rewrite plus_IZR, mult_IZR. reflexivity. }
  assert (H2 : 0 <= IZR r) by (apply IZR_le; lia).
  assert (H3 : IZR r + 1 <= IZR P).
  { rewrite <- (plus_IZR r 1). apply IZR_le. lia. }
  pose proof (bpow_pos e) as Hb. rewrite H1. split; nra.
Qed.

(** The value of the float that [binary_round_aux] returns is within
    three units of exponent [E] of every real [T] that lies between
    [mx * 2^ex] and [(mx + 1) * 2^ex]. *)
Lemma binary_round_aux_R (s : bool) (mx ex : Z) (lx : location) (E : Z) (T : R) :
  (0 <= mx)%Z -> (-1074 <= E)%Z -> (E <= 970)%Z -> (ex <= E)%Z ->
  (Zdigits2 mx + ex <= E + 53)%Z ->
  IZR mx * bpow ex <= T <= (IZR mx + 1) * bpow ex ->
  exists m e,
    binary_round_aux PyFloat.prec PyFloat.emax s mx ex lx = SFmake s m e
    /\ (0 <= m)%Z /\ (e <= E + 1)%Z /\ (Zdigits2 m + e <= E + 54)%Z
    /\ Rabs (IZR m * bpow e - T) <= 3 * bpow E.
Proof.
  intros Hmx HE HE' Hex Hd HT.
  destruct (binary_round_aux_Z s mx ex lx E Hmx HE HE' Hex Hd)
    as (n1 & n2 & m1 & Hres & Hn1 & Hn2 & Hm1 & He1 & He2 & Hdig).
  cbn zeta in *.
  assert (Hq : (0 <= mx / 2 ^ n1)%Z) by (apply Z.div_pos; [lia | apply Z.pow_pos_nonneg; lia]).
  assert (Hm1pos : (0 <= m1)%Z) by lia.
  assert (Hm : (0 <= m1 / 2 ^ n2)%Z) by (apply Z.div_pos; [lia | apply Z.pow_pos_nonneg; lia]).
  exists (m1 / 2 ^ n2)%Z, (ex + n1 + n2)%Z.
  repeat split; try assumption.
  destruct (shift_bounds mx n1 ex Hmx Hn1) as [Ha1 Ha2].
  destruct (shift_bounds m1 n2 (ex + n1) Hm1pos Hn2) as [Hb1 Hb2].
  pose proof (bpow_le (ex + n1) E He1) as Hp1.
  pose proof (bpow_le (ex + n1 + n2) (E + 1) He2) as Hp2.
  rewrite bpow_succ in Hp2.
  pose proof (bpow_pos (ex + n1)) as Hpos1.
  pose proof (bpow_pos (ex + n1 + n2)) as Hpos2.
  pose proof (bpow_pos ex) as Hpos0.
  assert (Hm1R : IZR m1 = IZR (mx / 2 ^ n1) \/ IZR m1 = IZR (mx / 2 ^ n1) + 1).
  { destruct Hm1 as [-> | ->]; [left; reflexivity | right; apply plus_IZR]. }
  apply Rabs_le.
  destruct Hm1R as [Hm1R | Hm1R]; rewrite Hm1R in Hb1, Hb2; split; nra.
Qed.

Lemma small_SFmake (s : bool) (m e K Ex : Z) :
  (0 <= m)%Z -> (Zdigits2 m + e <= K)%Z -> (e <= Ex)%Z -> small K Ex (SFmake s m e).
Proof. destruct m; cbn; intros; (tauto || lia). Qed.

Lemma small_is_finite (K Ex : Z) (x : float) : small K Ex x -> is_finite x = true.
Proof. destruct x; cbn; tauto. Qed.

Lemma sign_of_xorb (a b : bool) : sign_of (xorb a b) = sign_of a * sign_of b.
Proof. destruct a, b; cbn; lra. Qed.

(** The sign does not change a magnitude. *)
Lemma Rabs_sign_of (s : bool) (x : R) : Rabs (sign_of s * x) = Rabs x.
Proof.
  destruct s; cbn.
  - replace (-1 * x) with (- x) by lra. apply Rabs_Ropp.
  - f_equal. lra.
Qed.

(** The product of two small floats is small and within three units of
    exponent [E] of the real product. *)
Lemma mul_small (x y : float) (Kx Ex Ky Ey E : Z) :
  small Kx Ex x -> small Ky Ey y ->
  (-1074 <= E)%Z -> (E <= 970)%Z -> (Ex + Ey <= E)%Z -> (Kx + Ky <= E + 53)%Z ->
  small (E + 54) (E + 1) (PyFloat.mul x y)
  /\ Rabs (B2R (PyFloat.mul x y) - B2R x * B2R y) <= 3 * bpow E.
Proof.
  intros Hx Hy HE HE' Hexp HK.
  assert (Hb : 0 <= 3 * bpow E) by (pose proof (bpow_pos E); lra).
  destruct x as [sx | sx | | sx mx ex]; try (cbn in Hx; tauto);
    destruct y as [sy | sy | | sy my ey]; try (cbn in Hy; tauto).
  - cbn. rewrite Rmult_0_l, Rminus_0_r, Rabs_R0. tauto.
  - cbn. rewrite Rmult_0_l, Rminus_0_r, Rabs_R0. tauto.
  - cbn. rewrite Rmult_0_r, Rminus_0_r, Rabs_R0. tauto.
  - cbn [small] in Hx, Hy. destruct Hx as [Hdx Hex], Hy as [Hdy Hey].
    unfold PyFloat.mul. cbn [SFmul].
    pose proof (Zdigits2_mul (Zpos mx) (Zpos my) ltac:(lia) ltac:(lia)) as Hdm.
    destruct (binary_round_aux_R (xorb sx sy) (Zpos (mx * my)) (ex + ey) loc_Exact E
                (IZR (Zpos (mx * my)) * bpow (ex + ey)))
      as (m & e & -> & Hm & He & Hdig & Herr); try lia.
    { rewrite Pos2Z.inj_mul. lia. }
    { pose proof (bpow_pos (ex + ey)). lra. }
    split; [apply small_SFmake; assumption |].
    rewrite B2R_SFmake by assumption. cbn [B2R]. fold (sign_of sx) (sign_of sy).
    rewrite sign_of_xorb.
    replace (sign_of sx * sign_of sy * (IZR m * bpow e)
             - sign_of sx * IZR (Z.pos mx) * bpow ex
               * (sign_of sy * IZR (Z.pos my) * bpow ey))
      with (sign_of sx * (sign_of sy
              * (IZR m * bpow e - IZR (Z.pos (mx * my)) * bpow (ex + ey)))).
    + rewrite !Rabs_sign_of. exact Herr.
    + rewrite Pos2Z.inj_mul, mult_IZR, bpow_add. ring.
Qed.

Lemma div_half_even_bounds (n d : Z) :
  (0 <= n)%Z -> (0 < d)%Z ->
  (0 <= PyFloat.div_half_even n d)%Z
  /\ (2 * d * PyFloat.div_half_even n d <= 2 * n + d)%Z
  /\ (2 * n - d <= 2 * d * PyFloat.div_half_even n d)%Z.
Proof.
  intros Hn Hd. unfold PyFloat.div_half_even.
  pose proof (Z.div_mod n d ltac:(lia)) as Hdiv.
  pose proof (Z.mod_pos_bound n d Hd) as Hmod.
  assert (Hq : (0 <= n / d)%Z) by (apply Z.div_pos; lia).
  set (q := (n / d)%Z) in *. set (r := (n mod d)%Z) in *.
  destruct (Z.compare_spec (2 * r) d) as [Heq | Hlt | Hgt];
    [destruct (Z.even q) | |]; repeat split; nia.
Qed.

(** The hundredths of [m * 2^e]: within one half of [100 * m * 2^e]. *)
Lemma hundredths_bounds (m : positive) (e : Z) :
  (0 <= PyFloat.hundredths m e)%Z
  /\ Rabs (IZR (PyFloat.hundredths m e) - 100 * (IZR (Zpos m) * bpow e)) <= 1 / 2.
Proof.
  unfold PyFloat.hundredths. destruct e as [|p|p].
  - split; [lia |]. cbn [bpow]. rewrite Z.pow_0_r, Z.mul_1_r, mult_IZR.
    replace (IZR 100 * IZR (Z.pos m) - 100 * (IZR (Z.pos m) * 1)) with 0 by lra.
    rewrite Rabs_R0. lra.
  - assert (Hp : (0 < 2 ^ Zpos p)%Z) by (apply Z.pow_pos_nonneg; lia).
    split; [nia |]. cbn [bpow]. rewrite !mult_IZR.
    replace (IZR 100 * IZR (Z.pos m) * IZR (2 ^ Z.pos p)
             - 100 * (IZR (Z.pos m) * IZR (2 ^ Z.pos p))) with 0 by lra.
    rewrite Rabs_R0. lra.
  - assert (Hp : (0 < 2 ^ Zpos p)%Z) by (apply Z.pow_pos_nonneg; lia).
    destruct (div_half_even_bounds (100 * Zpos m) (2 ^ Zpos p) ltac:(lia) Hp)
      as (H0 & Hup & Hlo).
    split; [exact H0 |]. cbn [bpow].
    set (h := PyFloat.div_half_even (100 * Z.pos m) (2 ^ Z.pos p)) in *.
    set (P := (2 ^ Zpos p)%Z) in *.
    assert (HP : 0 < IZR P) by (apply IZR_lt; lia).
    apply IZR_le in Hup, Hlo.
    rewrite plus_IZR, !mult_IZR in Hup. rewrite minus_IZR, !mult_IZR in Hlo.
    assert (Hipos : 0 < / IZR P) by (apply Rinv_0_lt_compat; exact HP).
    apply (Rmult_le_compat_r (/ IZR P)) in Hup, Hlo; try lra.
    replace (IZR 2 * IZR P * IZR h * / IZR P) with (2 * IZR h) in Hup, Hlo
      by (field; lra).
    replace ((IZR 2 * (IZR 100 * IZR (Z.pos m)) + IZR P) * / IZR P)
      with (200 * (IZR (Z.pos m) * / IZR P) + 1) in Hup by (field; lra).
    replace ((IZR 2 * (IZR 100 * IZR (Z.pos m)) - IZR P) * / IZR P)
      with (200 * (IZR (Z.pos m) * / IZR P) - 1) in Hlo by (field; lra).
    apply Rabs_le. lra.
Qed.

(** The quotient and the exponent that the division by 100 rounds. *)
Lemma div_core_100 (h : Z) :
  (0 < h)%Z ->
  exists k lz,
    SFdiv_core_binary PyFloat.prec PyFloat.emax h 0 100 0 = (h * 2 ^ k / 100, - k, lz)%Z
    /\ (0 <= k)%Z
    /\ (- k <= fexp PyFloat.prec PyFloat.emax (Zdigits2 h - 7))%Z.
Proof.
  intros Hh. unfold SFdiv_core_binary.
  change (Zdigits2 100) with 7%Z.
  replace (Zdigits2 h + 0 - (7 + 0))%Z with (Zdigits2 h - 7)%Z by lia.
  set (f := fexp PyFloat.prec PyFloat.emax (Zdigits2 h - 7)).
  change (0 - 0)%Z with 0%Z.
  destruct (Z.le_gt_cases 0 f) as [Hf | Hf].
  - rewrite Z.min_r by lia. change (0 - 0)%Z with 0%Z. cbv beta iota.
    change IntDef.Z.div_eucl with Z.div_eucl.
    destruct (Z.div_eucl h 100) as [q r] eqn:Hqr.
    exists 0%Z. eexists. split; [| lia].
    rewrite Z.pow_0_r, Z.mul_1_r. unfold Z.div. rewrite Hqr. reflexivity.
  - rewrite Z.min_l by lia. replace (0 - f)%Z with (- f)%Z by lia.
    destruct (- f)%Z as [|p|p] eqn:Hp; try lia.
    rewrite Z.shiftl_mul_pow2 by lia.
    change IntDef.Z.div_eucl with Z.div_eucl.
    destruct (Z.div_eucl (h * 2 ^ Z.pos p) 100) as [q r] eqn:Hqr.
    exists (Zpos p). eexists. split; [| lia].
    replace f with (- Zpos p)%Z by lia.
    unfold Z.div. rewrite Hqr. reflexivity.
Qed.

(** The quotient of a positive integer [q] by 100, as a float. *)
Lemma div100_small (s : bool) (q : positive) (Kh E : Z) :
  (Zdigits2 (Zpos q) <= Kh)%Z -> (-1074 <= E)%Z -> (E <= 970)%Z ->
  (Kh <= E + 53)%Z ->
  let r := SFdiv PyFloat.prec PyFloat.emax (S754_finite s q 0) (S754_finite false 100 0) in
  small (E + 54) (E + 1) r
  /\ Rabs (B2R r - sign_of s * (IZR (Zpos q) / 100)) <= 3 * bpow E.
Proof.
  intros Hd HE HE' HK. cbn zeta. cbn [SFdiv].
  destruct (div_core_100 (Zpos q) ltac:(lia)) as (k & lz & -> & Hk & Hkf).
  rewrite xorb_false_r. rewrite fexp_eq in Hkf.
  assert (Hpk : (0 < 2 ^ k)%Z) by (apply Z.pow_pos_nonneg; lia).
  set (W := (Zpos q * 2 ^ k)%Z) in *.
  assert (HW : (0 <= W)%Z) by (unfold W; nia).
  assert (Hmz : (0 <= W / 100)%Z) by (apply Z.div_pos; lia).
  assert (Hdig : (Zdigits2 (W / 100) <= Zdigits2 (Zpos q) + k)%Z).
  { apply Zdigits2_le; [lia | cbn; lia |].
    apply Z.le_lt_trans with W; [apply Z.div_le_upper_bound; lia |].
    unfold W. rewrite Z.pow_add_r by (cbn; lia).
    pose proof (Zdigits2_gt (Zpos q) ltac:(lia)). nia. }
  pose proof (Z.div_mod W 100 ltac:(lia)) as Hdiv.
  pose proof (Z.mod_pos_bound W 100 ltac:(lia)) as Hmod.
  assert (HB : bpow (- k) * IZR (2 ^ k) = 1).
  { rewrite <- (bpow_IZR k) by lia. rewrite <- bpow_add.
    replace (- k + k)%Z with 0%Z by lia. reflexivity. }
  assert (HT : IZR (Zpos q) / 100 = IZR W / 100 * bpow (- k)).
  { unfold W. rewrite mult_IZR.
    transitivity (IZR (Z.pos q) / 100 * (bpow (- k) * IZR (2 ^ k))); [rewrite HB; lra | lra]. }
  destruct (binary_round_aux_R s (W / 100) (- k) lz E (IZR (Zpos q) / 100))
    as (m & e & -> & Hm & He & Hdm & Herr); try lia.
  { rewrite HT. pose proof (bpow_pos (- k)) as Hb.
    assert (H1 : IZR (W / 100) <= IZR W / 100).
    { apply Rmult_le_reg_r with 100; [lra |].
      replace (IZR W / 100 * 100) with (IZR W) by lra.
      rewrite <- mult_IZR. apply IZR_le. lia. }
    assert (H2 : IZR W / 100 <= IZR (W / 100) + 1).
    { apply Rmult_le_reg_r with 100; [lra |].
      replace (IZR W / 100 * 100) with (IZR W) by lra.
      replace ((IZR (W / 100) + 1) * 100) with (IZR ((W / 100 + 1) * 100))
        by (rewrite mult_IZR, plus_IZR; reflexivity).
      apply IZR_le. lia. }
    split; apply Rmult_le_compat_r; lra. }
  split; [apply small_SFmake; assumption |].
  rewrite B2R_SFmake by assumption.
  replace (sign_of s * (IZR m * bpow e) - sign_of s * (IZR (Z.pos q) / 100))
    with (sign_of s * (IZR m * bpow e - IZR (Z.pos q) / 100)) by ring.
  rewrite Rabs_sign_of. exact Herr.
Qed.

(** The hundredths of a small float are a small integer. *)
Lemma hundredths_digits (m : positive) (e K : Z) :
  (Zdigits2 (Zpos m) + e <= K)%Z -> (0 <= K)%Z ->
  (Zdigits2 (PyFloat.hundredths m e) <= K + 7)%Z.
Proof.
  intros Hd HK.
  destruct (hundredths_bounds m e) as [Hh Herr].
  apply Zdigits2_le; [exact Hh | lia |].
  apply lt_IZR. rewrite <- (bpow_IZR (K + 7)) by lia.
  rewrite bpow_add. change (bpow 7) with (IZR (2 ^ 7)). change (2 ^ 7)%Z with 128%Z.
  apply Rabs_le_inv in Herr.
  assert (Hv : IZR (Zpos m) * bpow e < bpow K).
  { pose proof (Zdigits2_gt (Zpos m) ltac:(lia)) as Hg.
    apply IZR_lt in Hg. rewrite <- bpow_IZR in Hg by (cbn; lia).
    pose proof (bpow_pos e) as Hb.
    pose proof (bpow_le (Zdigits2 (Zpos m) + e) K Hd) as Hle.
    rewrite bpow_add in Hle. nra. }
  assert (H1 : 1 <= bpow K).
  { change 1 with (bpow 0). apply bpow_le. lia. }
  lra.
Qed.

(** [round2] of a small float is small and within 0.005, and three units
    of exponent [E], of the float. *)
Lemma round2_small (x : float) (K Ex E : Z) :
  small K Ex x -> (0 <= K)%Z -> (-1074 <= E)%Z -> (E <= 970)%Z ->
  (K + 7 <= E + 53)%Z ->
  small (E + 54) (E + 1) (PyFloat.round2 x)
  /\ Rabs (B2R (PyFloat.round2 x) - B2R x) <= 1 / 200 + 3 * bpow E.
Proof.
  intros Hx HK HE HE' HKE. pose proof (bpow_pos E) as HbE.
  destruct x as [s | s | | s m e]; try (cbn in Hx; tauto).
  - cbn. rewrite Rminus_0_r, Rabs_R0. split; [tauto | lra].
  - cbn [small] in Hx. destruct Hx as [Hd He].
    destruct (hundredths_bounds m e) as [Hh Herr].
    pose proof (hundredths_digits m e K Hd HK) as Hhd.
    cbn [PyFloat.round2 B2R]. fold (sign_of s).
    destruct (PyFloat.hundredths m e) as [|q|q] eqn:Hq; [| | lia].
    + cbn [small B2R]. split; [tauto |].
      replace (0 - sign_of s * IZR (Z.pos m) * bpow e)
        with (sign_of s * (- (IZR (Zpos m) * bpow e))) by ring.
      rewrite Rabs_sign_of, Rabs_Ropp.
      apply Rabs_le_inv in Herr. apply Rabs_le.
      pose proof (bpow_pos e). assert (0 < IZR (Zpos m)) by (apply IZR_lt; lia).
      split; nra.
    + destruct (div100_small s q (K + 7) E Hhd HE HE' HKE) as [Hs Hr].
      cbn zeta in Hs, Hr. split; [exact Hs |].
      set (r := SFdiv PyFloat.prec PyFloat.emax (S754_finite s q 0)
                      (S754_finite false 100 0)) in *.
      replace (B2R r - sign_of s * IZR (Z.pos m) * bpow e)
        with ((B2R r - sign_of s * (IZR (Zpos q) / 100))
              + sign_of s * ((IZR (Zpos q) - 100 * (IZR (Zpos m) * bpow e)) / 100))
        by field.
      eapply Rle_trans; [apply Rabs_triang |].
      rewrite Rabs_sign_of.
      assert (Rabs ((IZR (Z.pos q) - 100 * (IZR (Z.pos m) * bpow e)) / 100) <= 1 / 200).
      { apply Rabs_le_inv in Herr. apply Rabs_le. lra. }
      lra.
Qed.

Lemma Zdigits2_lower (m : Z) : (0 < m)%Z -> (2 ^ (Zdigits2 m - 1) <= m)%Z.
Proof.
  intros Hm. rewrite Zdigits2_log2 by lia.
  replace (Z.log2 m + 1 - 1)%Z with (Z.log2 m) by lia.
  apply Z.log2_spec. lia.
Qed.

(** A valid float of magnitude at most 1000 is small. *)
Lemma valid_small (v : float) :
  valid_binary PyFloat.prec PyFloat.emax v = true -> is_finite v = true ->
  Rabs (B2R v) <= 1000 -> small 10 (-43) v.
Proof.
  destruct v as [s | s | | s m e]; cbn [is_finite small]; try discriminate; [tauto |].
  intros Hvalid _ Hmag. cbn [valid_binary] in Hvalid. unfold bounded in Hvalid.
  apply andb_prop in Hvalid as [Hcanon _]. unfold canonical_mantissa in Hcanon.
  apply Z.eqb_eq in Hcanon. rewrite fexp_eq in Hcanon.
  change (Z.pos (digits2_pos m)) with (Zdigits2 (Zpos m)) in Hcanon.
  cbn [B2R] in Hmag. fold (sign_of s) in Hmag.
  rewrite Rmult_assoc, Rabs_sign_of in Hmag.
  pose proof (bpow_pos e) as Hb.
  assert (Hmpos : 0 < IZR (Zpos m)) by (apply IZR_lt; lia).
  rewrite Rabs_pos_eq in Hmag by nra.
  pose proof (Zdigits2_lower (Zpos m) ltac:(lia)) as Hlow.
  pose proof (Zdigits2_nonneg (Zpos m) ltac:(lia)) as Hd0.
  assert (Hd1 : (1 <= Zdigits2 (Zpos m))%Z) by (cbn; lia).
  apply IZR_le in Hlow. rewrite <- bpow_IZR in Hlow by lia.
  assert (Hlt : bpow (Zdigits2 (Zpos m) - 1 + e) < bpow 10).
  { rewrite bpow_add. change (bpow 10) with (IZR (2 ^ 10)).
    change (2 ^ 10)%Z with 1024%Z. nra. }
  apply bpow_lt_inv in Hlt. lia.
Qed.

(** Converting with the factor [a], rounding, converting back with the
    factor [b] and rounding: the error against the exact product. *)
Lemma convert_twice (v a b : float) :
  small 10 (-43) v -> small 2 (-51) a -> small 2 (-51) b ->
  let back := PyFloat.round2 (PyFloat.mul (PyFloat.round2 (PyFloat.mul v a)) b) in
  is_finite back = true
  /\ Rabs (B2R back - B2R v * B2R a * B2R b)
     <= 1 / 200 + 3 * bpow (-22) + 3 * bpow (-30)
        + Rabs (B2R b) * (1 / 200 + 3 * bpow (-33) + 3 * bpow (-41)).
Proof.
  intros Hv Ha Hb. cbn zeta.
  destruct (mul_small v a 10 (-43) 2 (-51) (-41) Hv Ha) as [Hs1 He1]; try lia.
  set (x1 := PyFloat.mul v a) in *.
  destruct (round2_small x1 _ _ (-33) Hs1) as [Hs2 He2]; try lia.
  set (y1 := PyFloat.round2 x1) in *.
  destruct (mul_small y1 b _ _ 2 (-51) (-30) Hs2 Hb) as [Hs3 He3]; try lia.
  set (x2 := PyFloat.mul y1 b) in *.
  destruct (round2_small x2 _ _ (-22) Hs3) as [Hs4 He4]; try lia.
  set (y2 := PyFloat.round2 x2) in *.
  split; [exact (small_is_finite _ _ _ Hs4) |].
  replace (B2R y2 - B2R v * B2R a * B2R b)
    with ((B2R y2 - B2R x2) + (B2R x2 - B2R y1 * B2R b)
          + B2R b * ((B2R y1 - B2R x1) + (B2R x1 - B2R v * B2R a))) by ring.
  eapply Rle_trans; [apply Rabs_triang |].
  eapply Rle_trans; [apply Rplus_le_compat; [apply Rabs_triang | apply Rle_refl] |].
  rewrite Rabs_mult.
  assert (H12 : Rabs (B2R y1 - B2R x1 + (B2R x1 - B2R v * B2R a))
                <= 1 / 200 + 3 * bpow (-33) + 3 * bpow (-41)).
  { eapply Rle_trans; [apply Rabs_triang |]. lra. }
  pose proof (Rabs_pos (B2R b)) as Hbpos.
  pose proof (Rabs_pos (B2R y1 - B2R x1 + (B2R x1 - B2R v * B2R a))) as Hpos.
  assert (Hprod : Rabs (B2R b) * Rabs (B2R y1 - B2R x1 + (B2R x1 - B2R v * B2R a))
                  <= Rabs (B2R b) * (1 / 200 + 3 * bpow (-33) + 3 * bpow (-41))).
  { apply Rmult_le_compat_l; assumption. }
  lra.
Qed.

(** The two factors, as real numbers and as small floats. *)
Lemma B2R_c_2_204620823516057 :
  22046208235 / 10000000000 <= B2R c_2_204620823516057 <= 22046208236 / 10000000000.
Proof. eval_B2R c_2_204620823516057. lra. Qed.

Lemma B2R_c_0_453592 :
  4535919999 / 10000000000 <= B2R c_0_453592 <= 4535920001 / 10000000000.
Proof. eval_B2R c_0_453592. lra. Qed.

Lemma small_c_2_204620823516057 : small 2 (-51) c_2_204620823516057.
Proof. vm_compute. split; discriminate. Qed.

Lemma small_c_0_453592 : small 2 (-51) c_0_453592.
Proof. vm_compute. split; discriminate. Qed.

Lemma bpow_tiny :
  bpow (-22) <= 1 / 1000000 /\ bpow (-30) <= 1 / 1000000
  /\ bpow (-33) <= 1 / 1000000 /\ bpow (-41) <= 1 / 1000000
  /\ 0 < bpow (-22) /\ 0 < bpow (-30) /\ 0 < bpow (-33) /\ 0 < bpow (-41).
Proof.
  cbn [bpow].
  repeat match goal with
         | |- context [(2 ^ Zpos ?p)%Z] =>
             let y := eval vm_compute in (2 ^ Zpos p)%Z in
             change (2 ^ Zpos p)%Z with y
         end.
  repeat split; lra.
Qed.

(** C6, as stated, fails for large values: 100000 KG converts to
    220462.08 LB and back to 99999.84 KG, which is 0.16 away, and the
    same happens from pounds. *)
Lemma C6_round_trip_drifts :
  round_trip WeightUnit.KG (PyFloat.of_Z 100000) = Some (PyFloat.of_ratio 9999984 100)
  /\ round_trip WeightUnit.LB (PyFloat.of_Z 100000) = Some (PyFloat.of_ratio 9999984 100)
  /\ Rabs (B2R (PyFloat.of_ratio 9999984 100) - B2R (PyFloat.of_Z 100000)) > 15 / 100.
Proof.
  split; [vm_compute; reflexivity |]. split; [vm_compute; reflexivity |].
  eval_B2R (PyFloat.of_ratio 9999984 100). eval_B2R (PyFloat.of_Z 100000).
  rewrite Rabs_left; lra.
Qed.

(** C6 (amended).  For every weight of at most 1000 in magnitude,
    converting kilograms to pounds and back recovers the value within
    0.01, and converting pounds to kilograms and back recovers it within
    0.02. *)
Theorem C6_round_trip_bounded (v : float) :
  valid_binary PyFloat.prec PyFloat.emax v = true ->
  is_finite v = true ->
  Rabs (B2R v) <= 1000 ->
  (exists v', round_trip WeightUnit.KG v = Some v' /\ is_finite v' = true
              /\ Rabs (B2R v' - B2R v) <= 1 / 100)
  /\ (exists v', round_trip WeightUnit.LB v = Some v' /\ is_finite v' = true
                 /\ Rabs (B2R v' - B2R v) <= 2 / 100).
Proof.
  intros Hvalid Hfin Hmag.
  pose proof (valid_small v Hvalid Hfin Hmag) as Hv.
  pose proof B2R_c_2_204620823516057 as HA. pose proof B2R_c_0_453592 as HB.
  destruct bpow_tiny as (T1 & T2 & T3 & T4 & P1 & P2 & P3 & P4).
  apply Rabs_le_inv in Hmag.
  set (A := B2R c_2_204620823516057) in *. set (B := B2R c_0_453592) in *.
  split.
  - destruct (convert_twice v c_2_204620823516057 c_0_453592 Hv
                small_c_2_204620823516057 small_c_0_453592) as [Hf Herr].
    eexists. split; [reflexivity |]. split; [exact Hf |].
    fold A B in Herr. rewrite (Rabs_pos_eq B) in Herr by lra.
    apply Rabs_le_inv in Herr. apply Rabs_le.
    assert (HAB : -17 / 10000000 <= A * B - 1 <= -16 / 10000000) by nra.
    assert (Hdrift : -17 / 10000 <= B2R v * (A * B - 1) <= 17 / 10000) by nra.
    assert (HBe : B * (1 / 200 + 3 * bpow (-33) + 3 * bpow (-41)) <= 23 / 10000) by nra.
    split; lra.
  - destruct (convert_twice v c_0_453592 c_2_204620823516057 Hv
                small_c_0_453592 small_c_2_204620823516057) as [Hf Herr].
    eexists. split; [reflexivity |]. split; [exact Hf |].
    fold A B in Herr. rewrite (Rabs_pos_eq A) in Herr by lra.
    apply Rabs_le_inv in Herr. apply Rabs_le.
    assert (HAB : -17 / 10000000 <= B * A - 1 <= -16 / 10000000) by nra.
    assert (Hdrift : -17 / 10000 <= B2R v * (B * A - 1) <= 17 / 10000) by nra.
    assert (HAe : A * (1 / 200 + 3 * bpow (-33) + 3 * bpow (-41)) <= 111 / 10000) by nra.
    split; lra.
Qed.

(** One kilogram, and one pound, come back within the bounds. *)
Lemma C6_round_trip_bounded_witness :
  (exists v', round_trip WeightUnit.KG (PyFloat.of_Z 1) = Some v'
              /\ is_finite v' = true
              /\ Rabs (B2R v' - B2R (PyFloat.of_Z 1)) <= 1 / 100)
  /\ (exists v', round_trip WeightUnit.LB (PyFloat.of_Z 1) = Some v'
                 /\ is_finite v' = true
                 /\ Rabs (B2R v' - B2R (PyFloat.of_Z 1)) <= 2 / 100).
Proof.
  apply (C6_round_trip_bounded (PyFloat.of_Z 1)).
  - vm_compute. reflexivity.
  - vm_compute. reflexivity.
  - eval_B2R (PyFloat.of_Z 1). rewrite Rabs_pos_eq; lra.
Defined.

Local Close Scope R_scope.

(** ** C7: the weight of a collection *)

(** The weight of a package carries a unit; the sum in pounds adds up
    the contributions of the packages in their order. *)
Lemma Package_weight_inv (package : Package.t) (w : Weight.t) :
  Package.weight package = Ok w -> exists v u, w = wgt v u.
Proof.
  unfold Package.weight. destruct (Package.weight_unit package) as [u|e]; cbn.
  - intros [= <-]. eauto.
  - discriminate.
Qed.

Lemma sum_LB_fold (items : list Package.t) :
  forall (ws : list Weight.t) (acc : float),
    mapM Package.weight items = Ok ws ->
    Packages.sum_LB items acc
    = Ok (fold_left PyFloat.add (contributions ws) acc).
Proof.
  induction items as [|pkg items IH]; intros ws acc Hws; cbn in Hws.
  - injection Hws as <-. reflexivity.
  - destruct (Package.weight pkg) as [w|e] eqn:Hw; cbn in Hws; [| discriminate].
    destruct (mapM Package.weight items) as [ws'|e] eqn:Hrest; cbn in Hws;
      [| discriminate].
    injection Hws as <-.
    destruct (Package_weight_inv _ _ Hw) as (v & u & ->).
    cbn [Packages.sum_LB]. rewrite Hw. cbn [bind].
    rewrite Weight_value_wgt. cbn [bind].
    unfold contributions. cbn [flat_map]. unfold contribution at 1.
    rewrite Weight_value_wgt.
    destruct v as [x|]; cbn [decimal].
    + destruct u;
        cbn [Weight.LB wgt Weight._unit Weight._value decimal app fold_left];
        apply IH; reflexivity.
    + cbn [app]. apply IH. reflexivity.
Qed.

(** C7, as stated, fails when the resolved weights add up to zero: the
    weight of a parcel of 0.001 LB resolves (its value is 0.0, not null)
    and the sum of the pound conversions is 0.0, yet the value of the
    aggregate is null. *)
Lemma C7_zero_sum_is_null :
  (let* packages := Packages.__init__ [C7_light_parcel] None None in
   let* package := Packages.single packages in
   let* w := Package.weight package in
   Weight.value w) = Ok (Some (PyFloat.of_Z 0))
  /\ (let* packages := Packages.__init__ [C7_light_parcel] None None in
      Packages.weight packages) = Ok (wgt None WeightUnit.LB)
  /\ wgt None WeightUnit.LB <> wgt (Some (PyFloat.of_Z 0)) WeightUnit.LB.
Proof. repeat split; try (vm_compute; reflexivity). discriminate. Qed.

(** C7 (amended).  For every collection whose weight units resolve,
    [Packages.weight] is a weight in pounds whose value is the sum of the
    pound conversions of exactly the packages whose weight resolves when
    that sum is not zero, and null when it is zero; it is null in
    particular when no weight resolves. *)
Theorem C7_aggregate_weight (packages : Packages.t) (ws : list Weight.t)
    (Hws : mapM Package.weight (Packages._items packages) = Ok ws) :
  let total := fold_left PyFloat.add (contributions ws) (PyFloat.of_Z 0) in
  Packages.weight packages
  = Ok (wgt (if PyFloat.truthy total then Some total else None) WeightUnit.LB)
  /\ (contributions ws = [] ->
      Packages.weight packages = Ok (wgt None WeightUnit.LB)).
Proof.
  cbn zeta. unfold Packages.weight.
  rewrite (sum_LB_fold _ ws _ Hws). cbn [bind]. split.
  - reflexivity.
  - intros ->. reflexivity.
Qed.

(** Two parcels of 2.5 LB and 1 KG: the aggregate in pounds is 4.70. *)
Lemma C7_aggregate_weight_witness :
  exists w, Packages.weight C7_packages = Ok w
            /\ Weight.LB w = Some (PyFloat.of_ratio 470 100).
Proof.
  destruct (C7_aggregate_weight C7_packages
              [wgt (Some (PyFloat.of_ratio 25 10)) WeightUnit.LB;
               wgt (Some (PyFloat.of_Z 1)) WeightUnit.KG]) as [H _];
    [reflexivity |].
  eexists. split; [exact H |]. vm_compute. reflexivity.
Defined.

(** ** C8: the value of a volume *)

(** C8 (the code departs from the claim).  [Volume.value] is null when
    every side's value is null or zero; with a null side and a non-zero
    side it raises [TypeError] instead of returning null, as for the
    sides (null, 10 CM, 10 CM).  When no side is null and one is
    non-zero, it is the product of the sides in metres, rounded to two
    decimal places. *)
Theorem C8_volume_partial_sides_raise :
  Volume.value C8_volume = Raise TypeError
  /\ (forall u1 u2 u3 v1 v2 v3,
         v1 = None \/ v2 = None \/ v3 = None ->
         truthy (decimal v1) || truthy (decimal v2) || truthy (decimal v3) = true ->
         Volume.value (Volume.Build (dim v1 u1) (dim v2 u2) (dim v3 u3))
         = Raise TypeError)
  /\ (forall u1 u2 u3 v1 v2 v3,
         truthy (decimal v1) || truthy (decimal v2) || truthy (decimal v3) = false ->
         Volume.value (Volume.Build (dim v1 u1) (dim v2 u2) (dim v3 u3)) = Ok None)
  /\ (forall u1 u2 u3 x1 x2 x3 m1 m2 m3,
         truthy (decimal (Some x1)) || truthy (decimal (Some x2))
         || truthy (decimal (Some x3)) = true ->
         Dimension.M (dim (Some x1) u1) = Some m1 ->
         Dimension.M (dim (Some x2) u2) = Some m2 ->
         Dimension.M (dim (Some x3) u3) = Some m3 ->
         Volume.value (Volume.Build (dim (Some x1) u1) (dim (Some x2) u2)
                                    (dim (Some x3) u3))
         = Ok (decimal (Some (PyFloat.mul (PyFloat.mul m1 m2) m3)))).
Proof.
  split; [vm_compute; reflexivity |].
  split; [| split].
  - intros u1 u2 u3 v1 v2 v3 Hnone H. unfold Volume.value.
    cbn [Volume._side1 Volume._side2 Volume._side3].
    rewrite !Dimension_value_dim. cbn [bind]. rewrite H. cbn [negb].
    destruct (Dimension.M (dim v1 u1)) as [m1|] eqn:H1; [| reflexivity].
    destruct (Dimension.M (dim v2 u2)) as [m2|] eqn:H2; [| reflexivity].
    destruct (Dimension.M (dim v3 u3)) as [m3|] eqn:H3; [| reflexivity].
    exfalso. destruct Hnone as [-> | [-> | ->]].
    + rewrite (proj2 (Dimension_M_None None u1) eq_refl) in H1. discriminate.
    + rewrite (proj2 (Dimension_M_None None u2) eq_refl) in H2. discriminate.
    + rewrite (proj2 (Dimension_M_None None u3) eq_refl) in H3. discriminate.
  - intros u1 u2 u3 v1 v2 v3 H. unfold Volume.value.
    cbn [Volume._side1 Volume._side2 Volume._side3].
    rewrite !Dimension_value_dim. cbn [bind]. rewrite H. reflexivity.
  - intros u1 u2 u3 x1 x2 x3 m1 m2 m3 H H1 H2 H3. unfold Volume.value.
    cbn [Volume._side1 Volume._side2 Volume._side3].
    rewrite !Dimension_value_dim. cbn [bind]. rewrite H. cbn [negb].
    rewrite H1, H2, H3. reflexivity.
Qed.

(** ** C9: the single package of a collection *)

(** C9, as stated, fails on the empty collection: it can be built, holds
    at most one package, and [single] raises [IndexError] on it. *)
Lemma C9_single_of_empty_raises :
  (let* packages := Packages.__init__ [] None None in Packages.single packages)
  = Raise IndexError.
Proof. reflexivity. Qed.

(** C9 (amended).  [single] fails with the multi-parcel-not-supported
    error if and only if the collection holds more than one package, and
    returns the package of a collection that holds exactly one; on the
    empty collection it raises an index error. *)
Theorem C9_single (packages : Packages.t) :
  (Packages.single packages = Raise MultiParcelNotSupportedError
   <-> (1 < Packages.__len__ packages)%nat)
  /\ (forall package,
         Packages._items packages = [package] ->
         Packages.single packages = Ok package)
  /\ (Packages.__len__ packages = 0%nat -> Packages.single packages = Raise IndexError).
Proof.
  destruct packages as [items]. unfold Packages.single, Packages.__len__. cbn.
  destruct items as [|p [|q items]]; cbn [List.length].
  - cbn. repeat split; intros; (discriminate || lia || reflexivity).
  - cbn. repeat split; intros; (discriminate || lia || congruence).
  - cbn. repeat split; intros; (discriminate || lia).
Qed.

(** ** C10: the value of a girth *)

(** Sorting three sides raises as soon as one of them is [None], and
    returns three numbers otherwise. *)
Lemma list_sort_with_None (a b c : option float) :
  a = None \/ b = None \/ c = None -> list_sort [a; b; c] = Raise TypeError.
Proof.
  intros H. unfold list_sort, sort_from.
  destruct a as [x|]; [| destruct b; reflexivity].
  destruct b as [y|]; [| reflexivity].
  destruct c as [z|]; [exfalso; destruct H as [H|[H|H]]; discriminate |].
  cbn [insert_sorted py_lt bind].
  destruct (PyFloat.ltb y x); reflexivity.
Qed.

Lemma list_sort_three_Some (x y z : float) :
  exists p q r, list_sort [Some x; Some y; Some z] = Ok [Some p; Some q; Some r].
Proof.
  unfold list_sort, sort_from. cbn [insert_sorted py_lt bind].
  destruct (PyFloat.ltb y x); cbn [insert_sorted py_lt bind];
    destruct (PyFloat.ltb z _); cbn [insert_sorted py_lt bind];
    try destruct (PyFloat.ltb z _); cbn [bind]; eauto.
Qed.

(** C10.  [Girth.value] returns null exactly when all three sides
    converted to centimetres are falsy (null or zero).  When one
    converted side is null while another is neither null nor zero it
    raises [TypeError] (the sort compares [None] with a number) instead
    of returning null. *)
Theorem C10_girth_null_and_type_error (g : Girth.t) :
  (Girth.value g = Ok None <-> existsb truthy (Girth.sides g) = false)
  /\ ((exists s, s ∈ Girth.sides g /\ s = None)
      /\ (exists s, s ∈ Girth.sides g /\ truthy s = true) ->
      Girth.value g = Raise TypeError).
Proof.
  unfold Girth.value.
  destruct (existsb truthy (Girth.sides g)) eqn:Hany; cbn [negb].
  - split.
    + split; [| discriminate]. intros H. exfalso. revert H.
      unfold Girth.sides.
      destruct (Dimension.CM (Girth._side1 g)) as [x|];
        [| rewrite list_sort_with_None by auto; discriminate].
      destruct (Dimension.CM (Girth._side2 g)) as [y|];
        [| rewrite list_sort_with_None by auto; discriminate].
      destruct (Dimension.CM (Girth._side3 g)) as [z|];
        [| rewrite list_sort_with_None by auto; discriminate].
      destruct (list_sort_three_Some x y z) as (p & q & r & ->).
      cbn. discriminate.
    + intros [[s [Hs ->]] _]. unfold Girth.sides in *.
      rewrite list_sort_with_None; [reflexivity |].
      rewrite !elem_of_cons in Hs. rewrite elem_of_nil in Hs.
      destruct Hs as [H|[H|[H|[]]]]; auto.
  - split; [split; reflexivity |].
    intros [_ [s [Hs Ht]]]. exfalso.
    assert (existsb truthy (Girth.sides g) = true) as H; [| congruence].
    apply existsb_exists. exists s. split; [| exact Ht].
    apply list_elem_of_In. exact Hs.
Qed.

(** * Further properties

    Properties of the code beyond the claims: the rounding and the
    conversions, the girth, validated collections, the location of
    records and the parsers. *)

(** ** Rounding twice, and conversions there and back *)

Local Open Scope R_scope.

(** The quotient of a positive integer by 100, as a mantissa and an
    exponent under the sign of the dividend. *)
Lemma div100_make (s : bool) (q : positive) (Kh E : Z) :
  (Zdigits2 (Zpos q) <= Kh)%Z -> (-1074 <= E)%Z -> (E <= 970)%Z ->
  (Kh <= E + 53)%Z ->
  exists m e,
    SFdiv PyFloat.prec PyFloat.emax (S754_finite s q 0) (S754_finite false 100 0)
    = SFmake s m e
    /\ (0 <= m)%Z
    /\ Rabs (IZR m * bpow e - IZR (Zpos q) / 100) <= 3 * bpow E.
Proof.
  intros Hd HE HE' HK. cbn [SFdiv].
  destruct (div_core_100 (Zpos q) ltac:(lia)) as (k & lz & -> & Hk & Hkf).
  rewrite xorb_false_r. rewrite fexp_eq in Hkf.
  assert (Hpk : (0 < 2 ^ k)%Z) by (apply Z.pow_pos_nonneg; lia).
  set (W := (Zpos q * 2 ^ k)%Z) in *.
  assert (HW : (0 <= W)%Z) by (unfold W; nia).
  assert (Hmz : (0 <= W / 100)%Z) by (apply Z.div_pos; lia).
  assert (Hdig : (Zdigits2 (W / 100) <= Zdigits2 (Zpos q) + k)%Z).
  { apply Zdigits2_le; [lia | cbn; lia |].
    apply Z.le_lt_trans with W; [apply Z.div_le_upper_bound; lia |].
    unfold W. rewrite Z.pow_add_r by (cbn; lia).
    pose proof (Zdigits2_gt (Zpos q) ltac:(lia)). nia. }
  pose proof (Z.div_mod W 100 ltac:(lia)) as Hdiv.
  pose proof (Z.mod_pos_bound W 100 ltac:(lia)) as Hmod.
  assert (HB : bpow (- k) * IZR (2 ^ k) = 1).
  { rewrite <- (bpow_IZR k) by lia. rewrite <- bpow_add.
    replace (- k + k)%Z with 0%Z by lia. reflexivity. }
  assert (HT : IZR (Zpos q) / 100 = IZR W / 100 * bpow (- k)).
  { unfold W. rewrite mult_IZR.
    transitivity (IZR (Z.pos q) / 100 * (bpow (- k) * IZR (2 ^ k))); [rewrite HB; lra | lra]. }
  destruct (binary_round_aux_R s (W / 100) (- k) lz E (IZR (Zpos q) / 100))
    as (m & e & Hres & Hm & He & Hdm & Herr); try lia.
  { rewrite HT. pose proof (bpow_pos (- k)) as Hb.
    assert (H1 : IZR (W / 100) <= IZR W / 100).
    { apply Rmult_le_reg_r with 100; [lra |].
      replace (IZR W / 100 * 100) with (IZR W) by lra.
      rewrite <- mult_IZR. apply IZR_le. lia. }
    assert (H2 : IZR W / 100 <= IZR (W / 100) + 1).
    { apply Rmult_le_reg_r with 100; [lra |].
      replace (IZR W / 100 * 100) with (IZR W) by lra.
      replace ((IZR (W / 100) + 1) * 100) with (IZR ((W / 100 + 1) * 100))
        by (rewrite mult_IZR, plus_IZR; reflexivity).
      apply IZR_le. lia. }
    split; apply Rmult_le_compat_r; lra. }
  exists m, e. repeat split; assumption.
Qed.

(** Two integers less than one apart are equal. *)
Lemma IZR_close (a b : Z) : Rabs (IZR a - IZR b) < 1 -> a = b.
Proof.
  intros H. rewrite <- minus_IZR in H.
  destruct (Z.eq_dec a b) as [-> | Hne]; [reflexivity | exfalso].
  assert (Hc : (a - b <= -1 \/ 1 <= a - b)%Z) by lia.
  destruct Hc as [Hc | Hc]; apply IZR_le in Hc.
  - rewrite Rabs_left in H by lra. lra.
  - rewrite Rabs_pos_eq in H by lra. lra.
Qed.

(** Rounding to two places a second time changes nothing, on floats of
    magnitude below [2^K] for [K <= 28]. *)
Lemma round2_idempotent_small (x : float) (K Ex : Z) :
  small K Ex x -> (0 <= K)%Z -> (K <= 28)%Z ->
  PyFloat.round2 (PyFloat.round2 x) = PyFloat.round2 x.
Proof.
  intros Hx HK HK'.
  destruct x as [s | s | | s m e]; try reflexivity.
  cbn [small] in Hx. destruct Hx as [Hd He].
  pose proof (hundredths_digits m e K Hd HK) as Hhd.
  destruct (hundredths_bounds m e) as [Hh _].
  cbn [PyFloat.round2].
  destruct (PyFloat.hundredths m e) as [|q|q] eqn:Hq; [reflexivity | | lia].
  destruct (div100_make s q (K + 7) (K - 46) Hhd) as (m' & e' & Hres & Hm' & Herr);
    try lia.
  rewrite Hres.
  assert (HbE : 300 * bpow (K - 46) < 1 / 2).
  { pose proof (bpow_le (K - 46) (-18) ltac:(lia)) as Hle.
    assert (Hb : bpow (-18) = / 262144) by reflexivity.
    rewrite Hb in Hle. lra. }
  assert (Hqpos : 1 <= IZR (Zpos q)) by (apply IZR_le; lia).
  destruct m' as [|p|p]; [| | lia].
  - exfalso. rewrite Rmult_0_l in Herr. apply Rabs_le_inv in Herr. lra.
  - cbn [SFmake PyFloat.round2].
    destruct (hundredths_bounds p e') as [Hh' Herr'].
    assert (Heq : PyFloat.hundredths p e' = Zpos q).
    { apply IZR_close.
      apply Rabs_le_inv in Herr. apply Rabs_le_inv in Herr'.
      apply Rabs_def1; lra. }
    rewrite Heq. exact Hres.
Qed.

(** A valid float of magnitude below [2^K] is small. *)
Lemma valid_small_pow (v : float) (K : Z) :
  valid_binary PyFloat.prec PyFloat.emax v = true -> is_finite v = true ->
  (-1021 <= K)%Z -> Rabs (B2R v) < bpow K -> small K (K - 53) v.
Proof.
  destruct v as [s | s | | s m e]; cbn [is_finite small]; try discriminate; [tauto |].
  intros Hvalid _ HK Hmag. cbn [valid_binary] in Hvalid. unfold bounded in Hvalid.
  apply andb_prop in Hvalid as [Hcanon _]. unfold canonical_mantissa in Hcanon.
  apply Z.eqb_eq in Hcanon. rewrite fexp_eq in Hcanon.
  change (Z.pos (digits2_pos m)) with (Zdigits2 (Zpos m)) in Hcanon.
  cbn [B2R] in Hmag. fold (sign_of s) in Hmag.
  rewrite Rmult_assoc, Rabs_sign_of in Hmag.
  pose proof (bpow_pos e) as Hb.
  assert (Hmpos : 0 < IZR (Zpos m)) by (apply IZR_lt; lia).
  rewrite Rabs_pos_eq in Hmag by nra.
  pose proof (Zdigits2_lower (Zpos m) ltac:(lia)) as Hlow.
  assert (Hd1 : (1 <= Zdigits2 (Zpos m))%Z) by (cbn; lia).
  apply IZR_le in Hlow. rewrite <- bpow_IZR in Hlow by lia.
  assert (Hlt : bpow (Zdigits2 (Zpos m) - 1 + e) < bpow K).
  { rewrite bpow_add. nra. }
  apply bpow_lt_inv in Hlt. lia.
Qed.

Lemma B2R_c_2_54 : 25399999 / 10000000 <= B2R c_2_54 <= 25400001 / 10000000.
Proof. eval_B2R c_2_54. lra. Qed.

Lemma B2R_c_0_393701 :
  3937009999 / 10000000000 <= B2R c_0_393701 <= 3937010001 / 10000000000.
Proof. eval_B2R c_0_393701. lra. Qed.

Lemma small_c_2_54 : small 2 (-51) c_2_54.
Proof. vm_compute. split; discriminate. Qed.

Lemma small_c_0_393701 : small 2 (-51) c_0_393701.
Proof. vm_compute. split; discriminate. Qed.

Lemma small_c_16 : small 5 0 c_16.
Proof. vm_compute. split; discriminate. Qed.

Lemma small_c_35_274 : small 6 (-47) c_35_274.
Proof. vm_compute. split; discriminate. Qed.

(** X1.  [decimal] is idempotent on every number of magnitude at most
    100000000: a value that was rounded to two places is returned
    unchanged when it is rounded again. *)
Theorem X1_decimal_idempotent (v : float) :
  valid_binary PyFloat.prec PyFloat.emax v = true ->
  is_finite v = true ->
  Rabs (B2R v) <= 100000000 ->
  decimal (decimal (Some v)) = decimal (Some v).
Proof.
  intros Hvalid Hfin Hmag. cbn [decimal]. f_equal.
  apply (round2_idempotent_small v 27 (27 - 53)); try lia.
  apply valid_small_pow; try assumption; try lia.
  change (bpow 27) with 134217728. lra.
Qed.

Lemma X1_decimal_idempotent_witness :
  decimal (decimal (Some (PyFloat.of_ratio 1234567 1000)))
  = decimal (Some (PyFloat.of_ratio 1234567 1000)).
Proof.
  apply (X1_decimal_idempotent (PyFloat.of_ratio 1234567 1000)).
  - vm_compute. reflexivity.
  - vm_compute. reflexivity.
  - eval_B2R (PyFloat.of_ratio 1234567 1000). rewrite Rabs_pos_eq; lra.
Defined.

(** The product of a number of magnitude at most 1000 by a conversion
    factor is rounded to a fixed point of the rounding. *)
Lemma round2_mul_fixed (v c : float) (Kc Ec : Z) :
  small 10 (-43) v -> small Kc Ec c -> (Kc <= 6)%Z -> (Ec <= 0)%Z ->
  PyFloat.round2 (PyFloat.round2 (PyFloat.mul v c)) = PyFloat.round2 (PyFloat.mul v c).
Proof.
  intros Hv Hc HK HE.
  destruct (mul_small v c 10 (-43) Kc Ec (-37) Hv Hc) as [Hs _]; try lia.
  apply (round2_idempotent_small _ _ _ Hs); lia.
Qed.

(** X2.  A converted measurement is a fixed point of the accessor that
    produced it: for a value of magnitude at most 1000 in any unit, the
    result of [KG], [LB], [CM] or [IN], taken as a value in that unit,
    is returned unchanged by the same accessor. *)
Theorem X2_accessors_fixed_point (v : float) :
  valid_binary PyFloat.prec PyFloat.emax v = true ->
  is_finite v = true ->
  Rabs (B2R v) <= 1000 ->
  (forall u : WeightUnit.t,
      Weight.KG (wgt (Weight.KG (wgt (Some v) u)) WeightUnit.KG)
      = Weight.KG (wgt (Some v) u)
      /\ Weight.LB (wgt (Weight.LB (wgt (Some v) u)) WeightUnit.LB)
         = Weight.LB (wgt (Some v) u))
  /\ (forall u : DimensionUnit.t,
         Dimension.CM (dim (Dimension.CM (dim (Some v) u)) DimensionUnit.CM)
         = Dimension.CM (dim (Some v) u)
         /\ Dimension.IN (dim (Dimension.IN (dim (Some v) u)) DimensionUnit.IN)
            = Dimension.IN (dim (Some v) u)).
Proof.
  intros Hvalid Hfin Hmag.
  pose proof (valid_small v Hvalid Hfin Hmag) as Hv.
  assert (Hself : PyFloat.round2 (PyFloat.round2 v) = PyFloat.round2 v)
    by (apply (round2_idempotent_small v 10 (-43) Hv); lia).
  pose proof (round2_mul_fixed v _ 2 (-51) Hv small_c_0_453592 ltac:(lia) ltac:(lia)).
  pose proof (round2_mul_fixed v _ 2 (-51) Hv small_c_2_204620823516057
                ltac:(lia) ltac:(lia)).
  pose proof (round2_mul_fixed v _ 2 (-51) Hv small_c_0_393701 ltac:(lia) ltac:(lia)).
  pose proof (round2_mul_fixed v _ 2 (-51) Hv small_c_2_54 ltac:(lia) ltac:(lia)).
  split; intros []; split; cbn; f_equal; assumption.
Qed.

Lemma X2_accessors_fixed_point_witness :
  Weight.LB (wgt (Weight.LB (wgt (Some (PyFloat.of_Z 1)) WeightUnit.KG)) WeightUnit.LB)
  = Weight.LB (wgt (Some (PyFloat.of_Z 1)) WeightUnit.KG).
Proof.
  destruct (X2_accessors_fixed_point (PyFloat.of_Z 1)) as [Hweight _].
  - vm_compute. reflexivity.
  - vm_compute. reflexivity.
  - eval_B2R (PyFloat.of_Z 1). rewrite Rabs_pos_eq; lra.
  - apply (Hweight WeightUnit.KG).
Defined.

(** X3.  Although the factors of [Dimension] are exchanged, its two
    conversions undo each other: for every value of at most 1000 in
    magnitude, centimetres taken through [IN] and back through [CM]
    come back within 0.01, and inches taken through [CM] and back
    through [IN] come back within 0.02. *)
Theorem X3_dimension_round_trip_bounded (v : float) :
  valid_binary PyFloat.prec PyFloat.emax v = true ->
  is_finite v = true ->
  Rabs (B2R v) <= 1000 ->
  (exists v', dimension_round_trip DimensionUnit.CM v = Some v' /\ is_finite v' = true
              /\ Rabs (B2R v' - B2R v) <= 1 / 100)
  /\ (exists v', dimension_round_trip DimensionUnit.IN v = Some v' /\ is_finite v' = true
                 /\ Rabs (B2R v' - B2R v) <= 2 / 100).
Proof.
  intros Hvalid Hfin Hmag.
  pose proof (valid_small v Hvalid Hfin Hmag) as Hv.
  pose proof B2R_c_2_54 as HA. pose proof B2R_c_0_393701 as HB.
  destruct bpow_tiny as (T1 & T2 & T3 & T4 & P1 & P2 & P3 & P4).
  apply Rabs_le_inv in Hmag.
  set (A := B2R c_2_54) in *. set (B := B2R c_0_393701) in *.
  split.
  - destruct (convert_twice v c_2_54 c_0_393701 Hv small_c_2_54 small_c_0_393701)
      as [Hf Herr].
    eexists. split; [reflexivity |]. split; [exact Hf |].
    fold A B in Herr. rewrite (Rabs_pos_eq B) in Herr by lra.
    apply Rabs_le_inv in Herr. apply Rabs_le.
    assert (HAB : 4 / 10000000 <= A * B - 1 <= 7 / 10000000) by nra.
    assert (Hdrift : -7 / 10000 <= B2R v * (A * B - 1) <= 7 / 10000) by nra.
    assert (HBe : B * (1 / 200 + 3 * bpow (-33) + 3 * bpow (-41)) <= 20 / 10000) by nra.
    split; lra.
  - destruct (convert_twice v c_0_393701 c_2_54 Hv small_c_0_393701 small_c_2_54)
      as [Hf Herr].
    eexists. split; [reflexivity |]. split; [exact Hf |].
    fold A B in Herr. rewrite (Rabs_pos_eq A) in Herr by lra.
    apply Rabs_le_inv in Herr. apply Rabs_le.
    assert (HAB : 4 / 10000000 <= B * A - 1 <= 7 / 10000000) by nra.
    assert (Hdrift : -7 / 10000 <= B2R v * (B * A - 1) <= 7 / 10000) by nra.
    assert (HAe : A * (1 / 200 + 3 * bpow (-33) + 3 * bpow (-41)) <= 128 / 10000) by nra.
    split; lra.
Qed.

Lemma X3_dimension_round_trip_bounded_witness :
  (exists v', dimension_round_trip DimensionUnit.CM (PyFloat.of_Z 10) = Some v'
              /\ is_finite v' = true
              /\ Rabs (B2R v' - B2R (PyFloat.of_Z 10)) <= 1 / 100)
  /\ (exists v', dimension_round_trip DimensionUnit.IN (PyFloat.of_Z 10) = Some v'
                 /\ is_finite v' = true
                 /\ Rabs (B2R v' - B2R (PyFloat.of_Z 10)) <= 2 / 100).
Proof.
  apply (X3_dimension_round_trip_bounded (PyFloat.of_Z 10)).
  - vm_compute. reflexivity.
  - vm_compute. reflexivity.
  - eval_B2R (PyFloat.of_Z 10). rewrite Rabs_pos_eq; lra.
Defined.

Local Close Scope R_scope.

(** ** The order of floats and the girth *)

Lemma ltb_rank (x y : float) :
  is_nan x = false -> is_nan y = false ->
  (PyFloat.ltb x y = true <-> rank_lt x y).
Proof.
  unfold PyFloat.ltb, SFltb, rank_lt.
  destruct x as [sx | sx | | sx mx ex]; try discriminate;
    destruct y as [sy | sy | | sy my ey]; try discriminate; intros _ _;
    cbn [SFcompare rank1 rank2 rank3];
    try (destruct sx); try (destruct sy);
    try (split; [discriminate | lia]); try (split; [lia | reflexivity]).
  - change (PosDef.Pos.compare_cont Eq mx my) with (Pos.compare mx my).
    destruct (Z.compare_spec ex ey) as [-> | Hlt | Hgt].
    + destruct (Pos.compare_spec mx my) as [-> | Hm | Hm]; cbn [CompOpp];
        (split; [try discriminate; lia | try reflexivity; lia]).
    + split; [discriminate | lia].
    + split; [lia | reflexivity].
  - change (PosDef.Pos.compare_cont Eq mx my) with (Pos.compare mx my).
    destruct (Z.compare_spec ex ey) as [-> | Hlt | Hgt].
    + destruct (Pos.compare_spec mx my) as [-> | Hm | Hm];
        (split; [try discriminate; lia | try reflexivity; lia]).
    + split; [lia | reflexivity].
    + split; [discriminate | lia].
Qed.

Lemma ltb_rank_false (x y : float) :
  is_nan x = false -> is_nan y = false ->
  (PyFloat.ltb x y = false <-> ~ rank_lt x y).
Proof.
  intros Hx Hy. rewrite <- (ltb_rank x y Hx Hy).
  destruct (PyFloat.ltb x y); split; congruence.
Qed.

(** Two floats of the same rank are equal, or are two zeros. *)
Lemma rank_eq_inv (x y : float) :
  is_nan x = false -> is_nan y = false ->
  rank1 x = rank1 y -> rank2 x = rank2 y -> rank3 x = rank3 y ->
  x = y \/ (PyFloat.truthy x = false /\ PyFloat.truthy y = false).
Proof.
  destruct x as [sx | sx | | sx mx ex]; try discriminate;
    destruct y as [sy | sy | | sy my ey]; try discriminate; intros _ _;
    cbn [rank1 rank2 rank3 PyFloat.truthy];
    try (destruct sx); try (destruct sy); intros H1 H2 H3;
    try lia; try (left; reflexivity); try (right; split; reflexivity);
    left; f_equal; lia.
Qed.

Lemma add_comm (x y : float) : PyFloat.add x y = PyFloat.add y x.
Proof.
  unfold PyFloat.add.
  destruct x as [sx | sx | | sx mx ex], y as [sy | sy | | sy my ey];
    cbn [SFadd]; try reflexivity;
    try (destruct sx, sy; reflexivity).
  change IntDef.Z.min with Z.min. rewrite (Z.min_comm ey ex).
  f_equal. apply Z.add_comm.
Qed.

(** Adding a zero to a number below zero returns the number. *)
Lemma add_zero_below (x z : float) :
  PyFloat.truthy z = false -> rank1 x < 0 -> PyFloat.add x z = x.
Proof.
  destruct z as [sz | | |]; try discriminate. intros _.
  destruct x as [sx | [] | | [] mx ex]; cbn [rank1]; intros H; try lia; reflexivity.
Qed.

Lemma rank1_zero (z : float) : PyFloat.truthy z = false -> rank1 z = 0.
Proof. destruct z; try discriminate; reflexivity. Qed.

Lemma rank23_zero (z : float) :
  PyFloat.truthy z = false -> rank2 z = 0 /\ rank3 z = 0.
Proof. destruct z; try discriminate; split; reflexivity. Qed.

Lemma rank1_zero_inv (c : float) :
  is_nan c = false -> rank1 c = 0 ->
  PyFloat.truthy c = false.
Proof. destruct c as [s | [] | | [] m e]; cbn; intros; (reflexivity || discriminate || lia). Qed.

(** Two sides of the same rank [a] and [b] give the same sum with a
    side [c] that is not above them, unless the three of them are
    zeros. *)
Lemma add_tie (c a b : float) :
  is_nan a = false -> is_nan b = false -> is_nan c = false ->
  ~ rank_lt a b -> ~ rank_lt b a -> ~ rank_lt a c ->
  ~ (PyFloat.truthy a = false /\ PyFloat.truthy b = false
     /\ PyFloat.truthy c = false) ->
  PyFloat.add c a = PyFloat.add c b.
Proof.
  intros Ha Hb Hc Hab Hba Hac Hany. unfold rank_lt in *.
  destruct (rank_eq_inv a b Ha Hb) as [-> | [Fa Fb]]; try lia; [reflexivity |].
  pose proof (rank1_zero a Fa) as Ra. pose proof (rank23_zero a Fa) as [Ra2 Ra3].
  destruct (Z.eq_dec (rank1 c) 0) as [H0 | H0].
  - exfalso. apply Hany. repeat split; try assumption.
    apply rank1_zero_inv; assumption.
  - rewrite !add_zero_below by (assumption || lia). reflexivity.
Qed.

Ltac to_rank :=
  repeat match goal with
         | H : PyFloat.ltb ?a ?b = true |- _ =>
             apply ltb_rank in H; [unfold rank_lt in H | assumption | assumption]
         | H : PyFloat.ltb ?a ?b = false |- _ =>
             apply ltb_rank_false in H; [unfold rank_lt in H | assumption | assumption]
         end.

Ltac split_ltb :=
  repeat (cbv beta iota zeta;
          match goal with
          | H : PyFloat.ltb ?a ?b = _ |- context [PyFloat.ltb ?a ?b] => rewrite H
          | |- context [PyFloat.ltb ?a ?b] =>
              let E := fresh "E" in destruct (PyFloat.ltb a b) eqn:E
          end).

Ltac order_case :=
  cbv beta iota zeta; first
    [ reflexivity
    | apply add_comm
    | exfalso; lia
    | apply add_tie; try assumption; unfold rank_lt; solve [lia | tauto] ].

(** The sum of the two smallest of three sides does not depend on the
    order of the sides. *)
Lemma smallest_sum_swap12 (x y z : float) :
  is_nan x = false -> is_nan y = false -> is_nan z = false ->
  ~ (PyFloat.truthy x = false /\ PyFloat.truthy y = false
     /\ PyFloat.truthy z = false) ->
  smallest_sum x y z = smallest_sum y x z.
Proof.
  intros Hx Hy Hz Hany. unfold smallest_sum, sorted3.
  split_ltb; to_rank; order_case.
Qed.

Lemma smallest_sum_swap23 (x y z : float) :
  is_nan x = false -> is_nan y = false -> is_nan z = false ->
  ~ (PyFloat.truthy x = false /\ PyFloat.truthy y = false
     /\ PyFloat.truthy z = false) ->
  smallest_sum x y z = smallest_sum x z y.
Proof.
  intros Hx Hy Hz Hany. unfold smallest_sum, sorted3.
  split_ltb; to_rank; order_case.
Qed.

Lemma list_sort_sorted3 (x y z : float) :
  list_sort [Some x; Some y; Some z]
  = let '(p, q, r) := sorted3 x y z in Ok [Some p; Some q; Some r].
Proof.
  unfold list_sort, sort_from, sorted3. cbn [insert_sorted py_lt bind].
  destruct (PyFloat.ltb y x); cbn [insert_sorted py_lt bind];
    destruct (PyFloat.ltb z _); cbn [insert_sorted py_lt bind];
    try destruct (PyFloat.ltb z _); reflexivity.
Qed.

(** The value of a girth whose three sides are numbers. *)
Lemma Girth_value_numbers (g : Girth.t) (x y z : float) :
  Girth.sides g = [Some x; Some y; Some z] ->
  Girth.value g
  = if PyFloat.truthy x || PyFloat.truthy y || PyFloat.truthy z
    then Ok (Some (PyFloat.round2
                     (PyFloat.mul (smallest_sum x y z) (PyFloat.of_Z 2))))
    else Ok None.
Proof.
  intros Hs. unfold Girth.value. rewrite Hs. cbn [existsb truthy].
  rewrite orb_false_r, orb_assoc.
  destruct (PyFloat.truthy x || PyFloat.truthy y || PyFloat.truthy z);
    [| reflexivity].
  cbn [negb]. rewrite list_sort_sorted3. unfold smallest_sum.
  destruct (sorted3 x y z) as [[p q] r]. reflexivity.
Qed.

(** The value of a girth with a null side. *)
Lemma Girth_value_null_side (g : Girth.t) (a b c : option float) :
  Girth.sides g = [a; b; c] ->
  a = None \/ b = None \/ c = None ->
  Girth.value g
  = if truthy a || truthy b || truthy c then Raise TypeError else Ok None.
Proof.
  intros Hs Hnull. unfold Girth.value. rewrite Hs. cbn [existsb].
  rewrite orb_false_r, orb_assoc.
  destruct (truthy a || truthy b || truthy c); [| reflexivity].
  cbn [negb]. rewrite list_sort_with_None by assumption. reflexivity.
Qed.

Lemma truthy_or_false (x y z : float) :
  PyFloat.truthy x || PyFloat.truthy y || PyFloat.truthy z = true ->
  ~ (PyFloat.truthy x = false /\ PyFloat.truthy y = false
     /\ PyFloat.truthy z = false).
Proof. intros H (Hx & Hy & Hz). rewrite Hx, Hy, Hz in H. discriminate. Qed.

(** The value of a girth is computed from its sides. *)
Lemma Girth_value_of_sides (g : Girth.t) (a b c : option float) :
  Girth.sides g = [a; b; c] ->
  Girth.value g
  = match a, b, c with
    | Some x, Some y, Some z =>
        if PyFloat.truthy x || PyFloat.truthy y || PyFloat.truthy z
        then Ok (Some (PyFloat.round2
                         (PyFloat.mul (smallest_sum x y z) (PyFloat.of_Z 2))))
        else Ok None
    | _, _, _ =>
        if truthy a || truthy b || truthy c then Raise TypeError else Ok None
    end.
Proof.
  intros Hs.
  destruct a as [x|]; [| apply Girth_value_null_side; auto].
  destruct b as [y|]; [| apply Girth_value_null_side; auto].
  destruct c as [z|]; [| apply Girth_value_null_side; auto].
  apply Girth_value_numbers. exact Hs.
Qed.

(** Exchanging two neighbouring sides leaves the value of a girth. *)
Lemma Girth_value_swap12 (d1 d2 d3 : Dimension.t) :
  side_is_nan (Dimension.CM d1) = false ->
  side_is_nan (Dimension.CM d2) = false ->
  side_is_nan (Dimension.CM d3) = false ->
  Girth.value (Girth.Build d2 d1 d3) = Girth.value (Girth.Build d1 d2 d3).
Proof.
  intros H1 H2 H3.
  rewrite (Girth_value_of_sides (Girth.Build d2 d1 d3) _ _ _ eq_refl).
  rewrite (Girth_value_of_sides (Girth.Build d1 d2 d3) _ _ _ eq_refl).
  cbn [Girth._side1 Girth._side2 Girth._side3].
  destruct (Dimension.CM d1) as [x|], (Dimension.CM d2) as [y|],
    (Dimension.CM d3) as [z|]; cbn [truthy orb];
    rewrite ?orb_false_r; try reflexivity.
  - rewrite (orb_comm (PyFloat.truthy y)).
    destruct (PyFloat.truthy x || PyFloat.truthy y || PyFloat.truthy z) eqn:Hany;
      [| reflexivity].
    rewrite (smallest_sum_swap12 x y z H1 H2 H3 (truthy_or_false _ _ _ Hany)).
    reflexivity.
  - rewrite (orb_comm (PyFloat.truthy y)). reflexivity.
Qed.

Lemma Girth_value_swap23 (d1 d2 d3 : Dimension.t) :
  side_is_nan (Dimension.CM d1) = false ->
  side_is_nan (Dimension.CM d2) = false ->
  side_is_nan (Dimension.CM d3) = false ->
  Girth.value (Girth.Build d1 d3 d2) = Girth.value (Girth.Build d1 d2 d3).
Proof.
  intros H1 H2 H3.
  rewrite (Girth_value_of_sides (Girth.Build d1 d3 d2) _ _ _ eq_refl).
  rewrite (Girth_value_of_sides (Girth.Build d1 d2 d3) _ _ _ eq_refl).
  cbn [Girth._side1 Girth._side2 Girth._side3].
  destruct (Dimension.CM d1) as [x|], (Dimension.CM d2) as [y|],
    (Dimension.CM d3) as [z|]; cbn [truthy orb];
    rewrite ?orb_false_r; try reflexivity.
  - rewrite <- !orb_assoc, (orb_comm (PyFloat.truthy z)).
    destruct (PyFloat.truthy x || (PyFloat.truthy y || PyFloat.truthy z)) eqn:Hany;
      [| reflexivity].
    rewrite orb_assoc in Hany.
    rewrite (smallest_sum_swap23 x y z H1 H2 H3 (truthy_or_false _ _ _ Hany)).
    reflexivity.
  - rewrite (orb_comm (PyFloat.truthy z)). reflexivity.
Qed.

(** X4.  The value of a girth does not depend on the order of its
    sides, when no side is NaN: the six orders of three sides give the
    same result, be it a number, null or the [TypeError] of a null
    side. *)
Theorem X4_girth_order_independent (d1 d2 d3 : Dimension.t) :
  side_is_nan (Dimension.CM d1) = false ->
  side_is_nan (Dimension.CM d2) = false ->
  side_is_nan (Dimension.CM d3) = false ->
  let v := Girth.value (Girth.Build d1 d2 d3) in
  Girth.value (Girth.Build d1 d3 d2) = v
  /\ Girth.value (Girth.Build d2 d1 d3) = v
  /\ Girth.value (Girth.Build d2 d3 d1) = v
  /\ Girth.value (Girth.Build d3 d1 d2) = v
  /\ Girth.value (Girth.Build d3 d2 d1) = v.
Proof.
  intros H1 H2 H3 v. unfold v.
  pose proof (Girth_value_swap12 d1 d2 d3 H1 H2 H3) as S12.
  pose proof (Girth_value_swap23 d1 d2 d3 H1 H2 H3) as S23.
  repeat split.
  - exact S23.
  - exact S12.
  - rewrite (Girth_value_swap23 d2 d1 d3) by assumption. exact S12.
  - rewrite (Girth_value_swap12 d1 d3 d2) by assumption. exact S23.
  - rewrite (Girth_value_swap23 d3 d1 d2), (Girth_value_swap12 d1 d3 d2) by assumption.
    exact S23.
Qed.

Lemma X4_girth_order_independent_witness :
  let d1 := dim (Some (PyFloat.of_Z 30)) DimensionUnit.CM in
  let d2 := dim (Some (PyFloat.of_Z 10)) DimensionUnit.CM in
  let d3 := dim (Some (PyFloat.of_Z 20)) DimensionUnit.CM in
  let v := Girth.value (Girth.Build d1 d2 d3) in
  Girth.value (Girth.Build d1 d3 d2) = v
  /\ Girth.value (Girth.Build d2 d1 d3) = v
  /\ Girth.value (Girth.Build d2 d3 d1) = v
  /\ Girth.value (Girth.Build d3 d1 d2) = v
  /\ Girth.value (Girth.Build d3 d2 d1) = v.
Proof.
  intros d1 d2 d3.
  apply (X4_girth_order_independent d1 d2 d3); vm_compute; reflexivity.
Defined.

Lemma ltb_asym (a b : float) : PyFloat.ltb a b = true -> PyFloat.ltb b a = false.
Proof.
  intros H.
  destruct (is_nan a) eqn:Ha; [destruct a; discriminate |].
  destruct (is_nan b) eqn:Hb; [destruct a, b; discriminate |].
  apply ltb_rank in H; try assumption.
  apply ltb_rank_false; try assumption.
  unfold rank_lt in *. lia.
Qed.

Ltac perm3 :=
  first
    [ reflexivity
    | apply perm_swap
    | apply perm_skip, perm_swap
    | apply perm_trans with (1 := perm_swap _ _ _); apply perm_skip, perm_swap
    | eapply perm_trans; [apply perm_skip, perm_swap | apply perm_swap]
    | eapply perm_trans; [apply perm_swap |];
      eapply perm_trans; [apply perm_skip, perm_swap | apply perm_swap] ].

(** X5.  When the three sides of a girth are numbers, none of them
    NaN and one of them not zero, its value is twice the sum of the two
    smallest sides, rounded to two places: the sides, put in an order
    [p, q, r] in which no side is below the one before it, give
    [decimal((p + q) * 2)]. *)
Theorem X5_girth_twice_two_smallest (g : Girth.t) (x y z : float) :
  Girth.sides g = [Some x; Some y; Some z] ->
  is_nan x = false -> is_nan y = false -> is_nan z = false ->
  PyFloat.truthy x || PyFloat.truthy y || PyFloat.truthy z = true ->
  exists p q r,
    Permutation [x; y; z] [p; q; r]
    /\ PyFloat.ltb q p = false /\ PyFloat.ltb r q = false
    /\ Girth.value g
       = Ok (decimal (Some (PyFloat.mul (PyFloat.add p q) (PyFloat.of_Z 2)))).
Proof.
  intros Hs _ _ _ Hany. rewrite (Girth_value_numbers g x y z Hs), Hany.
  unfold smallest_sum, sorted3.
  destruct (PyFloat.ltb y x) eqn:Hyx; cbv beta iota zeta.
  - pose proof (ltb_asym _ _ Hyx).
    destruct (PyFloat.ltb z y) eqn:Hzy; cbv beta iota zeta.
    + pose proof (ltb_asym _ _ Hzy).
      exists z, y, x. repeat split; try assumption; try reflexivity. perm3.
    + destruct (PyFloat.ltb z x) eqn:Hzx; cbv beta iota zeta.
      * pose proof (ltb_asym _ _ Hzx).
        exists y, z, x. repeat split; try assumption; try reflexivity. perm3.
      * exists y, x, z. repeat split; try assumption; try reflexivity. perm3.
  - destruct (PyFloat.ltb z x) eqn:Hzx; cbv beta iota zeta.
    + pose proof (ltb_asym _ _ Hzx).
      exists z, x, y. repeat split; try assumption; try reflexivity. perm3.
    + destruct (PyFloat.ltb z y) eqn:Hzy; cbv beta iota zeta.
      * pose proof (ltb_asym _ _ Hzy).
        exists x, z, y. repeat split; try assumption; try reflexivity. perm3.
      * exists x, y, z. repeat split; try assumption; try reflexivity.
Qed.

Lemma X5_girth_twice_two_smallest_witness :
  exists p q r,
    Permutation [PyFloat.of_Z 30; PyFloat.of_Z 10; PyFloat.of_Z 20] [p; q; r]
    /\ PyFloat.ltb q p = false /\ PyFloat.ltb r q = false
    /\ Girth.value
         (Girth.Build (dim (Some (PyFloat.of_Z 30)) DimensionUnit.CM)
                      (dim (Some (PyFloat.of_Z 10)) DimensionUnit.CM)
                      (dim (Some (PyFloat.of_Z 20)) DimensionUnit.CM))
       = Ok (decimal (Some (PyFloat.mul (PyFloat.add p q) (PyFloat.of_Z 2)))).
Proof.
  apply (X5_girth_twice_two_smallest
           (Girth.Build (dim (Some (PyFloat.of_Z 30)) DimensionUnit.CM)
                        (dim (Some (PyFloat.of_Z 10)) DimensionUnit.CM)
                        (dim (Some (PyFloat.of_Z 20)) DimensionUnit.CM))
           (PyFloat.of_Z 30) (PyFloat.of_Z 10) (PyFloat.of_Z 20));
    vm_compute; reflexivity.
Defined.
(** ** Null measurements *)

(** X6.  The conversion accessors of a dimension and of a weight never
    raise, and each returns null exactly when the value or the unit of
    the measurement is null. *)
Theorem X6_null_measurements :
  (forall d : Dimension.t,
      let null := Dimension._value d = None \/ Dimension._unit d = None in
      (Dimension.CM d = None <-> null) /\ (Dimension.IN d = None <-> null)
      /\ (Dimension.M d = None <-> null))
  /\ (forall w : Weight.t,
         let null := Weight._value w = None \/ Weight._unit w = None in
         (Weight.KG w = None <-> null) /\ (Weight.LB w = None <-> null)
         /\ (Weight.OZ w = None <-> null)).
Proof.
  split.
  - intros [[v|] [[]|]]; cbn; repeat split;
      intros H; try discriminate; try (destruct H; discriminate); auto.
  - intros [[v|] [[]|]]; cbn; repeat split;
      intros H; try discriminate; try (destruct H; discriminate); auto.
Qed.

(** ** Validated collections *)

(** A run of the inner loop that returns has read every required
    attribute, and keeps the violations that it was given. *)
Lemma check_fields_inv (index : nat) (package : Package.t) (fields : list string) :
  forall errors errors' : gmap string FieldErrorCode.t,
    Packages.check_fields index package fields errors = Ok errors' ->
    (errors' = ∅ -> errors = ∅)
    /\ forall f, f ∈ fields ->
         exists b, missing_at package f = Ok b /\ (b = true -> errors' <> ∅).
Proof.
  induction fields as [|f fields IH]; intros errors errors' Hrun.
  - cbn in Hrun. injection Hrun as <-. split; [auto |].
    intros f Hf. apply elem_of_nil in Hf. destruct Hf.
  - cbn [Packages.check_fields] in Hrun.
    destruct (getattr package f) as [prop|e] eqn:Hget; cbn [bind] in Hrun;
      [| discriminate].
    destruct (is_missing prop) as [b|e] eqn:Hmiss; cbn [bind] in Hrun;
      [| discriminate].
    destruct (IH _ _ Hrun) as [Hempty Hrest].
    assert (Hb : b = true -> errors' <> ∅).
    { intros -> Hnil. apply Hempty in Hnil.
      apply (insert_non_empty errors (Packages.error_key index f)
               FieldErrorCode.required). exact Hnil. }
    split.
    + intros Hnil. specialize (Hempty Hnil). destruct b; [| exact Hempty].
      exfalso. apply (Hb eq_refl Hnil).
    + intros f' Hf'. apply elem_of_cons in Hf' as [-> | Hf'].
      * exists b. split; [| exact Hb].
        unfold missing_at. rewrite Hget. cbn [bind]. exact Hmiss.
      * apply Hrest. exact Hf'.
Qed.

Lemma check_items_inv (fields : list string) (items : list Package.t) :
  forall (index : nat) (errors errors' : gmap string FieldErrorCode.t),
    Packages.check_items index items fields errors = Ok errors' ->
    (errors' = ∅ -> errors = ∅)
    /\ forall package f, package ∈ items -> f ∈ fields ->
         exists b, missing_at package f = Ok b /\ (b = true -> errors' <> ∅).
Proof.
  induction items as [|package items IH]; intros index errors errors' Hrun.
  - cbn in Hrun. injection Hrun as <-. split; [auto |].
    intros p f Hp. apply elem_of_nil in Hp. destruct Hp.
  - cbn [Packages.check_items] in Hrun.
    destruct (Packages.check_fields index package fields errors) as [errors1|e] eqn:H1;
      cbn [bind] in Hrun; [| discriminate].
    destruct (check_fields_inv _ _ _ _ _ H1) as [Hempty1 Hfields].
    destruct (IH _ _ _ Hrun) as [Hempty Hrest].
    split; [auto |].
    intros p f Hp Hf. apply elem_of_cons in Hp as [-> | Hp].
    + destruct (Hfields f Hf) as (b & Hb & Hne). exists b. split; [exact Hb |].
      intros Ht Hnil. apply (Hne Ht). apply Hempty. exact Hnil.
    + apply Hrest; assumption.
Qed.

(** A construction that returns holds one package for each parcel, and
    has found none of the required attributes missing. *)
Lemma Packages_init_inv (parcels : list Parcel.t)
    (presets : option (gmap string PackagePreset.t))
    (required : option (list string)) (packages : Packages.t) :
  Packages.__init__ parcels presets required = Ok packages ->
  Packages._items packages
  = map (fun parcel => Package.__init__ parcel (Packages.compute_preset presets parcel))
        parcels
  /\ forall fields package field,
       required = Some fields ->
       package ∈ Packages._items packages -> field ∈ fields ->
       missing_at package field = Ok false.
Proof.
  unfold Packages.__init__. intros Hinit.
  destruct required as [fields|].
  - destruct (Packages.check_items 0 _ fields ∅) as [errors|e] eqn:Hrun;
      cbn [bind] in Hinit; [| discriminate].
    destruct (bool_decide (errors = ∅)) eqn:Hempty; [| discriminate].
    apply bool_decide_eq_true in Hempty. injection Hinit as <-.
    split; [reflexivity |]. cbn [Packages._items].
    intros fields' package field [= <-] Hp Hf.
    destruct (check_items_inv _ _ _ _ _ Hrun) as [_ Hall].
    destruct (Hall package field Hp Hf) as (b & Hb & Hne).
    destruct b; [exfalso; exact (Hne eq_refl Hempty) | exact Hb].
  - injection Hinit as <-. split; [reflexivity | discriminate].
Qed.

(** X7.  A collection that was constructed with required attributes
    holds one package for each parcel, in the order of the parcels, and
    no required attribute of any of its packages is missing. *)
Theorem X7_validated_collection_is_complete
    (parcels : list Parcel.t) (presets : option (gmap string PackagePreset.t))
    (required : list string) (packages : Packages.t) :
  Packages.__init__ parcels presets (Some required) = Ok packages ->
  Packages._items packages
  = map (fun parcel => Package.__init__ parcel (Packages.compute_preset presets parcel))
        parcels
  /\ forall package field,
       package ∈ Packages._items packages -> field ∈ required ->
       missing_at package field = Ok false.
Proof.
  unfold Packages.__init__. intros Hinit.
  destruct (Packages.check_items 0 _ required ∅) as [errors|e] eqn:Hrun;
    cbn [bind] in Hinit; [| discriminate].
  destruct (bool_decide (errors = ∅)) eqn:Hempty; [| discriminate].
  apply bool_decide_eq_true in Hempty. injection Hinit as <-.
  split; [reflexivity |]. cbn [Packages._items].
  intros package field Hp Hf.
  destruct (check_items_inv _ _ _ _ _ Hrun) as [_ Hall].
  destruct (Hall package field Hp Hf) as (b & Hb & Hne).
  destruct b; [exfalso; exact (Hne eq_refl Hempty) | exact Hb].
Qed.

Lemma X7_validated_collection_is_complete_witness :
  let parcels := [C7_parcel (PyFloat.of_ratio 25 10) "LB"; C7_parcel (PyFloat.of_Z 1) "KG"] in
  Packages._items C7_packages
  = map (fun parcel => Package.__init__ parcel (Packages.compute_preset None parcel))
        parcels
  /\ forall package field,
       package ∈ Packages._items C7_packages -> field ∈ ["weight"%string] ->
       missing_at package field = Ok false.
Proof.
  apply (X7_validated_collection_is_complete
           [C7_parcel (PyFloat.of_ratio 25 10) "LB"; C7_parcel (PyFloat.of_Z 1) "KG"]
           None ["weight"%string] C7_packages).
  vm_compute. reflexivity.
Defined.

(** A package whose weight is not missing contributes its pounds to the
    sum. *)
Lemma present_weight_contributes (package : Package.t) :
  missing_at package "weight" = Ok false ->
  exists w lb, Package.weight package = Ok w /\ contribution w = [lb].
Proof.
  unfold missing_at, getattr. cbn [String.eqb Ascii.eqb Bool.eqb].
  destruct (Package.weight package) as [w|e] eqn:Hw; cbn [bind]; [| discriminate].
  destruct (Package_weight_inv _ _ Hw) as (v & u & ->).
  cbn [bind is_missing]. rewrite Weight_value_wgt.
  destruct v as [x|]; cbn [decimal value_is_None]; [| discriminate].
  intros _. exists (wgt (Some x) u). unfold contribution.
  rewrite Weight_value_wgt. destruct u; cbn; eauto.
Qed.

(** X8.  In a collection constructed with the weight among its required
    attributes, every parcel counts in the aggregate weight: the weight
    of each package resolves, the sum in pounds has one term for each
    parcel, and [Packages.weight] is that sum, or null when the sum is
    zero. *)
Theorem X8_validated_weight_counts_every_parcel
    (parcels : list Parcel.t) (presets : option (gmap string PackagePreset.t))
    (required : list string) (packages : Packages.t) :
  Packages.__init__ parcels presets (Some required) = Ok packages ->
  "weight"%string ∈ required ->
  exists ws,
    mapM Package.weight (Packages._items packages) = Ok ws
    /\ List.length (contributions ws) = List.length parcels
    /\ let total := fold_left PyFloat.add (contributions ws) (PyFloat.of_Z 0) in
       Packages.weight packages
       = Ok (wgt (if PyFloat.truthy total then Some total else None) WeightUnit.LB).
Proof.
  intros Hinit Hreq.
  destruct (Packages_init_inv _ _ _ _ Hinit) as [Hitems Hall0].
  assert (Hall : forall package,
             package ∈ Packages._items packages ->
             missing_at package "weight" = Ok false)
    by (intros package Hp; exact (Hall0 required package "weight"%string eq_refl Hp Hreq)).
  assert (Hw : forall package, package ∈ Packages._items packages ->
                 exists w lb, Package.weight package = Ok w /\ contribution w = [lb]).
  { intros package Hp. apply present_weight_contributes. apply Hall. exact Hp. }
  assert (Hlen : List.length (Packages._items packages) = List.length parcels).
  { rewrite Hitems. apply length_map. }
  clear Hitems Hall Hall0 Hinit. revert Hw Hlen. generalize (List.length parcels).
  unfold Packages.weight. generalize (PyFloat.of_Z 0).
  destruct packages as [items]. cbn [Packages._items].
  assert (Hgen : (forall package, package ∈ items ->
                    exists w lb, Package.weight package = Ok w /\ contribution w = [lb]) ->
                 exists ws, mapM Package.weight items = Ok ws
                            /\ List.length (contributions ws) = List.length items).
  { induction items as [|p items IH]; intros Hw.
    - exists []. split; reflexivity.
    - destruct (Hw p) as (w & lb & Hpw & Hc); [left |].
      destruct IH as (ws & Hws & Hl); [intros q Hq; apply Hw; right; exact Hq |].
      exists (w :: ws). split.
      + cbn [mapM]. rewrite Hpw, Hws. reflexivity.
      + unfold contributions in *. cbn [flat_map]. rewrite Hc. cbn. lia. }
  intros acc n Hw Hlen. destruct (Hgen Hw) as (ws & Hws & Hl).
  exists ws. split; [exact Hws |]. split; [lia |].
  cbn zeta. rewrite (sum_LB_fold _ ws _ Hws). reflexivity.
Qed.

Lemma X8_validated_weight_counts_every_parcel_witness :
  exists ws,
    mapM Package.weight (Packages._items C7_packages) = Ok ws
    /\ List.length (contributions ws) = 2%nat
    /\ let total := fold_left PyFloat.add (contributions ws) (PyFloat.of_Z 0) in
       Packages.weight C7_packages
       = Ok (wgt (if PyFloat.truthy total then Some total else None) WeightUnit.LB).
Proof.
  apply (X8_validated_weight_counts_every_parcel
           [C7_parcel (PyFloat.of_ratio 25 10) "LB"; C7_parcel (PyFloat.of_Z 1) "KG"]
           None ["weight"%string] C7_packages).
  - vm_compute. reflexivity.
  - left.
Defined.
(** ** Locating the records of a response *)

Lemma node_count_child (e c : Element) :
  c ∈ children e -> (node_count c < node_count e)%nat.
Proof.
  destruct e as [t x cs]. cbn [children node_count].
  induction cs as [|d cs IH]; intros Hc.
  - apply elem_of_nil in Hc. destruct Hc.
  - cbn [map list_sum fold_right]. apply elem_of_cons in Hc as [-> | Hc]; [lia |].
    specialize (IH Hc). unfold list_sum in IH. lia.
Qed.

Lemma below_node_count (e n : Element) :
  below e n -> (node_count n < node_count e)%nat.
Proof.
  induction 1 as [e c Hc | e c n Hc _ IH].
  - apply node_count_child. exact Hc.
  - pose proof (node_count_child e c Hc). lia.
Qed.

Lemma descendants_children (e : Element) :
  descendants e = flat_map (fun c => c :: descendants c) (children e).
Proof. destruct e. reflexivity. Qed.

Lemma descendants_below_bounded (k : nat) :
  forall e n, (node_count e <= k)%nat -> (n ∈ descendants e <-> below e n).
Proof.
  induction k as [|k IH]; intros e n Hk.
  - destruct e. cbn in Hk. lia.
  - rewrite descendants_children, list_elem_of_In, in_flat_map. split.
    + intros (c & Hc & Hn). apply list_elem_of_In in Hc.
      pose proof (node_count_child e c Hc) as Hlt.
      destruct Hn as [<- | Hn]; [apply below_child; exact Hc |].
      apply below_deeper with c; [exact Hc |].
      apply IH; [lia |]. apply list_elem_of_In. exact Hn.
    + intros Hb. destruct Hb as [e c Hc | e c n Hc Hb].
      * exists c. split; [apply list_elem_of_In; exact Hc | left; reflexivity].
      * exists c. split; [apply list_elem_of_In; exact Hc |]. right.
        apply list_elem_of_In. apply IH; [| exact Hb].
        pose proof (node_count_child e c Hc). lia.
Qed.

Lemma xpath_below (response : Element) (name : string) (n : Element) :
  n ∈ xpath response name <-> below response n /\ tag n = name.
Proof.
  unfold xpath. rewrite list_elem_of_In, filter_In, <- list_elem_of_In.
  rewrite (descendants_below_bounded (node_count response) response n (le_n _)).
  rewrite String.eqb_eq. reflexivity.
Qed.

(** X9.  The location of records is independent of the shape of the
    tree: [xpath] returns a node if and only if the node has the
    requested name and lies under the root, at any depth; the root
    itself is never returned. *)
Theorem X9_xpath_finds_nodes_at_any_depth (response : Element) (name : string) :
  (forall n, n ∈ xpath response name <-> below response n /\ tag n = name)
  /\ response ∉ xpath response name.
Proof.
  split; [intros n; apply xpath_below |].
  intros Hin. apply xpath_below in Hin as [Hb _]. apply below_node_count in Hb. lia.
Qed.

(** ** Error nodes of USPS *)

(** X10.  The error parser of USPS stamps every message with the name
    and the identifier of the carrier of the settings.  When the root of
    the response is the [Error] node it returns one message, that of the
    root, whatever lies below; otherwise it returns one message for each
    [Error] node under the root, in document order, and none exactly
    when there is no such node. *)
Theorem X10_usps_error_messages (Error_build : Element -> USPS.Error)
    (response : Element) (settings : Settings) :
  let messages := USPS.parse_error_response Error_build response settings in
  let message_of (node : Element) :=
    Message.Build (carrier_name settings) (carrier_id settings)
                  (USPS.str_Number (USPS.Number (Error_build node)))
                  (USPS.Description (Error_build node)) in
  Forall (fun m => Message.carrier_name m = carrier_name settings
                   /\ Message.carrier_id m = carrier_id settings) messages
  /\ (tag response = "Error"%string -> messages = [message_of response])
  /\ (tag response <> "Error"%string ->
      messages = map message_of (xpath response "Error")
      /\ (messages = [] <-> ~ exists n, below response n /\ tag n = "Error"%string)).
Proof.
  cbn zeta. unfold USPS.parse_error_response. rewrite map_map.
  split; [| split].
  - apply Forall_forall. intros m Hm.
    apply list_elem_of_In, in_map_iff in Hm as (n & <- & _). split; reflexivity.
  - intros ->. reflexivity.
  - intros Hne. apply String.eqb_neq in Hne. rewrite Hne.
    split; [reflexivity |]. split.
    + intros Hnil (n & Hn). apply xpath_below in Hn.
      destruct (xpath response "Error"); [| discriminate].
      apply elem_of_nil in Hn. exact Hn.
    + intros Hnone. destruct (xpath response "Error") as [|n ns] eqn:Hx;
        [reflexivity |].
      exfalso. apply Hnone. exists n. apply xpath_below. rewrite Hx. left.
Qed.

Lemma X10_usps_error_messages_witness :
  USPS.parse_error_response spec_Error_build a_usps_error a_settings
  = [Message.Build "carrier" "carrier_id" "80040" (Some "Authorization failure")]%string.
Proof.
  destruct (X10_usps_error_messages spec_Error_build a_usps_error a_settings)
    as (_ & Hroot & _).
  rewrite (Hroot eq_refl). vm_compute. reflexivity.
Defined.

(** ** Quote records of DHL *)

(** The charges from which the sums of a quote are taken. *)
Lemma sum_matching_named (label : string) (cs : list DHL.QtdShpExChrgType) :
  Forall (fun c => DHL.LocalServiceTypeName c <> None) cs ->
  forall acc : float,
    reduceM
      (fun d ec =>
         let* matches := py_in label (ChargeDetails.name ec) in
         if matches then py_add d (ChargeDetails.amount ec) else Ok d)
      (map (fun s =>
              ChargeDetails.Build
                (DHL.LocalServiceTypeName s)
                (decimal (py_or (DHL.ChargeValue s) (Some (PyFloat.of_Z 0))))
                None) cs)
      (Some acc)
    = Ok (Some (fold_left PyFloat.add
                  (map summed_amount (List.filter (named_with label) cs)) acc)).
Proof.
  induction 1 as [|c cs Hc _ IH]; intros acc; [reflexivity |].
  cbn [map reduceM ChargeDetails.name ChargeDetails.amount List.filter].
  unfold named_with at 1.
  destruct (DHL.LocalServiceTypeName c) as [name|]; [| congruence].
  cbn [py_in bind]. rewrite py_or_preferred.
  destruct (contains label name).
  - assert (Ha : decimal (preferred (DHL.ChargeValue c) (Some (PyFloat.of_Z 0)))
                 = Some (summed_amount c)).
    { unfold summed_amount, preferred.
      destruct (DHL.ChargeValue c) as [[]|]; reflexivity. }
    rewrite Ha. cbn [py_add bind map fold_left]. apply IH.
  - cbn [bind]. apply IH.
Qed.

Lemma sum_matching_unnamed (label : string) (cs : list DHL.QtdShpExChrgType) :
  Exists (fun c => DHL.LocalServiceTypeName c = None) cs ->
  forall acc : float,
    reduceM
      (fun d ec =>
         let* matches := py_in label (ChargeDetails.name ec) in
         if matches then py_add d (ChargeDetails.amount ec) else Ok d)
      (map (fun s =>
              ChargeDetails.Build
                (DHL.LocalServiceTypeName s)
                (decimal (py_or (DHL.ChargeValue s) (Some (PyFloat.of_Z 0))))
                None) cs)
      (Some acc)
    = Raise TypeError.
Proof.
  induction cs as [|c cs IH]; intros Hex acc; [inversion Hex |].
  cbn [map reduceM ChargeDetails.name ChargeDetails.amount].
  destruct (DHL.LocalServiceTypeName c) as [name|] eqn:Hname; [| reflexivity].
  assert (Hrest : Exists (fun c => DHL.LocalServiceTypeName c = None) cs).
  { inversion Hex; subst; [congruence | assumption]. }
  cbn [py_in bind]. rewrite py_or_preferred.
  destruct (contains label name); cbn [bind]; [| apply IH; exact Hrest].
  destruct (decimal (preferred (DHL.ChargeValue c) (Some (PyFloat.of_Z 0))))
    as [a|] eqn:Ha.
  - cbn [py_add bind]. apply IH. exact Hrest.
  - exfalso. unfold preferred in Ha.
    destruct (DHL.ChargeValue c) as [[]|]; discriminate.
Qed.

Lemma service_name_returns (products : list (string * string)) (name : option string) :
  (exists s, DHL.service_name products name = Ok s)
  <-> products = [] \/ name <> None.
Proof.
  split.
  - intros [s Hs]. destruct products as [|[p v] rest]; [left; reflexivity |].
    right. intros ->. discriminate.
  - intros [-> | Hname]; [eexists; reflexivity |].
    destruct name as [n|]; [| congruence]. clear Hname.
    induction products as [|[p v] rest IH]; [eexists; reflexivity |].
    cbn [DHL.service_name py_in bind].
    destruct (contains v n); [eexists; reflexivity | exact IH].
Qed.

Lemma Forall_or_Exists_name (cs : list DHL.QtdShpExChrgType) :
  Forall (fun c => DHL.LocalServiceTypeName c <> None) cs
  \/ Exists (fun c => DHL.LocalServiceTypeName c = None) cs.
Proof.
  induction cs as [|c cs [IH | IH]].
  - left. constructor.
  - destruct (DHL.LocalServiceTypeName c) eqn:Hc.
    + left. constructor; [congruence | exact IH].
    + right. left. exact Hc.
  - right. right. exact IH.
Qed.

(** X11.  What the quote parser of DHL accepts.  A quote record with a
    charge is extracted if and only if each of its extra charges has a
    name, it holds a delivery date, its delivery date and its pricing
    date are read by [to_date], and its product name is present (or no
    product is known); a record without a charge is always passed
    over. *)
Theorem X11_dhl_quote_accepted
    (QtdShp_build : Element -> DHL.ResponseQtdShpType) (date : Type)
    (to_date : option string -> option string -> result (option date))
    (days_between : date -> date -> Z) (Product : list (string * string))
    (node : Element) (settings : Settings) :
  let qtdshp := QtdShp_build node in
  let extract :=
    DHL._extract_quote QtdShp_build date to_date days_between Product node settings in
  (DHL.no_charge (DHL.ShippingCharge qtdshp) = true -> extract = Ok None)
  /\ (DHL.no_charge (DHL.ShippingCharge qtdshp) = false ->
      ((exists rate, extract = Ok (Some rate))
       <-> Forall (fun c => DHL.LocalServiceTypeName c <> None) (DHL.QtdShpExChrg qtdshp)
           /\ (exists first rest delivery pricing,
                  DHL.DeliveryDate qtdshp = first :: rest
                  /\ to_date (DHL.DlvyDateTime first) (Some "%Y-%m-%d %H:%M:%S"%string)
                     = Ok delivery
                  /\ to_date (DHL.PricingDate qtdshp) None = Ok pricing)
           /\ (Product = [] \/ DHL.LocalProductName qtdshp <> None))
      /\ (extract = Ok None -> False)).
Proof.
  cbn zeta. unfold DHL._extract_quote.
  destruct (DHL.no_charge (DHL.ShippingCharge (QtdShp_build node))) eqn:Hcharge.
  - split; [reflexivity | discriminate].
  - split; [discriminate |]. intros _. cbn zeta. unfold DHL.sum_matching.
    split; [| intros H; step_bind H; discriminate].
    destruct (Forall_or_Exists_name (DHL.QtdShpExChrg (QtdShp_build node)))
      as [Hnamed | Hunnamed].
    + rewrite !(sum_matching_named _ _ Hnamed). cbn [bind].
      split.
      * intros [rate H]. split; [exact Hnamed |].
        destruct (DHL.DeliveryDate (QtdShp_build node)) as [|first rest];
          cbn [bind] in H; [discriminate |].
        destruct (to_date (DHL.DlvyDateTime first) _) as [delivery|] eqn:Hd;
          cbn [bind] in H; [| discriminate].
        destruct (to_date (DHL.PricingDate (QtdShp_build node)) None)
          as [pricing|] eqn:Hp; cbn [bind] in H; [| discriminate].
        split; [exists first, rest, delivery, pricing; auto |].
        apply service_name_returns.
        destruct (DHL.service_name Product _) as [s|]; [eauto | discriminate].
      * intros (_ & (first & rest & delivery & pricing & Hdd & Hd & Hp) & Hs).
        apply service_name_returns in Hs as [s Hs].
        rewrite Hdd. cbn [bind]. rewrite Hd. cbn [bind]. rewrite Hp. cbn [bind].
        rewrite Hs. cbn [bind]. eauto.
    + rewrite (sum_matching_unnamed _ _ Hunnamed). cbn [bind].
      split; [intros [rate H]; discriminate |].
      intros [Hnamed _]. exfalso.
      apply Exists_exists in Hunnamed as (c & Hc & Hnone).
      rewrite Forall_forall in Hnamed. exact (Hnamed c Hc Hnone).
Qed.

(** X12.  What a rate of DHL holds.  The extra charges of an extracted
    rate are all the extra charges of the record, in their order, under
    their names, with their rounded values and the currency of the
    quote; the discount is the rounded sum of the amounts of the charges
    whose name holds ["Discount"], and the duties and taxes the rounded
    sum of those whose name holds ["TAXES PAID"], a charge without a
    value counting for zero. *)
Theorem X12_dhl_rate_charges
    (QtdShp_build : Element -> DHL.ResponseQtdShpType) (date : Type)
    (to_date : option string -> option string -> result (option date))
    (days_between : date -> date -> Z) (Product : list (string * string))
    (node : Element) (settings : Settings) (rate : RateDetails.t) :
  DHL._extract_quote QtdShp_build date to_date days_between Product node settings
  = Ok (Some rate) ->
  let qtdshp := QtdShp_build node in
  let charges := DHL.QtdShpExChrg qtdshp in
  map ChargeDetails.name (RateDetails.extra_charges rate)
  = map DHL.LocalServiceTypeName charges
  /\ map ChargeDetails.amount (RateDetails.extra_charges rate)
     = map (fun c => decimal (DHL.ChargeValue c)) charges
  /\ Forall (fun c => ChargeDetails.currency c = DHL.CurrencyCode qtdshp)
            (RateDetails.extra_charges rate)
  /\ RateDetails.currency rate = DHL.CurrencyCode qtdshp
  /\ RateDetails.discount rate
     = Some (PyFloat.round2
               (float_sum (map summed_amount
                               (List.filter (named_with "Discount") charges))))
  /\ RateDetails.duties_and_taxes rate
     = Some (PyFloat.round2
               (float_sum (map summed_amount
                               (List.filter (named_with "TAXES PAID") charges)))).
Proof.
  unfold DHL._extract_quote.
  destruct (DHL.no_charge (DHL.ShippingCharge (QtdShp_build node)));
    [discriminate |].
  cbn zeta. unfold DHL.sum_matching.
  destruct (Forall_or_Exists_name (DHL.QtdShpExChrg (QtdShp_build node)))
    as [Hnamed | Hunnamed];
    [| rewrite (sum_matching_unnamed _ _ Hunnamed); discriminate].
  rewrite !(sum_matching_named _ _ Hnamed). cbn [bind].
  intros H. step_bind H. injection H as <-.
  cbn [RateDetails.extra_charges RateDetails.currency RateDetails.discount
       RateDetails.duties_and_taxes decimal].
  rewrite !map_map. cbn [ChargeDetails.name ChargeDetails.amount].
  repeat split.
  apply Forall_forall. intros c Hc. apply list_elem_of_In in Hc.
  apply in_map_iff in Hc as (s & <- & _).
  reflexivity.
Qed.

(** ** Freight records of UPS *)

Lemma sum_amounts_valued (rs : list UPS.RateType) :
  Forall (fun r => UPS.Factor_Value r <> None) rs ->
  forall acc : float,
    reduceM (fun r c => py_add r (ChargeDetails.amount c))
            (map UPS.charge_of rs) (Some acc)
    = Ok (Some (fold_left PyFloat.add (map line_amount rs) acc)).
Proof.
  induction 1 as [|r rs Hr _ IH]; intros acc; [reflexivity |].
  cbn [map reduceM UPS.charge_of ChargeDetails.amount]. unfold line_amount at 1.
  destruct (UPS.Factor_Value r) as [v|]; [| congruence].
  cbn [decimal py_add bind fold_left]. apply IH.
Qed.

Lemma sum_amounts_unvalued (rs : list UPS.RateType) :
  Exists (fun r => UPS.Factor_Value r = None) rs ->
  forall acc : float,
    reduceM (fun r c => py_add r (ChargeDetails.amount c))
            (map UPS.charge_of rs) (Some acc)
    = Raise TypeError.
Proof.
  induction rs as [|r rs IH]; intros Hex acc; [inversion Hex |].
  cbn [map reduceM UPS.charge_of ChargeDetails.amount].
  destruct (UPS.Factor_Value r) as [v|] eqn:Hv; [| reflexivity].
  cbn [decimal py_add bind]. apply IH.
  inversion Hex; subst; [congruence | assumption].
Qed.

Lemma Forall_or_Exists_value (rs : list UPS.RateType) :
  Forall (fun r => UPS.Factor_Value r <> None) rs
  \/ Exists (fun r => UPS.Factor_Value r = None) rs.
Proof.
  induction rs as [|r rs [IH | IH]].
  - left. constructor.
  - destruct (UPS.Factor_Value r) eqn:Hr.
    + left. constructor; [congruence | exact IH].
    + right. left. exact Hr.
  - right. right. exact IH.
Qed.

(** A rate line is a discount or a surcharge exactly when it is
    reported, and never both. *)
Lemma reported_split (r : UPS.RateType) :
  reported r = UPS.code_is "DSCNT" r || UPS.is_surcharge r
  /\ (UPS.code_is "DSCNT" r = true -> UPS.is_surcharge r = false).
Proof.
  unfold reported, UPS.is_surcharge, UPS.code_is.
  destruct (UPS.Type_Code r) as [c|]; [| split; [reflexivity | discriminate]].
  destruct (String.eqb c "DSCNT") eqn:H1; cbn [orb negb].
  - apply String.eqb_eq in H1 as ->. split; reflexivity.
  - split; [reflexivity | discriminate].
Qed.

Lemma filter_split_Permutation {A : Type} (p q : A -> bool) (l : list A) :
  (forall x, p x = true -> q x = false) ->
  Permutation (List.filter p l ++ List.filter q l)
              (List.filter (fun x => p x || q x) l).
Proof.
  intros Hpq. induction l as [|x l IH]; [reflexivity |].
  cbn [List.filter]. destruct (p x) eqn:Hp.
  - rewrite (Hpq x Hp). cbn [orb app]. apply perm_skip. exact IH.
  - cbn [orb]. destruct (q x); [| exact IH].
    rewrite <- Permutation_middle. apply perm_skip. exact IH.
Qed.

(** A freight record read through sub-objects that are present is
    extracted if and only if it holds a rate line coded [AFTR_DSCNT], a
    [CurrencyCode] node lies under it, and every rate line that is
    reported as an extra charge has a value. *)
Lemma flat_freight_rate_accepted
    (FreightRateResponse_build : Element -> UPS.FreightRateResponse)
    (detail_node : Element) (settings : Settings) :
  let detail := FreightRateResponse_build detail_node in
  (exists rate,
      UPS._extract_freight_rate FreightRateResponse_build detail_node settings
      = Ok rate)
  <-> Exists (fun r => UPS.code_is "AFTR_DSCNT" r = true) (UPS.Rate detail)
      /\ (exists c, below detail_node c /\ tag c = "CurrencyCode"%string)
      /\ Forall (fun r => reported r = true -> UPS.Factor_Value r <> None)
                (UPS.Rate detail).
Proof.
  cbn zeta. unfold UPS._extract_freight_rate. cbn zeta. unfold UPS.sum_amounts.
  set (rates := UPS.Rate (FreightRateResponse_build detail_node)).
  assert (Hafter : (exists r rs, List.filter (UPS.code_is "AFTR_DSCNT") rates = r :: rs)
                   <-> Exists (fun r => UPS.code_is "AFTR_DSCNT" r = true) rates).
  { rewrite Exists_exists. split.
    - intros (r & rs & Hf). exists r.
      assert (Hin : In r (List.filter (UPS.code_is "AFTR_DSCNT") rates))
        by (rewrite Hf; left; reflexivity).
      apply filter_In in Hin as [Hin Hc]. apply list_elem_of_In in Hin. auto.
    - intros (r & Hin & Hc).
      assert (Hf : In r (List.filter (UPS.code_is "AFTR_DSCNT") rates))
        by (apply filter_In; split; [apply list_elem_of_In |]; assumption).
      destruct (List.filter (UPS.code_is "AFTR_DSCNT") rates) as [|r' rs];
        [destruct Hf | eauto]. }
  assert (Hcur : (exists c cs, xpath detail_node "CurrencyCode" = c :: cs)
                 <-> exists c, below detail_node c /\ tag c = "CurrencyCode"%string).
  { split.
    - intros (c & cs & Hx). exists c. apply xpath_below. rewrite Hx. left.
    - intros (c & Hc). apply xpath_below in Hc.
      destruct (xpath detail_node "CurrencyCode") as [|c' cs]; [| eauto].
      apply elem_of_nil in Hc. destruct Hc. }
  assert (Hval : Forall (fun r => reported r = true -> UPS.Factor_Value r <> None) rates
                 <-> Forall (fun r => UPS.Factor_Value r <> None)
                            (List.filter UPS.is_surcharge rates)
                     /\ Forall (fun r => UPS.Factor_Value r <> None)
                               (List.filter (UPS.code_is "DSCNT") rates)).
  { rewrite !Forall_forall. split.
    - intros H. split; intros r Hr; apply list_elem_of_In, filter_In in Hr as [Hin Hc];
        apply list_elem_of_In in Hin; apply (H r Hin);
        rewrite (proj1 (reported_split r)), Hc; [apply orb_true_r | reflexivity].
    - intros [Hs Hd] r Hin Hrep. rewrite (proj1 (reported_split r)) in Hrep.
      apply list_elem_of_In in Hin.
      apply orb_true_iff in Hrep as [Hc | Hc]; [apply Hd | apply Hs];
        apply list_elem_of_In, filter_In; auto. }
  rewrite <- Hafter, <- Hcur, Hval. clear Hafter Hcur Hval.
  destruct (List.filter (UPS.code_is "AFTR_DSCNT") rates) as [|total rs];
    cbn [bind].
  { split; [intros [rate H]; discriminate | intros [(r & rs & H) _]; discriminate]. }
  destruct (xpath detail_node "CurrencyCode") as [|c cs]; cbn [bind].
  { split; [intros [rate H]; discriminate | intros (_ & (c & cs & H) & _); discriminate]. }
  destruct (Forall_or_Exists_value (List.filter UPS.is_surcharge rates)) as [Hs | Hs].
  - rewrite (sum_amounts_valued _ Hs). cbn [bind].
    destruct (Forall_or_Exists_value (List.filter (UPS.code_is "DSCNT") rates))
      as [Hd | Hd].
    + rewrite (sum_amounts_valued _ Hd). cbn [bind]. split; eauto 10.
    + rewrite (sum_amounts_unvalued _ Hd). cbn [bind].
      split; [intros [rate H]; discriminate |].
      intros (_ & _ & _ & Hall). exfalso.
      apply Exists_exists in Hd as (r & Hr & Hnone).
      rewrite Forall_forall in Hall. exact (Hall r Hr Hnone).
  - rewrite (sum_amounts_unvalued _ Hs). cbn [bind].
    split; [intros [rate H]; discriminate |].
    intros (_ & _ & Hall & _). exfalso.
    apply Exists_exists in Hs as (r & Hr & Hnone).
    rewrite Forall_forall in Hall. exact (Hall r Hr Hnone).
Qed.

(** X14.  What a freight rate of UPS holds.  The extra charges of an
    extracted rate are the rate lines of the record other than the
    charge after discount, the discount rate and the gross charge, the
    discounts before the others, none left out and none twice; each has
    an amount; the discount is the rounded sum of the amounts of the
    lines coded [DSCNT], and the duties and taxes the rounded sum of the
    amounts of all the other reported lines. *)
Theorem X14_ups_freight_rate_charges
    (FreightRateResponse_build : Element -> UPS.FreightRateResponse)
    (detail_node : Element) (settings : Settings) (rate : RateDetails.t) :
  UPS._extract_freight_rate FreightRateResponse_build detail_node settings
  = Ok rate ->
  let lines := UPS.Rate (FreightRateResponse_build detail_node) in
  Permutation (RateDetails.extra_charges rate)
              (map UPS.charge_of (List.filter reported lines))
  /\ Forall (fun c => ChargeDetails.amount c <> None) (RateDetails.extra_charges rate)
  /\ RateDetails.discount rate
     = Some (PyFloat.round2
               (float_sum (map line_amount
                               (List.filter (UPS.code_is "DSCNT") lines))))
  /\ RateDetails.duties_and_taxes rate
     = Some (PyFloat.round2
               (float_sum (map line_amount (List.filter UPS.is_surcharge lines)))).
Proof.
  unfold UPS._extract_freight_rate. cbn zeta. unfold UPS.sum_amounts.
  set (lines := UPS.Rate (FreightRateResponse_build detail_node)).
  intros H.
  destruct (List.filter (UPS.code_is "AFTR_DSCNT") lines) as [|total rs];
    cbn [bind] in H; [discriminate |].
  destruct (xpath detail_node "CurrencyCode") as [|c cs]; cbn [bind] in H;
    [discriminate |].
  destruct (Forall_or_Exists_value (List.filter UPS.is_surcharge lines)) as [Hs | Hs];
    [| rewrite (sum_amounts_unvalued _ Hs) in H; discriminate].
  rewrite (sum_amounts_valued _ Hs) in H. cbn [bind] in H.
  destruct (Forall_or_Exists_value (List.filter (UPS.code_is "DSCNT") lines))
    as [Hd | Hd];
    [| rewrite (sum_amounts_unvalued _ Hd) in H; discriminate].
  rewrite (sum_amounts_valued _ Hd) in H. cbn [bind] in H.
  injection H as <-.
  cbn [RateDetails.extra_charges RateDetails.discount RateDetails.duties_and_taxes
       decimal].
  repeat split.
  - rewrite <- map_app. apply Permutation_map.
    rewrite (filter_ext reported (fun r => UPS.code_is "DSCNT" r || UPS.is_surcharge r))
      by (intros r; apply reported_split).
    apply filter_split_Permutation. intros r. apply reported_split.
  - apply Forall_app. split; apply Forall_forall; intros ch Hch;
      apply list_elem_of_In, in_map_iff in Hch as (r & <- & Hr);
      apply list_elem_of_In in Hr;
      [rewrite Forall_forall in Hd; specialize (Hd r Hr)
      | rewrite Forall_forall in Hs; specialize (Hs r Hr)];
      cbn [UPS.charge_of ChargeDetails.amount];
      destruct (UPS.Factor_Value r); [discriminate | congruence | discriminate | congruence].
Qed.

(** ** All the records, or none *)

(** A list comprehension raises the exception of its first element that
    raises. *)
Lemma mapM_Raise {A B : Type} (f : A -> result B) (l : list A) (e : exn) :
  mapM f l = Raise e
  <-> exists before x after,
        l = before ++ x :: after
        /\ Forall (fun y => exists v, f y = Ok v) before
        /\ f x = Raise e.
Proof.
  induction l as [|y l IH].
  - split; [discriminate |]. intros (before & x & after & Hl & _).
    destruct before; discriminate.
  - cbn [mapM]. destruct (f y) as [v|e'] eqn:Hy; cbn [bind].
    + assert (Hstep : (let* ys := mapM f l in Ok (v :: ys)) = Raise e
                      <-> mapM f l = Raise e).
      { destruct (mapM f l); cbn [bind]; split; congruence. }
      rewrite Hstep, IH. split.
      * intros (before & x & after & -> & Hb & Hx).
        exists (y :: before), x, after. repeat split; [| exact Hx].
        constructor; [eauto | exact Hb].
      * intros (before & x & after & Hl & Hb & Hx).
        destruct before as [|z before]; cbn in Hl; injection Hl as -> ->;
          [congruence |].
        apply Forall_cons in Hb as [_ Hb]. exists before, x, after. auto.
    + split.
      * intros [= ->]. exists [], y, l. repeat split; [constructor | exact Hy].
      * intros (before & x & after & Hl & Hb & Hx).
        destruct before as [|z before]; cbn in Hl; injection Hl as -> ->.
        -- congruence.
        -- apply Forall_cons in Hb as [[v Hv] _]. congruence.
Qed.

(** X15.  The rate parsers return all the records or nothing.  The
    quote parser of DHL and the freight-rate parser of UPS return if and
    only if every record of the response is extracted; otherwise they
    raise the exception of the first record, in document order, that
    fails, and neither the rates of the other records nor the messages
    of the response are returned. *)
Theorem X15_rate_parsers_all_or_nothing :
  (forall QtdShp_build date to_date days_between Product parse_error_response
          response settings,
      let extract :=
        fun node => DHL._extract_quote QtdShp_build date to_date days_between
                                       Product node settings in
      let parse :=
        DHL.parse_dct_response QtdShp_build date to_date days_between Product
                               parse_error_response response settings in
      ((exists r, parse = Ok r)
       <-> forall node, node ∈ xpath response "QtdShp" -> exists q, extract node = Ok q)
      /\ forall e,
          parse = Raise e
          <-> exists before node after,
                xpath response "QtdShp" = before ++ node :: after
                /\ Forall (fun n => exists q, extract n = Ok q) before
                /\ extract node = Raise e)
  /\ (forall FreightRateResponse_build parse_error_response response settings,
         let extract :=
           fun node => UPS._extract_freight_rate FreightRateResponse_build
                                                 node settings in
         let parse :=
           UPS.parse_freight_rate_response FreightRateResponse_build
                                           parse_error_response response settings in
         ((exists r, parse = Ok r)
          <-> forall node, node ∈ xpath response "FreightRateResponse" ->
                           exists q, extract node = Ok q)
         /\ forall e,
             parse = Raise e
             <-> exists before node after,
                   xpath response "FreightRateResponse" = before ++ node :: after
                   /\ Forall (fun n => exists q, extract n = Ok q) before
                   /\ extract node = Raise e).
Proof.
  split.
  - intros. unfold parse, DHL.parse_dct_response. fold extract. split.
    + split.
      * intros [r Hr]. destruct (mapM extract _) as [qs|e] eqn:Hm; [| discriminate].
        apply mapM_Forall2 in Hm. intros node Hn.
        destruct (Forall2_elem_of_l _ _ _ _ Hm Hn) as (q & _ & Hq). eauto.
      * intros Hall. destruct (mapM_total extract _ Hall) as [qs ->]. cbn [bind]. eauto.
    + intros e. rewrite <- mapM_Raise.
      destruct (mapM extract _) as [qs|e']; cbn [bind]; split; congruence.
  - intros. unfold parse, UPS.parse_freight_rate_response. fold extract. split.
    + split.
      * intros [r Hr]. destruct (mapM extract _) as [qs|e] eqn:Hm; [| discriminate].
        apply mapM_Forall2 in Hm. intros node Hn.
        destruct (Forall2_elem_of_l _ _ _ _ Hm Hn) as (q & _ & Hq). eauto.
      * intros Hall. destruct (mapM_total extract _ Hall) as [qs ->]. cbn [bind]. eauto.
    + intros e. rewrite <- mapM_Raise.
      destruct (mapM extract _) as [qs|e']; cbn [bind]; split; congruence.
Qed.

(** ** Sample records *)

Lemma X11_dhl_quote_accepted_witness :
  exists rate, dhl_extract a_QtdShp_node_with_charges = Ok (Some rate).
Proof.
  destruct (X11_dhl_quote_accepted spec_QtdShp_build unit spec_to_date
              spec_days_between [("dhl_express_worldwide", "EXPRESS WORLDWIDE")]%string
              a_QtdShp_node_with_charges a_settings) as [_ Hcharged].
  destruct (Hcharged ltac:(vm_compute; reflexivity)) as [Hiff _].
  apply Hiff. split; [| split].
  - vm_compute. repeat constructor; discriminate.
  - eexists _, _, _, _. repeat split; vm_compute; reflexivity.
  - right. vm_compute. discriminate.
Defined.

Lemma X12_dhl_rate_charges_witness :
  exists rate,
    dhl_extract a_QtdShp_node_with_charges = Ok (Some rate)
    /\ map ChargeDetails.name (RateDetails.extra_charges rate)
       = [Some "FUEL SURCHARGE"; Some "Promo Discount"]%string
    /\ RateDetails.discount rate = Some (PyFloat.of_ratio 125 100)
    /\ RateDetails.duties_and_taxes rate = Some (PyFloat.of_Z 0).
Proof.
  destruct (dhl_extract a_QtdShp_node_with_charges) as [[rate|]|] eqn:Hrate;
    try (vm_compute in Hrate; discriminate).
  exists rate. split; [reflexivity |].
  destruct (X12_dhl_rate_charges spec_QtdShp_build unit spec_to_date
              spec_days_between [("dhl_express_worldwide", "EXPRESS WORLDWIDE")]%string
              a_QtdShp_node_with_charges a_settings rate Hrate)
    as (Hnames & _ & _ & _ & Hdiscount & Hduties).
  rewrite Hnames, Hdiscount, Hduties. vm_compute. repeat split.
Defined.

Lemma X14_ups_freight_rate_charges_witness :
  exists rate,
    ups_extract a_freight_node_with_lines = Ok rate
    /\ map ChargeDetails.name (RateDetails.extra_charges rate)
       = [Some "DSCNT"; Some "2"]%string
    /\ RateDetails.discount rate = Some (PyFloat.of_Z 5)
    /\ RateDetails.duties_and_taxes rate = Some (PyFloat.of_Z 3).
Proof.
  destruct (ups_extract a_freight_node_with_lines) as [rate|] eqn:Hrate;
    [| vm_compute in Hrate; discriminate].
  exists rate. split; [reflexivity |].
  destruct (X14_ups_freight_rate_charges spec_FreightRateResponse_build
              a_freight_node_with_lines a_settings rate Hrate)
    as (_ & _ & Hdiscount & Hduties).
  rewrite Hdiscount, Hduties. vm_compute in Hrate. injection Hrate as <-.
  vm_compute. repeat split.
Defined.

(** ** Options *)

Lemma is_member_Code (name : string) :
  Enum_is_member Options.Code name = true ->
  name ∈ ["cash_on_delivery"; "currency"; "insurance"; "notification";
          "printing"]%string.
Proof.
  unfold Enum_is_member, Options.Code. cbn [existsb fst].
  rewrite !orb_true_iff, !String.eqb_eq.
  intros H. repeat (destruct H as [<- | H]; [set_solver |]). discriminate.
Qed.

Lemma dict_get_keys (d : pydict) (k : string) :
  dict_get d k <> None <-> k ∈ dict_keys d.
Proof.
  induction d as [|[k' v] d IH]; cbn [dict_get dict_keys map fst].
  - split; [congruence | intros H; apply elem_of_nil in H; destruct H].
  - rewrite elem_of_cons. destruct (String.eqb k' k) eqn:Hk.
    + apply String.eqb_eq in Hk as ->. split; [auto | discriminate].
    + apply String.eqb_neq in Hk. rewrite IH. unfold dict_keys.
      split; [auto | intros [-> | H]; [congruence | exact H]].
Qed.

Lemma has_content_spec (payload : pydict) :
  Options.has_content (Options.Build payload) = true
  <-> exists name, Enum_is_member Options.Code name = true
                   /\ dict_get payload name <> None.
Proof.
  unfold Options.has_content. cbn [Options._payload].
  rewrite existsb_exists. split.
  - intros (o & Ho & _). apply filter_In in Ho as [Hin Hm].
    exists o. split; [exact Hm |]. apply dict_get_keys, list_elem_of_In. exact Hin.
  - intros (name & Hm & Hget). exists name. split.
    + apply filter_In. split; [| exact Hm].
      apply list_elem_of_In, dict_get_keys. exact Hget.
    + apply is_member_Code in Hm.
      repeat (apply elem_of_cons in Hm as [-> | Hm]; [reflexivity |]).
      apply elem_of_nil in Hm. destruct Hm.
Qed.

(** X16.  [Options.has_content] holds exactly when the payload has one
    of the keys [cash_on_delivery], [currency], [insurance],
    [notification] and [printing]; without content every typed accessor
    returns null, and none raises. *)
Theorem X16_options_content (COD Insurance Notification : Type)
    (COD_init : pydict -> result COD) (Insurance_init : pydict -> result Insurance)
    (Notification_init : pydict -> result Notification) (payload : pydict) :
  let options := Options.Build payload in
  (Options.has_content options = true
   <-> exists name,
         name ∈ ["cash_on_delivery"; "currency"; "insurance"; "notification";
                 "printing"]%string
         /\ name ∈ dict_keys payload)
  /\ (Options.has_content options = false ->
      Options.cash_on_delivery COD COD_init options = Ok None
      /\ Options.currency options = None
      /\ Options.insurance Insurance Insurance_init options = Ok None
      /\ Options.notification Notification Notification_init options = Ok None
      /\ Options.printing options = None).
Proof.
  cbn zeta. split.
  - rewrite has_content_spec. split.
    + intros (name & Hm & Hget). exists name.
      split; [apply is_member_Code; exact Hm | apply dict_get_keys; exact Hget].
    + intros (name & Hm & Hk). exists name. split; [| apply dict_get_keys; exact Hk].
      repeat (apply elem_of_cons in Hm as [-> | Hm]; [reflexivity |]).
      apply elem_of_nil in Hm. destruct Hm.
  - intros Hnone.
    assert (Hget : forall name, Enum_is_member Options.Code name = true ->
                                dict_get payload name = None).
    { intros name Hm. destruct (dict_get payload name) eqn:Hg; [| reflexivity].
      exfalso. assert (Ht : Options.has_content (Options.Build payload) = true).
      { apply has_content_spec. exists name. split; [exact Hm | congruence]. }
      congruence. }
    unfold Options.cash_on_delivery, Options.insurance, Options.notification,
      Options.currency, Options.printing, Options.model_of.
    cbn [Options._payload].
    rewrite !Hget by reflexivity. repeat split.
Qed.

Lemma X16_options_content_witness :
  Options.has_content (Options.Build an_options_payload) = true.
Proof.
  apply (X16_options_content pydict pydict pydict spec_model_init spec_model_init
           spec_model_init an_options_payload).
  exists "insurance"%string. split; set_solver.
Defined.

(** X17.  The options depend on the five recognized keys only: two
    payloads that agree on these keys have the same content flag and
    the same typed accessors, so that a key that is not recognized is
    inert. *)
Theorem X17_options_unrecognized_keys_are_inert
    (COD Insurance Notification : Type)
    (COD_init : pydict -> result COD) (Insurance_init : pydict -> result Insurance)
    (Notification_init : pydict -> result Notification) (payload payload' : pydict) :
  (forall name,
      name ∈ ["cash_on_delivery"; "currency"; "insurance"; "notification";
              "printing"]%string ->
      dict_get payload name = dict_get payload' name) ->
  let options := Options.Build payload in
  let options' := Options.Build payload' in
  Options.has_content options = Options.has_content options'
  /\ Options.cash_on_delivery COD COD_init options
     = Options.cash_on_delivery COD COD_init options'
  /\ Options.currency options = Options.currency options'
  /\ Options.insurance Insurance Insurance_init options
     = Options.insurance Insurance Insurance_init options'
  /\ Options.notification Notification Notification_init options
     = Options.notification Notification Notification_init options'
  /\ Options.printing options = Options.printing options'.
Proof.
  intros Hagree. cbn zeta. split.
  - apply eq_true_iff_eq. rewrite !has_content_spec.
    split; intros (name & Hm & Hget); exists name; (split; [exact Hm |]);
      [rewrite <- Hagree | rewrite Hagree]; try exact Hget;
      apply is_member_Code; exact Hm.
  - unfold Options.cash_on_delivery, Options.insurance, Options.notification,
      Options.currency, Options.printing, Options.model_of.
    cbn [Options._payload].
    rewrite (Hagree "cash_on_delivery"%string), (Hagree "currency"%string),
      (Hagree "insurance"%string), (Hagree "notification"%string),
      (Hagree "printing"%string) by set_solver.
    repeat split.
Qed.

Lemma X17_options_unrecognized_keys_are_inert_witness :
  Options.insurance pydict spec_model_init (Options.Build an_options_payload)
  = Options.insurance pydict spec_model_init
      (Options.Build (("signature", VBool false) :: an_options_payload)%string).
Proof.
  apply (X17_options_unrecognized_keys_are_inert pydict pydict pydict
           spec_model_init spec_model_init spec_model_init
           an_options_payload (("signature", VBool false) :: an_options_payload)%string).
  intros name Hname.
  repeat (apply elem_of_cons in Hname as [-> | Hname]; [reflexivity |]).
  apply elem_of_nil in Hname. destruct Hname.
Defined.

(** ** Phone numbers *)

Lemma str_split_space_nonempty (s : string) : str_split_space s <> [].
Proof.
  destruct s as [|c s]; cbn [str_split_space]; [discriminate |].
  destruct (Ascii.eqb c " "); [discriminate |].
  destruct (str_split_space s); discriminate.
Qed.

Lemma str_join_space_cons (c : ascii) (piece : string) (pieces : list string) :
  str_join_space (String c piece :: pieces)
  = String c (str_join_space (piece :: pieces)).
Proof. destruct pieces; reflexivity. Qed.

Lemma str_join_split (s : string) : str_join_space (str_split_space s) = s.
Proof.
  induction s as [|c s IH]; [reflexivity |]. cbn [str_split_space].
  destruct (Ascii.eqb c " ") eqn:Hc.
  - apply Ascii.eqb_eq in Hc as ->.
    pose proof (str_split_space_nonempty s) as Hne.
    destruct (str_split_space s) as [|piece pieces]; [congruence |].
    cbn [str_join_space] in *. rewrite IH. reflexivity.
  - pose proof (str_split_space_nonempty s) as Hne.
    destruct (str_split_space s) as [|piece pieces]; [congruence |].
    rewrite str_join_space_cons, IH. reflexivity.
Qed.

Lemma str_split_space_length (s : string) :
  List.length (str_split_space s) = S (count_spaces s).
Proof.
  induction s as [|c s IH]; [reflexivity |]. cbn [str_split_space count_spaces].
  destruct (Ascii.eqb c " "); cbn [List.length]; [rewrite IH; reflexivity |].
  pose proof (str_split_space_nonempty s) as Hne.
  destruct (str_split_space s) as [|piece pieces]; [congruence |].
  cbn [List.length] in *. rewrite IH. reflexivity.
Qed.

Lemma str_split_space_no_space (s : string) : Forall no_space (str_split_space s).
Proof.
  induction s as [|c s IH]; [repeat constructor |]. cbn [str_split_space].
  destruct (Ascii.eqb c " ") eqn:Hc; [constructor; [reflexivity | exact IH] |].
  destruct (str_split_space s) as [|piece pieces].
  - repeat constructor. unfold no_space. cbn [count_spaces]. rewrite Hc. reflexivity.
  - apply Forall_cons in IH as [Hp Hps]. constructor; [| exact Hps].
    unfold no_space in *. cbn [count_spaces]. rewrite Hc, Hp. reflexivity.
Qed.

Lemma str_split_space_piece (piece : string) :
  no_space piece -> str_split_space piece = [piece].
Proof.
  unfold no_space. induction piece as [|c piece IH]; [reflexivity |].
  cbn [count_spaces str_split_space].
  destruct (Ascii.eqb c " "); [discriminate |]. intros H.
  rewrite (IH H). reflexivity.
Qed.

Lemma str_split_space_app (piece rest : string) :
  no_space piece ->
  str_split_space (piece +:+ String " " rest) = piece :: str_split_space rest.
Proof.
  unfold no_space. induction piece as [|c piece IH]; [reflexivity |].
  cbn [count_spaces]. destruct (Ascii.eqb c " ") eqn:Hc; [discriminate |].
  intros H. change (String c piece +:+ String " " rest)%string
    with (String c (piece +:+ String " " rest))%string.
  cbn [str_split_space]. rewrite Hc, (IH H). reflexivity.
Qed.

Lemma str_split_join (pieces : list string) :
  pieces <> [] -> Forall no_space pieces ->
  str_split_space (str_join_space pieces) = pieces.
Proof.
  induction pieces as [|piece pieces IH]; [congruence |]. intros _ Hall.
  apply Forall_cons in Hall as [Hp Hps].
  destruct pieces as [|next pieces].
  - apply str_split_space_piece. exact Hp.
  - change (str_join_space (piece :: next :: pieces))
      with (piece +:+ String " " (str_join_space (next :: pieces)))%string.
    rewrite (str_split_space_app _ _ Hp), IH by (assumption || discriminate).
    reflexivity.
Qed.

(** X18.  The parts of a phone number are the pieces between its
    spaces: joined with spaces they give the number back, they hold no
    space, and there is one more of them than there are spaces.  The
    country code of a number is therefore never null (it is empty for a
    number that starts with a space), the area code is null exactly when
    the number has no space, and the phone part exactly when it has at
    most one; without a number the three of them are null. *)
Theorem X18_phone_parts :
  (forall s : string,
      let self := Phone.__init__ (Some s) in
      str_join_space (Phone.parts self) = s
      /\ Forall no_space (Phone.parts self)
      /\ List.length (Phone.parts self) = S (count_spaces s)
      /\ Phone.country_code self <> None
      /\ (Phone.area_code self = None <-> count_spaces s = 0%nat)
      /\ (Phone.phone self = None <-> (count_spaces s <= 1)%nat))
  /\ Phone.country_code (Phone.__init__ None) = None
  /\ Phone.area_code (Phone.__init__ None) = None
  /\ Phone.phone (Phone.__init__ None) = None.
Proof.
  split; [| repeat split]. intros s self.
  pose proof (str_split_space_length s) as Hlen.
  unfold Phone.country_code, Phone.area_code, Phone.phone.
  cbn [self Phone.__init__ Phone.parts]. rewrite Hlen.
  split; [apply str_join_split |]. split; [apply str_split_space_no_space |].
  split; [reflexivity |].
  destruct (str_split_space s) as [|p0 [|p1 [|p2 rest]]]; cbn [List.length] in Hlen;
    try discriminate; injection Hlen as Hlen; rewrite <- Hlen;
    cbn; repeat split; intros; try discriminate; try lia; try reflexivity.
Qed.

(** X19.  A number written as pieces without spaces, joined by single
    spaces, is read back piece by piece: the country code is the first
    piece, the area code the second and the phone part the third (each
    null when there is no such piece). *)
Theorem X19_phone_reads_pieces (pieces : list string) :
  pieces <> [] -> Forall no_space pieces ->
  let self := Phone.__init__ (Some (str_join_space pieces)) in
  Phone.parts self = pieces
  /\ Phone.country_code self = pieces !! 0%nat
  /\ Phone.area_code self = pieces !! 1%nat
  /\ Phone.phone self = pieces !! 2%nat.
Proof.
  intros Hne Hall self.
  unfold Phone.country_code, Phone.area_code, Phone.phone.
  cbn [self Phone.__init__ Phone.parts].
  rewrite (str_split_join pieces Hne Hall).
  destruct pieces as [|p0 [|p1 [|p2 rest]]]; cbn; repeat split.
Qed.

Lemma X19_phone_reads_pieces_witness :
  let self := Phone.__init__ (Some "1 514 5555555"%string) in
  Phone.parts self = ["1"; "514"; "5555555"]%string
  /\ Phone.country_code self = Some "1"%string
  /\ Phone.area_code self = Some "514"%string
  /\ Phone.phone self = Some "5555555"%string.
Proof.
  apply (X19_phone_reads_pieces ["1"; "514"; "5555555"]%string).
  - discriminate.
  - repeat constructor.
Defined.

(** ** Pickups of DHL *)

(** X20.  The parser of a changed pickup of DHL.  Without a
    [ConfirmationNumber] node under the root it returns no pickup
    beside the messages of the error parser.  With such a node it
    raises [IndexError] when the binding of the response holds no
    confirmation number (the node lies deeper than the binding reads);
    and whenever it returns, the messages are those of the error
    parser, the pickup is null exactly when there is no such node, and
    a pickup carries the first confirmation number of the binding and a
    charge exactly when the response has one. *)
Theorem X20_dhl_modified_pickup
    (ModifyPUResponse_build : Element -> DHLPickup.ModifyPUResponse)
    (format_date : string -> result string)
    (format_time : option string -> result (option string))
    (parse_error_response : Element -> Settings -> list Message.t)
    (response : Element) (settings : Settings) :
  let parse :=
    DHLPickup.parse_modify_pickup_response ModifyPUResponse_build format_date
      format_time parse_error_response response settings in
  let confirmed := exists n, below response n /\ tag n = "ConfirmationNumber"%string in
  let binding := ModifyPUResponse_build response in
  (~ confirmed -> parse = Ok (None, parse_error_response response settings))
  /\ (confirmed -> DHLPickup.ConfirmationNumber binding = [] ->
      parse = Raise IndexError)
  /\ (forall pickup messages,
         parse = Ok (pickup, messages) ->
         messages = parse_error_response response settings
         /\ (pickup = None <-> ~ confirmed)
         /\ forall details,
             pickup = Some details ->
             (exists n rest,
                 DHLPickup.ConfirmationNumber binding = n :: rest
                 /\ PickupDetails.confirmation_number details = pretty n)
             /\ (PickupDetails.pickup_charge details = None
                 <-> DHLPickup.PickupCharge binding = None)).
Proof.
  cbn zeta. unfold DHLPickup.parse_modify_pickup_response.
  assert (Hx : (0 <? List.length (xpath response "ConfirmationNumber"))%nat = true
               <-> exists n, below response n /\ tag n = "ConfirmationNumber"%string).
  { split.
    - intros H. destruct (xpath response "ConfirmationNumber") as [|n ns] eqn:Hn;
        [discriminate |].
      exists n. apply xpath_below. rewrite Hn. left.
    - intros (n & Hn). apply xpath_below in Hn.
      destruct (xpath response "ConfirmationNumber"); [| reflexivity].
      apply elem_of_nil in Hn. destruct Hn. }
  destruct (0 <? List.length (xpath response "ConfirmationNumber"))%nat.
  - assert (Hc : exists n, below response n /\ tag n = "ConfirmationNumber"%string)
      by (apply Hx; reflexivity).
    split; [intros Hn; exfalso; exact (Hn Hc) |]. split.
    + intros _ Hnil. unfold DHLPickup._extract_pickup. cbn zeta.
      rewrite Hnil. reflexivity.
    + intros pickup messages H.
      destruct (DHLPickup._extract_pickup _ _ _ _ _) as [details|e] eqn:He;
        cbn [bind] in H; [| discriminate].
      injection H as <- <-. split; [reflexivity |].
      split; [split; [discriminate | intros Hn; exfalso; exact (Hn Hc)] |].
      intros d [= <-]. unfold DHLPickup._extract_pickup in He. cbn zeta in He.
      destruct (DHLPickup.ConfirmationNumber (ModifyPUResponse_build response))
        as [|n rest]; cbn [bind] in He; [discriminate |].
      step_bind He. injection He as <-. cbn [PickupDetails.confirmation_number
                                              PickupDetails.pickup_charge].
      split; [eauto |].
      destruct (DHLPickup.PickupCharge (ModifyPUResponse_build response));
        split; congruence.
  - assert (Hc : ~ exists n, below response n /\ tag n = "ConfirmationNumber"%string).
    { intros H. apply Hx in H. discriminate. }
    cbn [bind]. split; [reflexivity |].
    split; [intros H; exfalso; exact (Hc H) |].
    intros pickup messages [= <- <-]. split; [reflexivity |].
    split; [split; auto | discriminate].
Qed.

Lemma X20_dhl_modified_pickup_witness :
  dhl_parse_pickup a_nested_pickup_response = Raise IndexError.
Proof.
  destruct (X20_dhl_modified_pickup spec_ModifyPUResponse_build spec_format_date
              spec_format_time
              (spec_parse_error_response "Condition" "ConditionCode" "ConditionData")
              a_nested_pickup_response a_settings) as (_ & Hraise & _).
  apply Hraise; [| reflexivity].
  exists (leaf "ConfirmationNumber" "3674"). split; [| reflexivity].
  apply below_deeper with (Node "Note" None [leaf "ConfirmationNumber" "3674"]);
    [left | apply below_child; left].
Defined.

(** The sum of the weights of the parcels, each taken as pounds. *)
Lemma sum_from_weights (parcels : list Parcel.t) :
  forall acc : float,
    sum_from acc
      (map (fun parcel =>
              Weight.LB (Weight.Build (Parcel.weight parcel) (Some WeightUnit.LB)))
           parcels)
    = if forallb (fun parcel => bool_decide (Parcel.weight parcel <> None)) parcels
      then Ok (fold_left PyFloat.add
                 (omap (fun parcel => decimal (Parcel.weight parcel)) parcels) acc)
      else Raise TypeError.
Proof.
  induction parcels as [|parcel parcels IH]; intros acc; [reflexivity |].
  cbn [map sum_from forallb]. unfold Weight.LB at 1.
  cbn [Weight._unit Weight._value].
  destruct (Parcel.weight parcel) as [w|] eqn:Hw.
  - cbn [decimal]. rewrite IH. rewrite bool_decide_eq_true_2 by discriminate.
    cbn [andb]. destruct (forallb _ parcels); [| reflexivity].
    cbn [omap list_omap]. rewrite Hw. reflexivity.
  - rewrite bool_decide_eq_false_2 by congruence. reflexivity.
Qed.

(** X21.  The request to change a pickup of DHL.  It is built if and
    only if every parcel has a weight and the country code of the
    address is absent, empty or a member of [CountryRegion]; a parcel
    without a weight makes it raise [TypeError], and otherwise an
    unknown country code [KeyError].  In the request the weight is the
    sum of the rounded weights of the parcels taken as pounds, whatever
    the weight units of the parcels are, the number of pieces is the
    number of parcels, and the region is ["AM"] when there is no
    country code. *)
Theorem X21_dhl_modify_pickup_request
    (Request_ : Type) (settings_Request : Request_) (account_number : option string)
    (CountryRegion : list (string * string)) (DHLWeightUnit_LB : string)
    (payload : PickupUpdateRequest.t) :
  let build :=
    DHLPickup.modify_pickup_request Request_ settings_Request account_number
      CountryRegion DHLWeightUnit_LB payload in
  let parcels := PickupUpdateRequest.parcels payload in
  let country := Address.country_code (PickupUpdateRequest.address payload) in
  let weighed := Forall (fun parcel => Parcel.weight parcel <> None) parcels in
  let region_of (region : string) :=
    if truthy_str country then Enum_getitem CountryRegion country = Ok region
    else region = "AM"%string in
  (~ weighed -> build = Raise TypeError)
  /\ (weighed -> (forall region, ~ region_of region) -> build = Raise KeyError)
  /\ (forall request,
         build = Ok request ->
         weighed
         /\ region_of (DHLPickup.RegionCode Request_ request)
         /\ DHLPickup.Weight_
              (DHLPickup.weight (DHLPickup.request_Pickup Request_ request))
            = float_sum (omap (fun parcel => decimal (Parcel.weight parcel)) parcels)
         /\ DHLPickup.Pieces (DHLPickup.request_Pickup Request_ request)
            = List.length parcels)
  /\ (weighed -> forall region, region_of region -> exists request, build = Ok request).
Proof.
  cbn zeta. unfold DHLPickup.modify_pickup_request. cbn zeta.
  cbn [fst snd WeightUnit_getitem bind]. unfold py_sum.
  rewrite sum_from_weights.
  assert (Hw : forallb (fun parcel => bool_decide (Parcel.weight parcel <> None))
                       (PickupUpdateRequest.parcels payload) = true
               <-> Forall (fun parcel => Parcel.weight parcel <> None)
                          (PickupUpdateRequest.parcels payload)).
  { rewrite forallb_forall, Forall_forall. split; intros H p Hp.
    - apply list_elem_of_In in Hp. specialize (H p Hp).
      apply bool_decide_eq_true in H. exact H.
    - apply bool_decide_eq_true. apply H, list_elem_of_In. exact Hp. }
  destruct (forallb _ (PickupUpdateRequest.parcels payload)).
  - assert (Hall : Forall (fun parcel => Parcel.weight parcel <> None)
                          (PickupUpdateRequest.parcels payload))
      by (apply Hw; reflexivity).
    cbn [bind].
    destruct (truthy_str (Address.country_code (PickupUpdateRequest.address payload))).
    + destruct (Enum_getitem CountryRegion _) as [region|e] eqn:Hr; cbn [bind].
      * split; [intros Hn; exfalso; exact (Hn Hall) |].
        split; [intros _ Hnone; exfalso; exact (Hnone region eq_refl) |].
        split; [| eauto].
        intros request [= <-]. repeat split; assumption.
      * assert (He : e = KeyError).
        { clear -Hr. revert Hr.
          generalize (Address.country_code (PickupUpdateRequest.address payload)).
          intros name. induction CountryRegion as [|[n v] members IH]; cbn.
          - destruct name; intros [= <-]; reflexivity.
          - destruct name as [s|]; [| intros [= <-]; reflexivity].
            destruct (String.eqb n s); [discriminate | exact IH]. }
        subst e.
        split; [intros Hn; exfalso; exact (Hn Hall) |].
        split; [reflexivity |].
        split; [discriminate |].
        intros _ region Hregion. discriminate.
    + cbn [bind].
      split; [intros Hn; exfalso; exact (Hn Hall) |].
      split; [intros _ Hnone; exfalso; exact (Hnone "AM"%string eq_refl) |].
      split; [| eauto].
      intros request [= <-]. repeat split; assumption.
  - assert (Hnot : ~ Forall (fun parcel => Parcel.weight parcel <> None)
                            (PickupUpdateRequest.parcels payload)).
    { intros H. apply Hw in H. discriminate. }
    cbn [bind].
    split; [reflexivity |].
    split; [intros H; exfalso; exact (Hnot H) |].
    split; [discriminate |].
    intros H. exfalso. exact (Hnot H).
Qed.

Lemma X21_dhl_modify_pickup_request_witness :
  exists request,
    dhl_modify_pickup_request (a_pickup_update (Some "CA"%string)) = Ok request
    /\ DHLPickup.Weight_ (DHLPickup.weight (DHLPickup.request_Pickup unit request))
       = PyFloat.of_ratio 35 10.
Proof.
  destruct (X21_dhl_modify_pickup_request unit tt None
              [("CA", "AM"); ("FR", "EU")]%string "L"
              (a_pickup_update (Some "CA"%string))) as (_ & _ & Hok & Hbuilt).
  destruct (Hbuilt ltac:(repeat constructor; discriminate) "AM"%string eq_refl)
    as [request Hrequest].
  exists request. split; [exact Hrequest |].
  destruct (Hok request Hrequest) as (_ & _ & Hweight & _).
  rewrite Hweight. vm_compute. reflexivity.
Defined.

(** ** Replacing in a text *)

Lemma prefix_app (old s : string) :
  String.prefix old s = true -> s = (old +:+ str_drop (String.length old) s)%string.
Proof.
  revert s. induction old as [|c old IH]; intros s; [reflexivity |].
  destruct s as [|c' s]; cbn [String.prefix]; [discriminate |].
  destruct (Ascii.ascii_dec c c') as [<- | Hne]; [| discriminate].
  intros H. cbn [String.length str_drop].
  change (String c s = String c (old +:+ str_drop (String.length old) s)%string).
  f_equal. apply IH. exact H.
Qed.

Lemma replace_from_same (old : string) :
  old <> EmptyString ->
  forall (s : string) (k : nat), replace_from old old k s = str_drop k s.
Proof.
  intros Hold. induction s as [|c s IH]; intros k; cbn [replace_from].
  - destruct k; reflexivity.
  - destruct k as [|k]; [| apply IH].
    cbn [str_drop]. destruct (String.prefix old (String c s)) eqn:Hp.
    + rewrite IH. destruct old as [|c' old]; [congruence |].
      cbn [String.prefix] in Hp.
      destruct (Ascii.ascii_dec c' c) as [-> | Hne]; [| discriminate].
      replace (String.length (String c old) - 1)%nat with (String.length old)
        by (cbn [String.length]; lia).
      change (String c (old +:+ str_drop (String.length old) s)%string = String c s).
      f_equal. symmetry. apply prefix_app. exact Hp.
    + rewrite IH. reflexivity.
Qed.

Lemma contains_cons_false (old : string) (c : ascii) (s : string) :
  contains old (String c s) = false ->
  String.prefix old (String c s) = false /\ contains old s = false.
Proof.
  cbn [contains]. destruct (String.prefix old (String c s)); [discriminate | auto].
Qed.

Lemma replace_from_absent (old new : string) (s : string) :
  contains old s = false -> replace_from old new 0 s = s.
Proof.
  induction s as [|c s IH]; intros H; [reflexivity |].
  apply contains_cons_false in H as [Hp Hc].
  cbn [replace_from]. rewrite Hp, (IH Hc). reflexivity.
Qed.

Lemma str_replace_absent (old new s : string) :
  old <> EmptyString -> contains old s = false -> str_replace old new s = s.
Proof.
  intros Hold H. unfold str_replace.
  destruct old; [congruence | apply replace_from_absent; exact H].
Qed.

Lemma str_replace_same (old s : string) :
  old <> EmptyString -> str_replace old old s = s.
Proof.
  intros Hold. unfold str_replace.
  destruct old as [|c old]; [congruence |].
  rewrite replace_from_same by discriminate. reflexivity.
Qed.

(** X22.  [clean_namespaces] returns its text unchanged in two cases:
    when none of the four strings that it searches for occurs in the
    text (["<"] or ["</"], then the prefix of the envelope, then the
    name of the header child or of the body child), and, for every
    text, when the prefixes of both children are the prefix of the
    envelope. *)
Theorem X22_clean_namespaces_unchanged_text
    (envelope_str envelope_prefix body_child_name header_child_name : string) :
  (forall header_child_prefix body_child_prefix : string,
      contains ("<" +:+ envelope_prefix +:+ header_child_name) envelope_str = false ->
      contains ("</" +:+ envelope_prefix +:+ header_child_name) envelope_str = false ->
      contains ("<" +:+ envelope_prefix +:+ body_child_name) envelope_str = false ->
      contains ("</" +:+ envelope_prefix +:+ body_child_name) envelope_str = false ->
      Soap.clean_namespaces envelope_str envelope_prefix body_child_name
        header_child_name header_child_prefix body_child_prefix
      = envelope_str)
  /\ Soap.clean_namespaces envelope_str envelope_prefix body_child_name
       header_child_name envelope_prefix envelope_prefix
     = envelope_str.
Proof.
  unfold Soap.clean_namespaces. split.
  - intros hp bp H1 H2 H3 H4.
    rewrite (str_replace_absent _ _ envelope_str) by (discriminate || exact H1).
    rewrite (str_replace_absent _ _ envelope_str) by (discriminate || exact H2).
    rewrite (str_replace_absent _ _ envelope_str) by (discriminate || exact H3).
    apply str_replace_absent; [discriminate | exact H4].
  - rewrite !str_replace_same by discriminate. reflexivity.
Qed.

Lemma X22_clean_namespaces_unchanged_text_witness :
  Soap.clean_namespaces "<tns:Body><frt:Other/></tns:Body>" "tns:"
    "FreightRateRequest" "UPSSecurity" "upss:" "frt:"
  = "<tns:Body><frt:Other/></tns:Body>"%string.
Proof.
  destruct (X22_clean_namespaces_unchanged_text
              "<tns:Body><frt:Other/></tns:Body>" "tns:" "FreightRateRequest"
              "UPSSecurity") as [Habsent _].
  apply Habsent; vm_compute; reflexivity.
Defined.

(** ** The rate request of DHL *)

Lemma enumerate_lookup {A : Type} (items : list A) :
  forall (start i n : nat) (x : A),
    enumerate start items !! i = Some (n, x)
    <-> n = (start + i)%nat /\ items !! i = Some x.
Proof.
  induction items as [|item items IH]; intros start i n x; cbn [enumerate].
  - rewrite !lookup_nil. split; [discriminate | intros [_ H]; discriminate].
  - destruct i as [|i]; cbn.
    + split; [intros [= <- <-]; split; [lia | reflexivity] |].
      intros [-> [= <-]]. f_equal. f_equal. lia.
    + rewrite IH. split; intros [-> H]; (split; [lia | exact H]).
Qed.

Lemma enumerate_length {A : Type} (items : list A) (start : nat) :
  List.length (enumerate start items) = List.length items.
Proof.
  revert start. induction items as [|item items IH]; intros start; [reflexivity |].
  cbn [enumerate List.length]. rewrite IH. reflexivity.
Qed.

Lemma member_values_spec (members : list (string * string)) (names : list string)
    (value : string) :
  value ∈ member_values members names
  <-> exists name, name ∈ names /\ Enum_getitem members (Some name) = Ok value.
Proof.
  unfold member_values. rewrite list_elem_of_In, in_flat_map. split.
  - intros (name & Hname & Hv). exists name.
    split; [apply list_elem_of_In; exact Hname |].
    destruct (Enum_is_member members name); [| destruct Hv].
    destruct (Enum_getitem members (Some name)) as [v|]; [| destruct Hv].
    destruct Hv as [<- | []]. reflexivity.
  - intros (name & Hname & Hv). exists name.
    split; [apply list_elem_of_In; exact Hname |].
    assert (Hm : Enum_is_member members name = true).
    { clear Hname. unfold Enum_is_member.
      induction members as [|[n v] members IH]; cbn in Hv |- *; [discriminate |].
      destruct (String.eqb n name); [reflexivity | exact (IH Hv)]. }
    rewrite Hm, Hv. left. reflexivity.
Qed.

Section DHL_request.

Variable Request_ : Type.
Variable settings_Request : Request_.
Variable account_number : option string.
Variable ProductCode : list (string * string).
Variable dhl_express_worldwide_doc : string.
Variable dhl_express_worldwide_nondoc : string.
Variable dhl_express_easy_doc : string.
Variable dhl_express_easy_nondoc : string.
Variable SpecialServiceCode : list (string * string).
Variable dhl_paperless_trade : string.
Variable DCTPackageType : list (string * string).
Variable both_time_and_day_definite : string.
Variable PackagePresets : gmap string PackagePreset.t.
Variable strftime : string -> string.
Variable Insurance : Type.
Variable Insurance_init : pydict -> result Insurance.
Variable Insurance_amount : Insurance -> option float.

(** X23.  The rate request of DHL validates before it builds.  A
    failure of the construction of the packages with the weight
    required, such as the field error that lists the parcels without a
    weight, is the failure of the request.  In a request that is built
    there is one piece for each parcel, in the order of the parcels and
    counted by [NumberOfPieces], and the weights are declared in pounds.
    The piece of a parcel is identified by the identifier of the parcel,
    or by its position counted from 1 when the parcel has none, and its
    weight is a number: the weight of the package of the parcel, which
    resolves, converted to pounds by [Weight.LB]. *)
Theorem X23_dct_request_pieces (payload : RateRequest.t) :
  let build :=
    DHLRequest.dct_request Request_ settings_Request account_number ProductCode
      dhl_express_worldwide_doc dhl_express_worldwide_nondoc dhl_express_easy_doc
      dhl_express_easy_nondoc SpecialServiceCode dhl_paperless_trade DCTPackageType
      both_time_and_day_definite PackagePresets strftime Insurance Insurance_init
      Insurance_amount payload in
  let parcels := RateRequest.parcels payload in
  (forall e,
      Packages.__init__ (map RateParcel.parcel parcels) (Some PackagePresets)
                        (Some ["weight"%string]) = Raise e ->
      build = Raise e)
  /\ forall request,
       build = Ok request ->
       let details :=
         DHLRequest.BkgDetails Request_ (DHLRequest.GetQuote Request_ request) in
       DHLRequest.NumberOfPieces details = List.length parcels
       /\ List.length (DHLRequest.Pieces details) = List.length parcels
       /\ DHLRequest.WeightUnit_ details = "LB"%string
       /\ forall i piece parcel,
            DHLRequest.Pieces details !! i = Some piece ->
            parcels !! i = Some parcel ->
            let package :=
              Package.__init__
                (RateParcel.parcel parcel)
                (Packages.compute_preset (Some PackagePresets)
                                         (RateParcel.parcel parcel)) in
            DHLRequest.PieceID piece
            = py_or_str (RateParcel.id parcel) (Some (pretty (S i)))
            /\ exists weight pounds,
                 Package.weight package = Ok weight
                 /\ Weight.LB weight = Some pounds
                 /\ DHLRequest.Weight_ piece = Some pounds.
Proof.
  cbn zeta. unfold DHLRequest.dct_request. split.
  - intros e ->. reflexivity.
  - intros request H.
    destruct (Packages.__init__ _ _ _) as [packages|e] eqn:Hinit; cbn [bind] in H;
      [| discriminate].
    cbn zeta in H.
    destruct (mapM _ _) as [pieces|e] eqn:Hpieces; cbn [bind] in H; [| discriminate].
    step_bind H. injection H as <-.
    cbn [DHLRequest.GetQuote DHLRequest.BkgDetails DHLRequest.NumberOfPieces
         DHLRequest.Pieces].
    destruct (Packages_init_inv _ _ _ _ Hinit) as [Hitems Hall].
    assert (Hlen : List.length (Packages._items packages)
                   = List.length (RateRequest.parcels payload)).
    { rewrite Hitems, !length_map. reflexivity. }
    apply mapM_Forall2 in Hpieces.
    pose proof (Forall2_length _ _ _ Hpieces) as Hl.
    rewrite enumerate_length, length_zip_with in Hl.
    split; [exact Hlen |]. split; [lia |].
    cbn [DHLRequest.WeightUnit_]. split; [reflexivity |].
    intros i piece parcel Hi Hparcel.
    destruct (Forall2_lookup_r _ _ _ _ _ Hpieces Hi)
      as ([index [package parcel']] & Hx & Hpiece).
    apply enumerate_lookup in Hx as [-> Hx].
    apply lookup_zip_Some in Hx as [Hpkg Hx].
    assert (parcel' = parcel) as -> by congruence.
    assert (Hw : missing_at package "weight" = Ok false).
    { apply (Hall ["weight"%string] package "weight"%string eq_refl);
        [apply list_elem_of_lookup; eauto | left]. }
    rewrite Hitems, !list_lookup_fmap, Hparcel in Hpkg. cbn in Hpkg.
    injection Hpkg as <-.
    destruct (present_weight_contributes _ Hw) as (w & lb & Hpw & Hc).
    unfold DHLRequest.piece in Hpiece. rewrite Hpw in Hpiece.
    step_bind Hpiece. injection Hpiece as <-.
    cbn [DHLRequest.PieceID DHLRequest.Weight_].
    split; [reflexivity |].
    exists w. unfold contribution in Hc.
    destruct (Weight.LB w) as [pounds|].
    + exists pounds. repeat split. exact Hpw.
    + destruct (Weight.value w) as [[]|]; discriminate.
Qed.

(** X24.  The products and the duties of the rate request of DHL.  A
    request that is built names at least one product: the codes of the
    requested services that are members of [ProductCode], in the order
    of the request, the other services being left out; and when none is
    a member, the one default product of the shipment, by whether it is
    international and whether all its parcels are documents.  The
    shipment is dutiable exactly when not all its parcels are documents;
    the declaration of duties is present exactly when it is dutiable and
    international, and then the paperless trade comes last among the
    special services of every product. *)
Theorem X24_dct_request_products_and_duties (payload : RateRequest.t)
    (request : DHLRequest.DCTRequest Request_) :
  DHLRequest.dct_request Request_ settings_Request account_number ProductCode
    dhl_express_worldwide_doc dhl_express_worldwide_nondoc dhl_express_easy_doc
    dhl_express_easy_nondoc SpecialServiceCode dhl_paperless_trade DCTPackageType
    both_time_and_day_definite PackagePresets strftime Insurance Insurance_init
    Insurance_amount payload
  = Ok request ->
  let quote := DHLRequest.GetQuote Request_ request in
  let details := DHLRequest.BkgDetails Request_ quote in
  let codes := map DHLRequest.GlobalProductCode (DHLRequest.QtdShp details) in
  let recognized := member_values ProductCode (RateRequest.services payload) in
  let international :=
    Address.country_code (RateRequest.shipper payload)
    <> Address.country_code (RateRequest.recipient payload) in
  let documents :=
    Forall (fun parcel => RateParcel.is_document parcel = Some true)
           (RateRequest.parcels payload) in
  let requested :=
    member_values SpecialServiceCode (dict_keys (RateRequest.options payload)) in
  codes <> []
  /\ (recognized <> [] -> codes = recognized)
  /\ (recognized = [] ->
      (international -> documents -> codes = [dhl_express_worldwide_doc])
      /\ (international -> ~ documents -> codes = [dhl_express_worldwide_nondoc])
      /\ (~ international -> documents -> codes = [dhl_express_easy_doc])
      /\ (~ international -> ~ documents -> codes = [dhl_express_easy_nondoc]))
  /\ (DHLRequest.IsDutiable details = "Y"%string <-> ~ documents)
  /\ (DHLRequest.IsDutiable details = "N"%string <-> documents)
  /\ (DHLRequest.Dutiable Request_ quote <> None <-> international /\ ~ documents)
  /\ Forall (fun product =>
               DHLRequest.LocalProductCode product
               = DHLRequest.GlobalProductCode product
               /\ ((international /\ ~ documents ->
                    DHLRequest.QtdShpExChrg product
                    = requested ++ [dhl_paperless_trade])
                   /\ (~ (international /\ ~ documents) ->
                       DHLRequest.QtdShpExChrg product = requested)))
            (DHLRequest.QtdShp details).
Proof.
  unfold DHLRequest.dct_request. intros H.
  destruct (Packages.__init__ _ _ _) as [packages|e] eqn:Hinit; cbn [bind] in H;
    [| discriminate].
  cbn zeta in H.
  destruct (mapM _ _) as [pieces|e] eqn:Hpieces; cbn [bind] in H; [| discriminate].
  step_bind H. injection H as <-.
  cbn [DHLRequest.GetQuote DHLRequest.BkgDetails DHLRequest.QtdShp
       DHLRequest.IsDutiable DHLRequest.Dutiable].
  rewrite map_map. cbn [DHLRequest.GlobalProductCode]. rewrite map_id.
  set (recognized := member_values ProductCode (RateRequest.services payload)).
  set (requested :=
         member_values SpecialServiceCode (dict_keys (RateRequest.options payload))).
  assert (Hint : negb (bool_decide
                         (Address.country_code (RateRequest.shipper payload)
                          = Address.country_code (RateRequest.recipient payload)))
                 = true
                 <-> Address.country_code (RateRequest.shipper payload)
                     <> Address.country_code (RateRequest.recipient payload)).
  { rewrite negb_true_iff, bool_decide_eq_false. reflexivity. }
  assert (Hdoc : forallb (fun parcel => truthy_bool (RateParcel.is_document parcel))
                         (RateRequest.parcels payload) = true
                 <-> Forall (fun parcel => RateParcel.is_document parcel = Some true)
                            (RateRequest.parcels payload)).
  { rewrite forallb_forall, Forall_forall. split; intros Hall p Hp.
    - apply list_elem_of_In in Hp. specialize (Hall p Hp).
      destruct (RateParcel.is_document p) as [[]|]; (reflexivity || discriminate).
    - apply list_elem_of_In in Hp. rewrite (Hall p Hp). reflexivity. }
  destruct (negb (bool_decide _));
    [assert (HI : Address.country_code (RateRequest.shipper payload)
                  <> Address.country_code (RateRequest.recipient payload))
       by (apply Hint; reflexivity)
    | assert (HI : ~ Address.country_code (RateRequest.shipper payload)
                     <> Address.country_code (RateRequest.recipient payload))
       by (intros HI; apply Hint in HI; discriminate)];
    clear Hint;
    (destruct (forallb _ (RateRequest.parcels payload));
     [assert (HD : Forall (fun parcel => RateParcel.is_document parcel = Some true)
                          (RateRequest.parcels payload))
        by (apply Hdoc; reflexivity)
     | assert (HD : ~ Forall (fun parcel => RateParcel.is_document parcel = Some true)
                             (RateRequest.parcels payload))
        by (intros HD; apply Hdoc in HD; discriminate)]);
    clear Hdoc; cbn [negb andb];
    destruct recognized as [|code codes]; cbn [List.length Nat.eqb map];
    repeat apply conj;
    try (apply Forall_forall; intros product Hp;
         repeat (apply elem_of_cons in Hp as [-> | Hp]);
         try (apply list_elem_of_In, in_map_iff in Hp as (c & <- & _));
         try (apply elem_of_nil in Hp; destruct Hp);
         cbn [DHLRequest.LocalProductCode DHLRequest.GlobalProductCode
              DHLRequest.QtdShpExChrg]);
    intros; repeat (split; intros);
    solve [reflexivity | discriminate | congruence | tauto].
Qed.

End DHL_request.

Lemma X23_dct_request_pieces_witness :
  exists request,
    dhl_dct_request (a_rate_request some_rate_parcels ["dhl_express_worldwide"]%string)
    = Ok request
    /\ map DHLRequest.PieceID
           (DHLRequest.Pieces
              (DHLRequest.BkgDetails unit (DHLRequest.GetQuote unit request)))
       = [Some "1"; Some "2"]%string
    /\ map DHLRequest.Weight_
           (DHLRequest.Pieces
              (DHLRequest.BkgDetails unit (DHLRequest.GetQuote unit request)))
       = [Some (PyFloat.of_ratio 25 10); Some (PyFloat.of_ratio 22 10)].
Proof.
  destruct (dhl_dct_request
              (a_rate_request some_rate_parcels ["dhl_express_worldwide"]%string))
    as [request|] eqn:Hrequest; [| vm_compute in Hrequest; discriminate].
  exists request. split; [reflexivity |].
  destruct (X23_dct_request_pieces unit tt None
              [("dhl_express_worldwide", "P"); ("dhl_express_easy", "8")]%string
              "D" "P" "7" "8" [("dhl_insurance", "II")]%string "WY"
              [("your_packaging", "BOX")]%string "AL" ∅ (fun format => format)
              pydict spec_model_init (fun _ => Some (PyFloat.of_Z 75))
              (a_rate_request some_rate_parcels ["dhl_express_worldwide"]%string))
    as [_ Hpieces].
  destruct (Hpieces request Hrequest) as (_ & Hlen & _ & Hpiece).
  destruct (DHLRequest.Pieces _) as [|p1 [|p2 [|p3 rest]]];
    cbn in Hlen; try discriminate.
  destruct (Hpiece 0%nat p1 _ eq_refl eq_refl) as (Hid1 & w1 & lb1 & Hw1 & Hlb1 & Hp1).
  destruct (Hpiece 1%nat p2 _ eq_refl eq_refl) as (Hid2 & w2 & lb2 & Hw2 & Hlb2 & Hp2).
  vm_compute in Hw1. injection Hw1 as <-. vm_compute in Hlb1. injection Hlb1 as <-.
  vm_compute in Hw2. injection Hw2 as <-. vm_compute in Hlb2. injection Hlb2 as <-.
  cbn [map]. rewrite Hid1, Hid2, Hp1, Hp2. split; vm_compute; reflexivity.
Defined.

Lemma X24_dct_request_products_and_duties_witness :
  exists request,
    dhl_dct_request
      (a_rate_request some_rate_parcels ["unknown"; "dhl_express_worldwide"]%string)
    = Ok request
    /\ map DHLRequest.GlobalProductCode
           (DHLRequest.QtdShp
              (DHLRequest.BkgDetails unit (DHLRequest.GetQuote unit request)))
       = ["P"]%string
    /\ DHLRequest.Dutiable unit (DHLRequest.GetQuote unit request) <> None.
Proof.
  destruct (dhl_dct_request
              (a_rate_request some_rate_parcels
                              ["unknown"; "dhl_express_worldwide"]%string))
    as [request|] eqn:Hrequest; [| vm_compute in Hrequest; discriminate].
  exists request. split; [reflexivity |].
  destruct (X24_dct_request_products_and_duties unit tt None
              [("dhl_express_worldwide", "P"); ("dhl_express_easy", "8")]%string
              "D" "P" "7" "8" [("dhl_insurance", "II")]%string "WY"
              [("your_packaging", "BOX")]%string "AL" ∅ (fun format => format)
              pydict spec_model_init (fun _ => Some (PyFloat.of_Z 75))
              _ request Hrequest)
    as (_ & Hcodes & _ & _ & _ & Hduties & _).
  split.
  - apply Hcodes. vm_compute. discriminate.
  - apply Hduties. split; [vm_compute; discriminate |].
    intros Hdocs. apply Forall_cons in Hdocs as [Hdoc _]. discriminate.
Defined.

(** ** The freight-rate request of UPS *)

(** No member of an enumeration is found under a member of
    [WeightUnit]. *)
Lemma Enum_getitem_key_member {A : Type} (members : list (string * A))
    (member : WeightUnit.t) :
  Enum_getitem_key members (MemberKey member) = Raise KeyError.
Proof.
  induction members as [|[name value] members IH]; [reflexivity |].
  cbn [Enum_getitem_key enum_key_eqb]. exact IH.
Qed.

Section UPS_request.

Variable Security : Type.
Variable settings_Security : Soap.Content Security.
Variable RatingServiceCode : list (string * string).
Variable ups_freight_ltl_guaranteed : string.
Variable UPSWeightUnit : list (string * string).
Variable FreightPackagingType : list (string * string).
Variable PackagePresets : gmap string PackagePreset.t.
Variable concat_str : option string -> option string -> option string.

(** X25.  The freight-rate request of UPS is built for a request
    without parcels only.  As soon as there is a parcel the request
    raises [KeyError]: the weight unit of a package is a member of
    [WeightUnit], with which the enumeration of the weight units of
    the carrier is indexed, and an enumeration has no member under such
    a key.  Without parcels the envelope holds a request without
    commodities for the first requested service that is a member of
    [RatingServiceCode], or for the guaranteed freight service when
    none is, under the header of the settings. *)
Theorem X25_ups_freight_rate_request (payload : RateRequest.t) :
  let build :=
    UPSRequest.freight_rate_request Security settings_Security RatingServiceCode
      ups_freight_ltl_guaranteed UPSWeightUnit FreightPackagingType PackagePresets
      concat_str payload in
  (RateRequest.parcels payload <> [] -> build = Raise KeyError)
  /\ (RateRequest.parcels payload = [] ->
      exists envelope request,
        build = Ok envelope
        /\ map Soap.content (Soap.anytypeobjs_ (Soap.Body envelope)) = [request]
        /\ UPSRequest.Commodity request = []
        /\ UPSRequest.Code (UPSRequest.Service request)
           = List.hd ups_freight_ltl_guaranteed
               (member_values RatingServiceCode (RateRequest.services payload))
        /\ (exists header,
               Soap.Header envelope = Some header
               /\ map Soap.content (Soap.anytypeobjs_ header)
                  = [Soap.content settings_Security])).
Proof.
  cbn zeta. unfold UPSRequest.freight_rate_request, Packages.__init__.
  cbn [bind Packages._items]. split.
  - intros Hparcels.
    destruct (RateRequest.parcels payload) as [|parcel parcels]; [congruence |].
    cbn [map zip zip_with mapM].
    assert (Hfirst : forall package,
               UPSRequest.commodity UPSWeightUnit FreightPackagingType package parcel
               = Raise KeyError).
    { intros package. unfold UPSRequest.commodity, Package.weight_unit.
      destruct (WeightUnit_getitem _) as [unit|e] eqn:Hunit; cbn [bind];
        [rewrite Enum_getitem_key_member; reflexivity |].
      f_equal. revert Hunit. generalize
        (match Parcel.weight (Package.parcel package) with
         | Some _ => py_or_str (Parcel.weight_unit (Package.parcel package))
                       (PackagePreset.weight_unit (Package.preset package))
         | None => PackagePreset.weight_unit (Package.preset package)
         end).
      intros name. unfold WeightUnit_getitem.
      repeat match goal with
             | |- context [match ?x with _ => _ end] => destruct x
             end; congruence. }
    rewrite Hfirst. reflexivity.
  - intros ->. cbn [map zip zip_with mapM bind].
    eexists _, _. split; [reflexivity |]. cbn.
    split; [reflexivity |]. split; [reflexivity |]. split.
    + destruct (member_values RatingServiceCode (RateRequest.services payload));
        reflexivity.
    + eexists. split; reflexivity.
Qed.

End UPS_request.

Lemma X25_ups_freight_rate_request_witness :
  ups_freight_rate_request (a_rate_request some_rate_parcels ["ups_freight_ltl"]%string)
  = Raise KeyError.
Proof.
  destruct (X25_ups_freight_rate_request unit
              {| Soap.ns_prefix_ := Some "upss"%string;
                 Soap.original_tagname_ := Some "UPSSecurity"%string;
                 Soap.content := tt |}
              [("ups_freight_ltl", "308"); ("ups_freight_ltl_guaranteed", "309")]%string
              "309" [("KG", "KGS"); ("LB", "LBS")]%string
              [("small_box", "BOX")]%string ∅ (fun line1 line2 => line1)
              (a_rate_request some_rate_parcels ["ups_freight_ltl"]%string))
    as [Hraise _].
  apply Hraise. discriminate.
Defined.

(** ** The freight record of UPS with its sub-objects *)

Lemma comprehension_filter {A B : Type} (c : A -> result bool) (p : A -> bool)
    (e : A -> result B) (l : list A) :
  Forall (fun x => c x = Ok (p x)) l ->
  UPSRecord.comprehension c e l = mapM e (List.filter p l).
Proof.
  induction 1 as [|x l Hx _ IH]; [reflexivity |].
  cbn [UPSRecord.comprehension List.filter]. rewrite Hx. cbn [bind].
  destruct (p x); [cbn [mapM]; rewrite IH; reflexivity | exact IH].
Qed.

Lemma comprehension_conditions {A B : Type} (c : A -> result bool)
    (e : A -> result B) (l : list A) (ys : list B) :
  UPSRecord.comprehension c e l = Ok ys ->
  Forall (fun x => exists b, c x = Ok b) l.
Proof.
  revert ys. induction l as [|x l IH]; intros ys H; [constructor |].
  cbn [UPSRecord.comprehension] in H.
  destruct (c x) as [b|] eqn:Hc; cbn [bind] in H; [| discriminate].
  constructor; [eauto |]. destruct b.
  - destruct (e x); cbn [bind] in H; [| discriminate].
    destruct (UPSRecord.comprehension c e l) as [ys'|] eqn:Hr; [| discriminate].
    eapply IH. reflexivity.
  - eapply IH. exact H.
Qed.

Lemma mapM_Ok {A : Type} (l : list A) : mapM Ok l = Ok l.
Proof.
  induction l as [|x l IH]; [reflexivity |].
  cbn [mapM bind]. rewrite IH. reflexivity.
Qed.

Lemma filter_map_flat (q : UPS.RateType -> bool) (l : list UPSRecord.RateType) :
  List.filter q (map flat_line l)
  = map flat_line (List.filter (fun r => q (flat_line r)) l).
Proof.
  induction l as [|r l IH]; [reflexivity |].
  cbn [map List.filter]. destruct (q (flat_line r)); cbn [map]; rewrite IH; reflexivity.
Qed.

Lemma code_is_typed (code : string) (r : UPSRecord.RateType) :
  UPSRecord.Type_ r <> None ->
  UPSRecord.code_is code r = Ok (UPS.code_is code (flat_line r))
  /\ UPSRecord.is_surcharge r = Ok (UPS.is_surcharge (flat_line r)).
Proof.
  unfold UPSRecord.code_is, UPSRecord.is_surcharge, UPS.is_surcharge, UPS.code_is,
    flat_line, line_code.
  cbn [UPS.Type_Code]. destruct (UPSRecord.Type_ r); [| congruence].
  intros _. split; reflexivity.
Qed.

Lemma code_is_inv (r : UPSRecord.RateType) :
  (exists code b, UPSRecord.code_is code r = Ok b) -> UPSRecord.Type_ r <> None.
Proof.
  intros (code & b & H). unfold UPSRecord.code_is in H.
  destruct (UPSRecord.Type_ r); [discriminate | discriminate].
Qed.

Lemma charge_of_flat (r : UPSRecord.RateType) :
  UPSRecord.Type_ r <> None ->
  (exists factor, UPSRecord.Factor r = Some factor
                  /\ UPSRecord.UnitOfMeasurement factor <> None) ->
  UPSRecord.charge_of r = Ok (UPS.charge_of (flat_line r)).
Proof.
  intros Ht (factor & Hf & Hu).
  unfold UPSRecord.charge_of, UPS.charge_of, flat_line, line_code.
  cbn [UPS.Type_Code UPS.Factor_Value UPS.Factor_UnitOfMeasurement_Code].
  rewrite Hf. destruct (UPSRecord.Type_ r); [| congruence].
  cbn [UPSRecord.attribute bind].
  destruct (UPSRecord.UnitOfMeasurement factor); [| congruence].
  reflexivity.
Qed.

Lemma charge_of_inv (r : UPSRecord.RateType) (charge : ChargeDetails.t) :
  UPSRecord.charge_of r = Ok charge ->
  exists factor, UPSRecord.Factor r = Some factor
                 /\ UPSRecord.UnitOfMeasurement factor <> None.
Proof.
  unfold UPSRecord.charge_of. intros H.
  destruct (UPSRecord.Type_ r); cbn [UPSRecord.attribute bind] in H; [| discriminate].
  destruct (UPSRecord.Factor r) as [factor|]; cbn [UPSRecord.attribute bind] in H;
    [| discriminate].
  exists factor. split; [reflexivity |].
  destruct (UPSRecord.UnitOfMeasurement factor); [discriminate | discriminate H].
Qed.

Lemma mapM_charge_of_flat (l : list UPSRecord.RateType) :
  Forall (fun r => UPSRecord.Type_ r <> None
                   /\ exists factor, UPSRecord.Factor r = Some factor
                                     /\ UPSRecord.UnitOfMeasurement factor <> None) l ->
  mapM UPSRecord.charge_of l = Ok (map UPS.charge_of (map flat_line l)).
Proof.
  induction 1 as [|r l [Ht Hf] _ IH]; [reflexivity |].
  cbn [mapM map]. rewrite (charge_of_flat r Ht Hf). cbn [bind]. rewrite IH.
  reflexivity.
Qed.

(** The lines of a selection of reported lines have the sub-objects
    that a charge reads. *)
Lemma selected_lines_measured (q : UPS.RateType -> bool)
    (rates : list UPSRecord.RateType) :
  (forall r, q (flat_line r) = true -> line_reported r = true) ->
  Forall (fun r => UPSRecord.Type_ r <> None) rates ->
  Forall (fun r => line_reported r = true ->
                   exists factor, UPSRecord.Factor r = Some factor
                                  /\ UPSRecord.UnitOfMeasurement factor <> None)
         rates ->
  Forall (fun r => UPSRecord.Type_ r <> None
                   /\ exists factor, UPSRecord.Factor r = Some factor
                                     /\ UPSRecord.UnitOfMeasurement factor <> None)
         (List.filter (fun r => q (flat_line r)) rates).
Proof.
  intros Hq Htype Hrep. rewrite Forall_forall in Htype, Hrep |- *.
  intros r Hr. apply list_elem_of_In, filter_In in Hr as [Hin Hsel].
  apply list_elem_of_In in Hin. split; [exact (Htype r Hin) |].
  exact (Hrep r Hin (Hq r Hsel)).
Qed.

Lemma discount_reported (r : UPSRecord.RateType) :
  UPS.code_is "DSCNT" (flat_line r) = true -> line_reported r = true.
Proof.
  intros H. change (reported (flat_line r) = true).
  rewrite (proj1 (reported_split (flat_line r))), H. reflexivity.
Qed.

Lemma surcharge_reported (r : UPSRecord.RateType) :
  UPS.is_surcharge (flat_line r) = true -> line_reported r = true.
Proof.
  intros H. change (reported (flat_line r) = true).
  rewrite (proj1 (reported_split (flat_line r))), H. apply orb_true_r.
Qed.

(** When the sub-objects that the extraction reads are present, the
    extraction is that of the record read through its sub-objects. *)
Lemma extract_freight_rate_flat
    (FreightRateResponse_build : Element -> UPSRecord.FreightRateResponse)
    (detail_node : Element) (settings : Settings) :
  sub_objects_present (FreightRateResponse_build detail_node) ->
  UPSRecord._extract_freight_rate FreightRateResponse_build detail_node settings
  = UPS._extract_freight_rate (fun node => flat_record (FreightRateResponse_build node))
                              detail_node settings.
Proof.
  intros (Htype & Hrep & Hfirst & Hservice & Hcharge).
  unfold UPSRecord._extract_freight_rate, UPS._extract_freight_rate. cbn zeta.
  cbn [flat_record UPS.Rate UPS.Service_Description
       UPS.TotalShipmentCharge_MonetaryValue].
  set (rates := UPSRecord.Rate (FreightRateResponse_build detail_node)) in *.
  rewrite (comprehension_filter _ (fun r => UPS.code_is "AFTR_DSCNT" (flat_line r)))
    by (rewrite Forall_forall in Htype |- *; intros r Hr;
        apply (code_is_typed _ r (Htype r Hr))).
  rewrite (comprehension_filter _ (fun r => UPS.code_is "DSCNT" (flat_line r)))
    by (rewrite Forall_forall in Htype |- *; intros r Hr;
        apply (code_is_typed _ r (Htype r Hr))).
  rewrite (comprehension_filter _ (fun r => UPS.is_surcharge (flat_line r)))
    by (rewrite Forall_forall in Htype |- *; intros r Hr;
        apply (code_is_typed "DSCNT" r (Htype r Hr))).
  rewrite mapM_Ok, !filter_map_flat.
  rewrite (mapM_charge_of_flat _
             (selected_lines_measured (UPS.code_is "DSCNT") rates
                                      discount_reported Htype Hrep)).
  rewrite (mapM_charge_of_flat _
             (selected_lines_measured UPS.is_surcharge rates
                                      surcharge_reported Htype Hrep)).
  destruct (List.filter (fun r => UPS.code_is "AFTR_DSCNT" (flat_line r)) rates)
    as [|total rest] eqn:Hafter; cbn [map bind]; [reflexivity |].
  pose proof (Hfirst total (f_equal head Hafter)) as Hfactor.
  destruct (xpath detail_node "CurrencyCode") as [|c cs]; cbn [bind]; [reflexivity |].
  destruct (UPSRecord.Service (FreightRateResponse_build detail_node)); [| congruence].
  destruct (UPSRecord.TotalShipmentCharge (FreightRateResponse_build detail_node));
    [| congruence].
  destruct (UPSRecord.Factor total) as [factor|] eqn:Hf; [| congruence].
  replace (UPS.Factor_Value (flat_line total)) with (UPSRecord.Value factor)
    by (unfold flat_line; cbn [UPS.Factor_Value]; rewrite Hf; reflexivity).
  cbn [UPSRecord.attribute bind]. reflexivity.
Qed.

(** An extraction that returns has read every sub-object. *)
Lemma extract_freight_rate_present
    (FreightRateResponse_build : Element -> UPSRecord.FreightRateResponse)
    (detail_node : Element) (settings : Settings) (rate : RateDetails.t) :
  UPSRecord._extract_freight_rate FreightRateResponse_build detail_node settings
  = Ok rate ->
  sub_objects_present (FreightRateResponse_build detail_node).
Proof.
  unfold UPSRecord._extract_freight_rate, sub_objects_present. cbn zeta. intros H.
  set (rates := UPSRecord.Rate (FreightRateResponse_build detail_node)) in *.
  destruct (UPSRecord.comprehension (UPSRecord.code_is "AFTR_DSCNT") Ok rates)
    as [after|] eqn:Hafter; cbn [bind] in H; [| discriminate].
  assert (Htype : Forall (fun r => UPSRecord.Type_ r <> None) rates).
  { apply comprehension_conditions in Hafter.
    rewrite Forall_forall in Hafter |- *. intros r Hr.
    destruct (Hafter r Hr) as [b Hb]. apply code_is_inv. eauto. }
  rewrite (comprehension_filter _ (fun r => UPS.code_is "AFTR_DSCNT" (flat_line r)))
    in Hafter
    by (rewrite Forall_forall in Htype |- *; intros r Hr;
        apply (code_is_typed _ r (Htype r Hr))).
  rewrite (comprehension_filter _ (fun r => UPS.code_is "DSCNT" (flat_line r))) in H
    by (rewrite Forall_forall in Htype |- *; intros r Hr;
        apply (code_is_typed _ r (Htype r Hr))).
  rewrite (comprehension_filter _ (fun r => UPS.is_surcharge (flat_line r))) in H
    by (rewrite Forall_forall in Htype |- *; intros r Hr;
        apply (code_is_typed "DSCNT" r (Htype r Hr))).
  rewrite mapM_Ok in Hafter. injection Hafter as <-.
  destruct (List.filter (fun r => UPS.code_is "AFTR_DSCNT" (flat_line r)) rates)
    as [|total rest] eqn:Hfilter; cbn [bind] in H; [discriminate |].
  destruct (mapM UPSRecord.charge_of
                 (List.filter (fun r => UPS.code_is "DSCNT" (flat_line r)) rates))
    as [discounts|] eqn:Hd; cbn [bind] in H; [| discriminate].
  destruct (mapM UPSRecord.charge_of
                 (List.filter (fun r => UPS.is_surcharge (flat_line r)) rates))
    as [surcharges|] eqn:Hs; cbn [bind] in H; [| discriminate].
  destruct (xpath detail_node "CurrencyCode") as [|c cs]; cbn [bind] in H;
    [discriminate |].
  destruct (UPSRecord.Service (FreightRateResponse_build detail_node));
    cbn [UPSRecord.attribute bind] in H; [| discriminate].
  destruct (UPSRecord.TotalShipmentCharge (FreightRateResponse_build detail_node));
    cbn [UPSRecord.attribute bind] in H; [| discriminate].
  destruct (UPSRecord.Factor total) as [factor|] eqn:Hfactor;
    cbn [UPSRecord.attribute bind] in H; [| discriminate].
  split; [exact Htype |]. split; [| split; [| split; discriminate]].
  - apply Forall_forall. intros r Hr Hrep.
    change (reported (flat_line r) = true) in Hrep.
    rewrite (proj1 (reported_split (flat_line r))) in Hrep.
    apply mapM_Forall2 in Hd, Hs.
    apply orb_true_iff in Hrep as [Hsel | Hsel].
    + assert (Hin : r ∈ List.filter (fun r => UPS.code_is "DSCNT" (flat_line r)) rates)
        by (apply list_elem_of_In, filter_In; split; [apply list_elem_of_In |];
            assumption).
      destruct (Forall2_elem_of_l _ _ _ _ Hd Hin) as (charge & _ & Hcharge).
      exact (charge_of_inv r charge Hcharge).
    + assert (Hin : r ∈ List.filter (fun r => UPS.is_surcharge (flat_line r)) rates)
        by (apply list_elem_of_In, filter_In; split; [apply list_elem_of_In |];
            assumption).
      destruct (Forall2_elem_of_l _ _ _ _ Hs Hin) as (charge & _ & Hcharge).
      exact (charge_of_inv r charge Hcharge).
  - intros r Hr.
    assert (Hhead : head (total :: rest) = Some r) by (rewrite <- Hfilter; exact Hr).
    injection Hhead as <-. rewrite Hfactor. discriminate.
Qed.

(** X13.  What the freight-rate parser of UPS accepts.  A freight
    record is extracted if and only if every rate line has a type; a
    rate line is coded [AFTR_DSCNT] and the first such line has a
    factor; every rate line that is reported as an extra charge has a
    factor, with a unit of measurement and a value; a [CurrencyCode]
    node lies under the record; and the record has a service and a
    total shipment charge.  On every other record the parser raises. *)
Theorem X13_ups_freight_rate_accepted
    (FreightRateResponse_build : Element -> UPSRecord.FreightRateResponse)
    (detail_node : Element) (settings : Settings) :
  let detail := FreightRateResponse_build detail_node in
  (exists rate,
      UPSRecord._extract_freight_rate FreightRateResponse_build detail_node settings
      = Ok rate)
  <-> Forall (fun r => UPSRecord.Type_ r <> None) (UPSRecord.Rate detail)
      /\ (exists r,
             head (List.filter (line_coded "AFTR_DSCNT") (UPSRecord.Rate detail))
             = Some r
             /\ UPSRecord.Factor r <> None)
      /\ Forall (fun r => line_reported r = true ->
                          exists factor value,
                            UPSRecord.Factor r = Some factor
                            /\ UPSRecord.UnitOfMeasurement factor <> None
                            /\ UPSRecord.Value factor = Some value)
                (UPSRecord.Rate detail)
      /\ (exists c, below detail_node c /\ tag c = "CurrencyCode"%string)
      /\ UPSRecord.Service detail <> None
      /\ UPSRecord.TotalShipmentCharge detail <> None.
Proof.
  cbn zeta.
  set (rates := UPSRecord.Rate (FreightRateResponse_build detail_node)).
  pose proof (flat_freight_rate_accepted
                (fun node => flat_record (FreightRateResponse_build node))
                detail_node settings) as Hflat.
  cbn zeta in Hflat. cbn [flat_record UPS.Rate] in Hflat. fold rates in Hflat.
  split.
  - intros [rate H].
    pose proof (extract_freight_rate_present _ _ _ _ H) as Hpresent.
    rewrite (extract_freight_rate_flat _ _ _ Hpresent) in H.
    destruct (proj1 Hflat (ex_intro _ rate H)) as (Hafter & Hcurrency & Hvalue).
    destruct Hpresent as (Htype & Hrep & Hfirst & Hservice & Hcharge).
    fold rates in Htype, Hrep, Hfirst.
    split; [exact Htype |]. split; [| split; [| split; [exact Hcurrency |]]].
    + destruct (List.filter (line_coded "AFTR_DSCNT") rates) as [|r rest] eqn:Hf.
      * exfalso. apply Exists_exists in Hafter as (x & Hx & Hcode).
        apply list_elem_of_In, in_map_iff in Hx as (r & <- & Hr).
        assert (Hin : In r (List.filter (line_coded "AFTR_DSCNT") rates))
          by (apply filter_In; split; assumption).
        rewrite Hf in Hin. destruct Hin.
      * exists r. split; [reflexivity |]. apply Hfirst. reflexivity.
    + rewrite Forall_forall in Hrep. rewrite Forall_forall in Hvalue.
      apply Forall_forall. intros r Hr Hreported.
      destruct (Hrep r Hr Hreported) as (factor & Hfactor & Hunit).
      assert (Hv : UPS.Factor_Value (flat_line r) <> None).
      { apply Hvalue; [| exact Hreported].
        apply list_elem_of_In, in_map, list_elem_of_In. exact Hr. }
      unfold flat_line in Hv. cbn [UPS.Factor_Value] in Hv. rewrite Hfactor in Hv.
      destruct (UPSRecord.Value factor) as [value|] eqn:Hval; [| congruence].
      exists factor, value. auto.
    + split; assumption.
  - intros (Htype & (total & Hhead & Hfactor) & Hrep & Hcurrency & Hservice & Hcharge).
    assert (Hpresent : sub_objects_present (FreightRateResponse_build detail_node)).
    { unfold sub_objects_present. fold rates.
      split; [exact Htype |]. split; [| split; [| split; assumption]].
      - rewrite Forall_forall in Hrep. apply Forall_forall. intros r Hr Hreported.
        destruct (Hrep r Hr Hreported) as (factor & value & Hf & Hu & _). eauto.
      - intros r Hr. rewrite Hhead in Hr. injection Hr as <-. exact Hfactor. }
    rewrite (extract_freight_rate_flat _ _ _ Hpresent).
    apply Hflat. split; [| split; [exact Hcurrency |]].
    + apply Exists_exists. exists (flat_line total).
      assert (Hin : In total (List.filter (line_coded "AFTR_DSCNT") rates)).
      { destruct (List.filter (line_coded "AFTR_DSCNT") rates) as [|r rest];
          [discriminate |]. injection Hhead as ->. left. reflexivity. }
      apply filter_In in Hin as [Hin Hcode].
      split; [apply list_elem_of_In, in_map; exact Hin | exact Hcode].
    + rewrite Forall_forall in Hrep. apply Forall_forall. intros x Hx Hreported.
      apply list_elem_of_In, in_map_iff in Hx as (r & <- & Hr).
      apply list_elem_of_In in Hr.
      destruct (Hrep r Hr Hreported) as (factor & value & Hf & _ & Hv).
      unfold flat_line. cbn [UPS.Factor_Value]. rewrite Hf, Hv. discriminate.
Qed.

Lemma X13_ups_freight_rate_accepted_witness :
  exists rate, ups_extract_record a_freight_node_with_lines = Ok rate.
Proof.
  apply (X13_ups_freight_rate_accepted spec_freight_record_build
           a_freight_node_with_lines a_settings).
  split; [| split; [| split; [| split; [| split]]]].
  - vm_compute. repeat constructor; discriminate.
  - eexists. split; [vm_compute; reflexivity | discriminate].
  - vm_compute. repeat constructor; intros _; eexists _, _; repeat split; discriminate.
  - exists (leaf "CurrencyCode" "USD"). split; [| reflexivity].
    apply below_deeper with
      (Node "TotalShipmentCharge" None
            [leaf "CurrencyCode" "USD"; leaf "MonetaryValue" "23.00"]);
      [| apply below_child; left].
    cbn [children a_freight_node_with_lines]. do 4 right. left.
  - vm_compute. discriminate.
  - vm_compute. discriminate.
Defined.

(** A freight record without the element [Service] is not extracted:
    reading the description of the service raises. *)
Lemma freight_record_without_service_raises :
  ups_extract_record a_freight_node_without_service = Raise AttributeError.
Proof. vm_compute. reflexivity. Qed.
